(* ===== verification/_CoqProject ===== *)
-Q . S2P
Prelude.v
Text.v
Django.v
Orm.v
Models.v
Signals.v
Api.v
Urls.v
Admin.v
Http.v
Json.v
Paginator.v
Catalog.v
Reviews.v
Identity.v
Site.v
Tests.v
