(* ===== verification/Prelude.v ===== *)
(** * A verification library for the goodreads-clone web application

    The repository is a Django project with four applications:
    - [books]: the catalogue (Book, Author, BookAuthor) and the reviews
      (BookReview), with its admin configuration in [src/books/admin.py];
    - [users]: the CustomUser model, registration, login, profile, and the
      welcome e-mail receiver [src/users/signals.py];
    - [api]: a read-only JSON endpoint for one review,
      [src/api/views.py] routed by [src/api/urls.py];
    - [goodreads]: the project (settings, root URLs, the home page listing
      recent reviews).
    Only the admin configuration, the signal receiver, the API view and its
    URL patterns, and the test suites are present under [src/].  The models,
    forms, views and templates are not: they are modelled from the
    specification ([spec_modelled] in the manifest), through the test
    suites that are present.

    How the parts interact: the client's request is routed by the
    project's URL conf ([Site], which includes the [api] patterns of
    [Urls]) to a view ([Api], [Catalog], [Reviews], [Identity]); the view
    reads the query string or the form ([Http]), pages lists with Django's
    Paginator ([Paginator]), queries or writes the model tables ([Orm],
    [Models]); saving a [CustomUser] fires Django's [post_save] signal,
    whose receiver ([Signals]) sends the welcome e-mail through the mail
    backend; an exception that escapes a view becomes the handler's error
    response ([Django]).  The state of the whole site ([Models.AppState]) is
    the database, the outbox of the mail backend, a clock for [created_at]
    and the session's user.

    Files (in dependency order, as listed in _CoqProject):
    - [Prelude] (this file): the notation scope [gr_scope], the
      state-and-exception monad [PyM] that models Python code which mutates
      the database and may raise, the hint databases [gr] and [gr_monad],
      the tactics [invc] and [msimpl], generic lemmas.
    - [Text]: ASCII case folding ([lower]), substring search ([containsb])
      and [icontains], [str(int)] and [int(s)] on digit strings, [strip].
    - [Django]: the Python exceptions the modelled code raises, HTTP
      responses (JSON, rendered pages with their texts and form errors,
      redirects), and how the handler turns an uncaught exception into a
      status code.
    - [Orm]: a model table as rows in primary-key order with the next
      AUTOINCREMENT key; [objects.create], [objects.get], [filter],
      [count], [save]; the table invariant (keys strictly increasing,
      positive, below the next key) and its preservation.
    - [Models]: the records Book, Author, BookAuthor, BookReview and
      CustomUser, the database of their tables with the referential
      invariant, and the site state [AppState].
    - [Signals]: [Model.save] of a CustomUser with the [post_save] dispatch
      to [sen_welcome_email] ([src/users/signals.py]) and Django's
      [send_mail] through a mail backend (the interface [EmailBackend]).
    - [Api]: [BookReviewDetailAPIView] ([src/api/views.py]): its [get]
      and the dispatch of its class (405 for another method).
    - [Urls]: the [api] URL pattern of [src/api/urls.py]: [resolve] with
      the [int] converter and [reverse].
    - [Admin]: the ModelAdmin classes of [src/books/admin.py], Django's
      admin search ([smart_split], [get_search_results]) and the
      [admin.site.register] calls.
    - [Http]: requests ([Request]: method, path, query string, form, the
      session's user), Python's [int()], percent-encoding, [parse_qsl] and
      [urlencode], [redirect_to_login].
    - [Json]: the bytes of a [JsonResponse] ([json.dumps] with Django's
      defaults: separators, [ensure_ascii] escapes) and the reader a
      client applies to them ([json.loads] on flat objects).
    - [Paginator]: Django's [Paginator] ([count], [num_pages],
      [validate_number], [page], [get_page]) and an index-based
      specification of a page ([Spec.page]).
    - [Catalog]: the book list with [?q=], [?page=], [?page_size=] and the
      book detail.
    - [Reviews]: the review form and [AddReviewView.post]; the home page
      ordered by [-created_at] and paginated.
    - [Identity]: the registration and profile forms (Django's e-mail
      validator, the unique username), [RegisterView], [LoginView] through
      [authenticate] and an abstract password hasher (the class
      [PasswordHasher] with its laws), [LogoutView], the profile views
      behind [login_required] (a Section over the backend, the hasher and
      the redirect settings).
    - [Site]: the settings, the project's URL conf, one client request
      ([client]: resolve, 405 on a wrong method, the view, the exception
      handler), the admin site's add views for the models [admin.py]
      registers, and the step relation [site_step] of the whole site (a
      client request or an admin add) with its reachability and invariant.
    - [Tests]: every test method of [src/books/tests.py],
      [src/goodreads/tests.py] and [src/users/tests.py] as a boolean
      scenario played through a test client on the model.

    Theorems, by group:
    - welcome e-mail: one message per created user, to their address, none
      on update or for an empty address; a failing backend makes the save
      raise after the row is written (the specification asks for
      fire-and-forget);
    - API: the JSON object of an existing review carries its fields; a
      missing id raises [DoesNotExist], which the handler turns into 500,
      not the 404 of the specification; the body of the answer is the text
      [json.dumps] writes, and [json.loads] reads back exactly the
      review's id, stars and comment, whatever bytes the comment holds;
    - URLs: [resolve (reverse id) = id] for every id >= 0; every resolved
      path carries one id, never negative, that reverses back to it;
      leading zeros resolve to the same review;
    - admin: the search returns exactly the rows all of whose query words
      occur (case-insensitively) in some search field; an empty query
      returns every row; registration of a model twice fails; the
      registrations are what opens the admin's add views, whose model
      forms check the foreign keys, the stars validators and the required
      comment;
    - catalog: the search is exact; the list view never raises nor writes;
      the page [?page=p] shows the matching titles at offsets
      [(p-1)*k .. p*k-1], and the pages together show every matching book
      once; a page parameter that is missing, not an integer or below 1
      shows page 1 (section 4.1); a missing book is a 404;
    - reviews: a valid submission adds exactly one review, stamped with the
      clock; rejections leave the state unchanged; two submissions commute
      (the concurrency model of the specification, section 5); the home
      page shows the reviews newest first, every one once across its
      pages, and a new review first;
    - identity: registration stores a hashed password that verifies and
      mails the welcome message; invalid forms write nothing and name the
      failing field; login succeeds exactly on correct credentials; the
      profile requires a login; edits keep the password; usernames stay
      unique; a registered user can log in even when the welcome e-mail
      failed; logging out ends the session;
    - site: every reachable state, through client requests and admin
      adds, satisfies the invariant (well-formed database, unique
      usernames, reviews in time order, a session naming a stored user);
      the API answers the same through the project's URL conf, and 405 to
      a POST; the login redirect leads back to the profile; every stored
      review of a reachable state has a rating on the configured scale and
      a comment; a review posted through the client then shows last on its
      book's page and is served by the API under the key its row got;
    - tests: all sixteen test methods pass on the model
      ([Tests.test_suites_pass], a computation on the scenarios).

    Bounds and fuel: [smart_split], [quoted_units] and [py_replace] loop
    with the length of their input as fuel, which suffices because each
    round consumes at least one character ([Admin.smart_split_terminates]
    and the fuel lemmas before it: the bounded loop satisfies the
    equations of the unbounded one); the JSON reader's member loop takes the
    length of the text as fuel, which bounds the number of members
    ([Json.members_str_length]).  The settings the specification leaves
    open (the default page size, the stars range, the redirect targets) are
    parameters ([Site.Settings]); the scenarios use 10, 1..5 and [/].

    Not modelled: templates and HTML rendering (no template is in the
    repository; a page shows the texts listed by the view), the hashing
    algorithm (an abstract hasher with its laws, and a toy instance for the
    scenarios), the database engine's concurrency (the specification
    delegates it to the store's transactions), e-mail transport beyond
    success or failure, CSRF and the middleware stack, migrations, the
    admin's staff sessions and its change and delete views, request
    methods other than GET and POST, characters beyond one byte in JSON
    strings (a string of the model is bytes, each a code point below 256),
    and model field options the
    repository does not show (max_length, the ISBN format). *)

From stdpp Require Export base list strings sets.
From Stdlib Require Export ZArith Lia.

Declare Scope gr_scope.
Delimit Scope gr_scope with gr.
Open Scope gr_scope.

Create HintDb gr discriminated.
Create Rewrite HintDb gr_monad.

(** ** The state-and-exception monad of Python code

    A computation reads and writes a state [S] (the database, the mail
    outbox) and either returns an [A] or raises an [E].  As in Python
    without a transaction, the writes done before an exception are kept:
    the state is returned on both branches. *)

Definition PyM (S E A : Type) : Type := S -> S * (E + A).

Definition ret {S E A} (a : A) : PyM S E A := fun s => (s, inr a).
Definition raise {S E A} (e : E) : PyM S E A := fun s => (s, inl e).

Definition bind {S E A B} (m : PyM S E A) (k : A -> PyM S E B) : PyM S E B :=
  fun s => match m s with
           | (s', inl e) => (s', inl e)
           | (s', inr a) => k a s'
           end.

Definition get_state {S E} : PyM S E S := fun s => (s, inr s).
Definition put_state {S E} (s' : S) : PyM S E unit := fun _ => (s', inr tt).
Definition modify_state {S E} (f : S -> S) : PyM S E unit := fun s => (f s, inr tt).

(** [transaction.atomic]: an exception undoes the writes of the block. *)
Definition atomic {S E A} (m : PyM S E A) : PyM S E A :=
  fun s => match m s with
           | (_, inl e) => (s, inl e)
           | r => r
           end.

Notation "x <- m ;; k" := (bind m (fun x => k))
  (at level 100, m at next level, right associativity) : gr_scope.
Notation "m ;;; k" := (bind m (fun _ => k))
  (at level 100, right associativity) : gr_scope.

Section MonadLaws.
Context {S E : Type}.

Lemma bind_ret_l {A B} (a : A) (k : A -> PyM S E B) :
  bind (ret a) k = k a.
Proof. reflexivity. Qed.

Lemma bind_raise {A B} (e : E) (k : A -> PyM S E B) :
  bind (raise e) k = raise e.
Proof. reflexivity. Qed.

Lemma bind_run {A B} (m : PyM S E A) (k : A -> PyM S E B) s :
  bind m k s = match m s with
               | (s', inl e) => (s', inl e)
               | (s', inr a) => k a s'
               end.
Proof. reflexivity. Qed.

Lemma ret_run {A} (a : A) s : ret (S:=S) (E:=E) a s = (s, inr a).
Proof. reflexivity. Qed.

Lemma raise_run {A} (e : E) s : raise (S:=S) (A:=A) e s = (s, inl e).
Proof. reflexivity. Qed.

Lemma modify_run (f : S -> S) s : modify_state (E:=E) f s = (f s, inr tt).
Proof. reflexivity. Qed.

Lemma get_run s : get_state (S:=S) (E:=E) s = (s, inr s).
Proof. reflexivity. Qed.

(** An atomic block leaves the state as it was when it raises. *)
Lemma atomic_raise {A} (m : PyM S E A) s s' e :
  m s = (s', inl e) -> atomic m s = (s, inl e).
Proof. unfold atomic. by intros ->. Qed.

Lemma atomic_ok {A} (m : PyM S E A) s s' a :
  m s = (s', inr a) -> atomic m s = (s', inr a).
Proof. unfold atomic. by intros ->. Qed.
End MonadLaws.

#[export] Hint Rewrite @bind_ret_l @bind_raise @bind_run @ret_run @raise_run
  @modify_run @get_run : gr_monad.

(** ** Tactics *)

Ltac invc H := inversion H; subst; clear H.

(** Run a monadic program on a concrete or symbolic state. *)
Ltac msimpl := repeat (autorewrite with gr_monad; simpl).

(** ** Generic lemmas shared by the components *)

Lemma filter_all {A} (P : A -> Prop) `{!forall x, Decision (P x)} (l : list A) :
  Forall P l -> filter P l = l.
Proof.
  induction 1 as [|x l Hx _ IH]; [done|].
  rewrite filter_cons_True; [|done]. by rewrite IH.
Qed.

Lemma forallb_app_true {A} (f : A -> bool) (l1 l2 : list A) :
  forallb f (l1 ++ l2) = true <-> forallb f l1 = true /\ forallb f l2 = true.
Proof. rewrite forallb_app. apply andb_true_iff. Qed.

#[export] Hint Resolve filter_all : gr.
