(* ===== verification/Text.v ===== *)
(** * Text: the string operations the modelled code relies on

    - [lower]: ASCII case folding, which is what the database's
      case-insensitive [LIKE] (Django's [icontains] lookup on SQLite, the
      project's database) compares; letters outside A-Z are unchanged.
    - [prefixb], [containsb]: substring search, and [icontains v p], the
      lookup [field__icontains=p] on a field of value [v] (Django escapes
      [%], [_] and [\] in [p], so the pattern is a literal substring).
    - [str_N], [str_Z]: Python's [str] on integers; [int_of_digits]:
      Python's [int] restricted to the strings of the URL [int] converter,
      the regular expression [[0-9]+].
    The theorems relate [containsb] to the existential definition of
    substring, and show [int_of_digits (str_N n) = n]. *)

From S2P Require Import Prelude.
From Stdlib Require Import Ascii String DecimalString DecimalN.

Local Open Scope string_scope.

(** ** Case folding *)

Definition lower_ascii (c : ascii) : ascii :=
  let n := N_of_ascii c in
  if (65 <=? n)%N && (n <=? 90)%N then ascii_of_N (n + 32) else c.

Fixpoint lower (s : string) : string :=
  match s with
  | EmptyString => EmptyString
  | String c s' => String (lower_ascii c) (lower s')
  end.

(** ** Whitespace *)

(** Python's whitespace on the 8-bit code points ([\s] of [re] and
    [str.isspace]). *)
Definition is_space (c : ascii) : bool :=
  let n := N_of_ascii c in
  ((9 <=? n) && (n <=? 13) || (28 <=? n) && (n <=? 32) || (n =? 133) || (n =? 160))%N.

Fixpoint lstrip (s : string) : string :=
  match s with
  | String c s' => if is_space c then lstrip s' else s
  | EmptyString => EmptyString
  end.

Fixpoint rstrip (s : string) : string :=
  match s with
  | EmptyString => EmptyString
  | String c s' =>
      match rstrip s' with
      | EmptyString => if is_space c then EmptyString else String c EmptyString
      | r => String c r
      end
  end.

(** [s.strip()]. *)
Definition strip (s : string) : string := rstrip (lstrip s).

(** ** Substring search *)

Fixpoint prefixb (p s : string) : bool :=
  match p, s with
  | EmptyString, _ => true
  | String _ _, EmptyString => false
  | String a p', String b s' => bool_decide (a = b) && prefixb p' s'
  end.

Fixpoint containsb (p s : string) : bool :=
  prefixb p s ||
  match s with
  | EmptyString => false
  | String _ s' => containsb p s'
  end.

(** [value__icontains=pattern] *)
Definition icontains (value pattern : string) : bool :=
  containsb (lower pattern) (lower value).

(** ** Integers and their decimal notation *)

(** Python [str(n)] for [n >= 0]. *)
Definition str_N (n : N) : string := NilZero.string_of_uint (N.to_uint n).

(** Python [str(z)]. *)
Definition str_Z (z : Z) : string :=
  if (z <? 0)%Z then String "-" (str_N (Z.to_N (- z))) else str_N (Z.to_N z).

(** Python [int(s)] on a string matching [[0-9]+]; [None] when [s] does
    not match (the empty string or a non-digit). *)
Definition int_of_digits (s : string) : option Z :=
  match NilZero.uint_of_string s with
  | Some d => Some (Z.of_N (N.of_uint d))
  | None => None
  end.

(** ** Lemmas *)

Lemma prefixb_spec p s : prefixb p s = true <-> exists r, s = p ++ r.
Proof.
  revert s. induction p as [|a p IH]; intros [|b s]; simpl.
  - split; [by exists EmptyString|done].
  - split; [by eexists|done].
  - split; [done|by intros [r ?]].
  - rewrite andb_true_iff, bool_decide_eq_true, IH. split.
    + intros [-> [r ->]]. by exists r.
    + intros [r Hr]. injection Hr as -> ->. eauto.
Qed.

Lemma containsb_spec p s :
  containsb p s = true <-> exists l r, s = l ++ p ++ r.
Proof.
  induction s as [|b s IH]; simpl; rewrite orb_true_iff, prefixb_spec.
  - split.
    + intros [[r Hr]|H]; [by exists EmptyString, r|done].
    + intros (l & r & Hs). left. destruct l; [by exists r|done].
  - rewrite IH. split.
    + intros [[r Hr]|(l & r & ->)].
      * by exists EmptyString, r.
      * by exists (String b l), r.
    + intros ([|c l] & r & Hs); simpl in Hs.
      * left. by exists r.
      * injection Hs as -> ->. right. eauto.
Qed.

Lemma containsb_app p l r : containsb p (l ++ p ++ r) = true.
Proof. apply containsb_spec. eauto. Qed.

Lemma string_app_nil_r s : s ++ EmptyString = s.
Proof. induction s as [|c s IH]; [done|]. exact (f_equal (String c) IH). Qed.

Lemma lower_app s1 s2 : lower (s1 ++ s2) = lower s1 ++ lower s2.
Proof.
  induction s1 as [|c s1 IH]; [done|]. exact (f_equal (String (lower_ascii c)) IH).
Qed.

(** A value matches every pattern that occurs in it, whatever the case. *)
Lemma icontains_sub v l p r : lower v = l ++ lower p ++ r -> icontains v p = true.
Proof. unfold icontains. intros ->. apply containsb_app. Qed.

Lemma icontains_refl v : icontains v v = true.
Proof. apply (icontains_sub v EmptyString v EmptyString). by rewrite string_app_nil_r. Qed.

Lemma icontains_empty v : icontains v EmptyString = true.
Proof. apply (icontains_sub v EmptyString EmptyString (lower v)). done. Qed.

Lemma icontains_spec v p :
  icontains v p = true <-> exists l r, lower v = l ++ lower p ++ r.
Proof. apply containsb_spec. Qed.

Lemma N_to_uint_nonnil n : N.to_uint n <> Decimal.Nil.
Proof.
  intros H. pose proof (DecimalN.Unsigned.of_to n) as E.
  rewrite H in E. simpl in E. subst n. discriminate.
Qed.

(** [int(str(n)) = n]. *)
Lemma int_of_digits_str_N n : int_of_digits (str_N n) = Some (Z.of_N n).
Proof.
  unfold int_of_digits, str_N.
  rewrite NilZero.usu by apply N_to_uint_nonnil.
  by rewrite DecimalN.Unsigned.of_to.
Qed.

(** An integer parsed from digits is never negative. *)
Lemma int_of_digits_nonneg s z : int_of_digits s = Some z -> (0 <= z)%Z.
Proof.
  unfold int_of_digits. destruct (NilZero.uint_of_string s); intros [= <-]. lia.
Qed.

Lemma str_Z_nonneg z : (0 <= z)%Z -> str_Z z = str_N (Z.to_N z).
Proof. unfold str_Z. intros Hz. destruct (Z.ltb_spec z 0); [lia|done]. Qed.

#[export] Hint Resolve icontains_refl icontains_empty containsb_app : gr.
