(* ===== verification/Django.v ===== *)
(** * Django: the framework behaviour the application code relies on

    The exceptions the modelled code raises ([Exn]), the JSON values a
    [JsonResponse] carries, HTTP responses, and the request handler's
    conversion of an uncaught exception into an error response
    ([django.core.handlers.exception.response_for_exception] with
    [DEBUG = False]).  A request runs a view in the [PyM] monad over the
    application state; without [ATOMIC_REQUESTS] (the project does not set
    it) the writes made before an exception are kept. *)

From S2P Require Import Prelude.

(** ** Exceptions *)

Inductive Exn : Type :=
  | DoesNotExist (model : string)        (** [Model.DoesNotExist] *)
  | Http404                              (** [django.http.Http404] *)
  | PermissionDenied
  | SMTPException (reason : string)      (** raised by the mail backend *)
  | AlreadyRegistered (model : string)   (** [admin.sites.AlreadyRegistered] *)
  | NoReverseMatch (name : string)       (** [django.urls.NoReverseMatch] *)
  | ValidationError (field message : string).

#[export] Instance Exn_eq_dec : EqDecision Exn.
Proof. solve_decision. Defined.

(** ** JSON values and responses *)

Inductive Json : Type :=
  | JNull
  | JBool (b : bool)
  | JInt (z : Z)
  | JString (s : string)
  | JObject (fields : list (string * Json)).

(** A rendered page is its template's name, the texts the template shows
    from its context, and the field errors of the form in the context
    ([form.errors], field name and message); a redirect carries its
    [Location]. *)
Inductive Body : Type :=
  | JsonBody (j : Json)
  | PageBody (template : string) (shown : list string) (errors : list (string * string))
  | RedirectBody (location : string)
  | ErrorBody.

Record Response : Type := mkResponse {
  status_code : Z;
  content_type : string;
  body : Body
}.

(** [JsonResponse(data)]: status 200, content type application/json. *)
Definition JsonResponse (data : Json) : Response :=
  mkResponse 200 "application/json" (JsonBody data).

(** The request methods the routes of the project serve. *)
Inductive Method : Type := GET_ | POST_.

(** [HttpResponseNotAllowed]: status 405, what [View.http_method_not_allowed]
    answers for a method the class does not define. *)
Definition method_not_allowed : Response := mkResponse 405 "text/html; charset=utf-8" ErrorBody.

(** [render(request, template, context)]: status 200. *)
Definition render (template : string) (shown : list string) (errors : list (string * string))
    : Response :=
  mkResponse 200 "text/html; charset=utf-8" (PageBody template shown errors).

(** The texts a page shows. *)
Definition page_shown (r : Response) : list string :=
  match body r with PageBody _ sh _ => sh | _ => [] end.

(** [HttpResponseRedirect(url)] and [redirect(url)]: status 302. *)
Definition HttpResponseRedirect (url : string) : Response :=
  mkResponse 302 "text/html; charset=utf-8" (RedirectBody url).

(** [response.url] of a redirect. *)
Definition response_url (r : Response) : option string :=
  match body r with RedirectBody u => Some u | _ => None end.

(** ** The handler *)

(** [response_for_exception]: [Http404] becomes 404, [PermissionDenied] 403,
    any other exception the server error page, 500. *)
Definition status_for_exception (e : Exn) : Z :=
  match e with
  | Http404 => 404
  | PermissionDenied => 403
  | _ => 500
  end.

Definition response_for_exception (e : Exn) : Response :=
  mkResponse (status_for_exception e) "text/html" ErrorBody.

(** Serve one request: run the view; an exception that escapes it becomes
    the error response, and the state written so far is kept. *)
Definition serve {S} (view : PyM S Exn Response) (s : S) : S * Response :=
  match view s with
  | (s', inl e) => (s', response_for_exception e)
  | (s', inr r) => (s', r)
  end.

Lemma serve_ok {S} (view : PyM S Exn Response) s s' r :
  view s = (s', inr r) -> serve view s = (s', r).
Proof. unfold serve. by intros ->. Qed.

Lemma serve_exn {S} (view : PyM S Exn Response) s s' e :
  view s = (s', inl e) -> serve view s = (s', response_for_exception e).
Proof. unfold serve. by intros ->. Qed.

(** ** E-mail ([django.core.mail]) *)

Record EmailMessage : Type := mkEmailMessage {
  subject : string;
  message : string;
  from_email : string;
  recipient_list : list string
}.

#[export] Instance EmailMessage_eq_dec : EqDecision EmailMessage.
Proof. solve_decision. Defined.

(** [EmailMessage.recipients()]: the addresses of [to] that are not empty. *)
Definition recipients (m : EmailMessage) : list string :=
  filter (fun a => a <> "") (recipient_list m).

(** The interface a mail backend offers to [send_mail]: delivering one
    message either succeeds or fails with the transport's error.  The
    settings choose the backend; the tests run with the in-memory one. *)
Class EmailBackend : Type := {
  deliver : EmailMessage -> option string  (** [None]: sent; [Some err]: failed *)
}.

(** [django.core.mail.backends.locmem.EmailBackend]: never fails, the
    message is appended to [mail.outbox]. *)
#[export] Instance locmem_backend : EmailBackend := {| deliver := fun _ => None |}.
