(* ===== verification/Orm.v ===== *)
(** * Orm: a model's table and the manager operations the code calls

    A table keeps its rows in primary-key order with the key the next
    INSERT receives (an AUTOINCREMENT [AutoField], starting at 1):
    - [objects_create]: [Model.objects.create(...)], INSERT with the next
      key; the row goes last, so primary-key order is insertion order;
    - [objects_get]: [Model.objects.get(id=...)], raising [DoesNotExist]
      when no row has the key;
    - [objects_filter], [objects_all], [objects_count];
    - [objects_update]: [instance.save()] on an existing row (an UPDATE).
    The invariant [table_wf]: keys strictly increasing, positive and below
    the next key.  Every operation preserves it; [get] after [create]
    returns the created row and leaves the other rows as they were. *)

From S2P Require Import Prelude Django.
From Stdlib Require Import Sorting.Sorted.

Record Table (A : Type) : Type := mkTable {
  rows : list (Z * A);
  next_id : Z
}.
Arguments mkTable {A} _ _.
Arguments rows {A} _.
Arguments next_id {A} _.

Section Table.
Context {A : Type}.
Implicit Types (t : Table A) (a : A) (rs : list (Z * A)).

Definition empty_table : Table A := mkTable [] 1.

Definition objects_create a t : Z * Table A :=
  (next_id t, mkTable (rows t ++ [(next_id t, a)]) (next_id t + 1)).

Fixpoint find_row (id : Z) rs : option A :=
  match rs with
  | [] => None
  | (k, a) :: rs' => if Z.eqb k id then Some a else find_row id rs'
  end.

Definition objects_get (model : string) (id : Z) t : Exn + A :=
  match find_row id (rows t) with
  | Some a => inr a
  | None => inl (DoesNotExist model)
  end.

Definition objects_all t : list (Z * A) := rows t.

Definition objects_filter (p : A -> bool) t : list (Z * A) :=
  filter (fun r => p r.2 = true) (rows t).

Definition objects_count t : nat := length (rows t).

Definition objects_update (id : Z) a t : Table A :=
  mkTable (map (fun r => if Z.eqb r.1 id then (id, a) else r) (rows t)) (next_id t).

(** INSERT with an explicit key: the row takes its place in key order,
    and AUTOINCREMENT continues above the largest key used. *)
Fixpoint insert_row (k : Z) a rs : list (Z * A) :=
  match rs with
  | [] => [(k, a)]
  | (k', b) :: rs' => if Z.ltb k k' then (k, a) :: rs else (k', b) :: insert_row k a rs'
  end.

Definition objects_insert_pk (k : Z) a t : Table A :=
  mkTable (insert_row k a (rows t)) (Z.max (next_id t) (k + 1)).

(** [instance.save()] ([Model.save_base] / [_save_table]): without a
    primary key, an INSERT; with one, an UPDATE, falling back to an
    INSERT under that key when no row was updated.  Returns [created]
    (the flag passed to [post_save]), the key and the table. *)
Definition save_instance (pk : option Z) a t : bool * Z * Table A :=
  match pk with
  | None => let '(k, t') := objects_create a t in (true, k, t')
  | Some k =>
      match find_row k (rows t) with
      | Some _ => (false, k, objects_update k a t)
      | None => (true, k, objects_insert_pk k a t)
      end
  end.

Lemma save_instance_None a t :
  save_instance None a t = (true, next_id t, (objects_create a t).2).
Proof. done. Qed.

Definition table_wf t : Prop :=
  StronglySorted Z.lt (map fst (rows t)) /\
  Forall (fun k => 0 < k < next_id t)%Z (map fst (rows t)) /\
  (0 < next_id t)%Z.

(** *** Lemmas *)

Lemma StronglySorted_snoc (l : list Z) x :
  StronglySorted Z.lt l -> Forall (fun k => k < x)%Z l ->
  StronglySorted Z.lt (l ++ [x]).
Proof.
  induction 1 as [|y l _ IH Hy]; intros Hall; simpl.
  - repeat constructor.
  - invc Hall. constructor; [by apply IH|].
    apply Forall_app. by split; [|constructor].
Qed.

Lemma find_row_app id rs1 rs2 :
  find_row id (rs1 ++ rs2) =
  match find_row id rs1 with Some a => Some a | None => find_row id rs2 end.
Proof.
  induction rs1 as [|[k a] rs1 IH]; [done|]. simpl.
  destruct (Z.eqb k id); [done|apply IH].
Qed.

Lemma find_row_absent id rs :
  Forall (fun k => k <> id) (map fst rs) -> find_row id rs = None.
Proof.
  induction rs as [|[k a] rs IH]; intros H; [done|]. simpl in *. invc H.
  destruct (Z.eqb_spec k id); [done|]. by apply IH.
Qed.

Lemma empty_table_wf : table_wf empty_table.
Proof. repeat constructor. Qed.

Lemma objects_create_wf a t : table_wf t -> table_wf (objects_create a t).2.
Proof.
  intros (Hs & Hb & Hn). unfold table_wf; simpl. rewrite map_app. simpl.
  split; [|split; [|lia]].
  - apply StronglySorted_snoc; [done|].
    eapply Forall_impl; [exact Hb|]. simpl. lia.
  - apply Forall_app. split; [|constructor; [lia|constructor]].
    eapply Forall_impl; [exact Hb|]. simpl. lia.
Qed.

Lemma objects_update_keys id a t :
  map fst (rows (objects_update id a t)) = map fst (rows t).
Proof.
  simpl. rewrite map_map. apply map_ext. intros [k b]; simpl.
  destruct (Z.eqb_spec k id); simpl; congruence.
Qed.

Lemma objects_update_wf id a t : table_wf t -> table_wf (objects_update id a t).
Proof. unfold table_wf. by rewrite objects_update_keys. Qed.

(** The new row is found under the key [create] returned. *)
Lemma objects_get_create model a t :
  table_wf t ->
  objects_get model (objects_create a t).1 (objects_create a t).2 = inr a.
Proof.
  intros (_ & Hb & _). unfold objects_get; simpl.
  rewrite find_row_app, find_row_absent; simpl.
  - by rewrite Z.eqb_refl.
  - eapply Forall_impl; [exact Hb|]. simpl. lia.
Qed.

(** The other keys are unaffected. *)
Lemma objects_get_create_other model a t id :
  id <> next_id t ->
  objects_get model id (objects_create a t).2 = objects_get model id t.
Proof.
  intros Hne. unfold objects_get; simpl. rewrite find_row_app.
  destruct (find_row id (rows t)); [done|]. simpl.
  by destruct (Z.eqb_spec (next_id t) id); [congruence|].
Qed.

Lemma insert_row_perm k a rs :
  map fst (insert_row k a rs) ≡ₚ k :: map fst rs.
Proof.
  induction rs as [|[k' b] rs IH]; [done|]. simpl.
  destruct (Z.ltb k k'); [done|]. simpl. rewrite IH. apply perm_swap.
Qed.

Lemma insert_row_sorted k a rs :
  StronglySorted Z.lt (map fst rs) -> Forall (fun k' => k' <> k) (map fst rs) ->
  StronglySorted Z.lt (map fst (insert_row k a rs)).
Proof.
  induction rs as [|[k' b] rs IH]; intros Hs Hne; simpl in *.
  - repeat constructor.
  - inversion Hs as [|? ? Hs' Hlt]; subst. invc Hne.
    destruct (Z.ltb_spec k k'); simpl.
    + constructor; [by constructor|]. constructor; [done|].
      eapply Forall_impl; [exact Hlt|]. simpl. lia.
    + constructor; [by apply IH|]. rewrite insert_row_perm.
      constructor; [lia|done].
Qed.

Lemma objects_insert_pk_wf k a t :
  table_wf t -> find_row k (rows t) = None -> (0 < k)%Z ->
  table_wf (objects_insert_pk k a t).
Proof.
  intros (Hs & Hb & Hn) Hnone Hk. unfold table_wf; simpl.
  assert (Forall (fun k' => k' <> k) (map fst (rows t))) as Hne.
  { clear Hs Hb. induction (rows t) as [|[k' b] rs IH]; [done|].
    simpl in *. destruct (Z.eqb_spec k' k); [done|]. by constructor; [|apply IH]. }
  split; [by apply insert_row_sorted|split; [|lia]].
  rewrite insert_row_perm. constructor; [lia|].
  eapply Forall_impl; [exact Hb|]. simpl. lia.
Qed.

(** [save] keeps the invariant (for the positive keys an AutoField holds). *)
Lemma save_instance_wf pk a t :
  table_wf t -> (forall k, pk = Some k -> 0 < k)%Z -> table_wf (save_instance pk a t).2.
Proof.
  intros Hwf Hpk. destruct pk as [k|]; simpl; [|by apply objects_create_wf].
  destruct (find_row k (rows t)) eqn:E; simpl.
  - by apply objects_update_wf.
  - apply objects_insert_pk_wf; auto.
Qed.

Lemma objects_count_create a t :
  objects_count (objects_create a t).2 = S (objects_count t).
Proof. unfold objects_count. simpl. rewrite length_app. simpl. lia. Qed.

Lemma objects_all_create a t :
  objects_all (objects_create a t).2 = objects_all t ++ [(next_id t, a)].
Proof. done. Qed.

Lemma objects_filter_create p a t :
  objects_filter p (objects_create a t).2 =
  objects_filter p t ++ (if p a then [(next_id t, a)] else []).
Proof.
  unfold objects_filter. simpl. rewrite filter_app. f_equal.
  destruct (p a) eqn:E.
  - by rewrite filter_cons_True.
  - rewrite filter_cons_False; [done|]. simpl. by rewrite E.
Qed.
Lemma find_row_update k a t :
  is_Some (find_row k (rows t)) -> find_row k (rows (objects_update k a t)) = Some a.
Proof.
  simpl. induction (rows t) as [|[k' b] rs IH]; simpl; [by intros []|].
  destruct (Z.eqb_spec k' k); simpl.
  - by rewrite Z.eqb_refl.
  - intros Hs. destruct (Z.eqb_spec k' k); [done|]. by apply IH.
Qed.

(** *** Key membership, which every write preserves *)

Lemma find_row_is_Some k rs : is_Some (find_row k rs) <-> k ∈ map fst rs.
Proof.
  induction rs as [|[k' b] rs IH]; simpl.
  - split; [by intros []|intros ?%elem_of_nil; done].
  - rewrite elem_of_cons, <- IH. destruct (Z.eqb_spec k' k); naive_solver.
Qed.

Lemma save_instance_keys pk a t k :
  k ∈ map fst (rows t) -> k ∈ map fst (rows (save_instance pk a t).2).
Proof.
  intros Hk. unfold save_instance. destruct pk as [k'|].
  - destruct (find_row k' (rows t)); cbn [fst snd].
    + by rewrite objects_update_keys.
    + simpl. rewrite insert_row_perm. by apply elem_of_cons; right.
  - simpl. rewrite map_app. apply elem_of_app. by left.
Qed.

Lemma save_instance_is_Some pk a t k :
  is_Some (find_row k (rows t)) -> is_Some (find_row k (rows (save_instance pk a t).2)).
Proof. rewrite !find_row_is_Some. apply save_instance_keys. Qed.

Lemma save_instance_key pk a t :
  is_Some (find_row (save_instance pk a t).1.2 (rows (save_instance pk a t).2)).
Proof.
  apply find_row_is_Some. unfold save_instance. destruct pk as [k|].
  - destruct (find_row k (rows t)) eqn:E; cbn [fst snd].
    + rewrite objects_update_keys, <- find_row_is_Some, E. by eexists.
    + simpl. rewrite insert_row_perm. apply elem_of_cons. by left.
  - simpl. rewrite map_app. apply elem_of_app. right. by apply list_elem_of_singleton.
Qed.
(** The keys of a well-formed table are distinct. *)
Lemma table_keys_nodup (t : Table A) : table_wf t -> NoDup (map fst (rows t)).
Proof.
  intros (Hs & _ & _). induction Hs as [|x l _ IH Hx]; constructor; [|done].
  intros Hin. eapply Forall_forall in Hx; [|exact Hin]. lia.
Qed.

End Table.

#[export] Hint Resolve empty_table_wf objects_create_wf objects_update_wf : gr.
