(* ===== verification/Models.v ===== *)
(** * Models: the records of the [books] and [users] applications

    The models ([books/models.py], [users/models.py]) are not in the
    repository: their fields are those of the specification (section 3),
    confirmed by the admin's [list_display] ([src/books/admin.py]) and by
    the keyword arguments the tests pass to [objects.create].  Each model
    is a record in a module of its own; a foreign key is the referenced
    row's primary key.  [DB] holds one table per model; [AppState] adds
    what the request side effects write besides the database: the outbox
    of sent e-mails, the clock that stamps [created_at], and the session
    of the client.

    The invariant [db_wf]: every table is well formed and every review and
    every book-author link names rows that exist. *)

From S2P Require Import Prelude Django Orm.

Module Book.
Record t : Type := mk { title : string; description : string; isbn : string }.
End Book.

Module Author.
Record t : Type := mk { first_name : string; last_name : string; email : string }.
End Author.

Module BookAuthor.
Record t : Type := mk { book : Z; author : Z }.
End BookAuthor.

Module BookReview.
(** [stars_given] is an integer field bounded by the validators of the
    rating scale (the settings' [MIN_STARS..MAX_STARS], 1..5 in the
    scenarios), which model forms (the review form, the admin's add view)
    check and [objects.create] does not. *)
Record t : Type := mk {
  user : Z;
  book : Z;
  comment : string;
  stars_given : Z;
  created_at : Z
}.
End BookReview.

Module CustomUser.
(** [password] holds the hasher's encoding, never the raw password. *)
Record t : Type := mk {
  username : string;
  first_name : string;
  last_name : string;
  email : string;
  password : string
}.
End CustomUser.

Record DB : Type := mkDB {
  books : Table Book.t;
  authors : Table Author.t;
  book_authors : Table BookAuthor.t;
  reviews : Table BookReview.t;
  users : Table CustomUser.t
}.

Definition empty_db : DB :=
  mkDB empty_table empty_table empty_table empty_table empty_table.

(** [session]: the session of the client, that is the primary key of the
    user it is logged in as ([SESSION_KEY] of [django.contrib.auth]), or
    [None]. *)
Record AppState : Type := mkAppState {
  db : DB;
  outbox : list EmailMessage;
  clock : Z;
  session : option Z
}.

Definition initial_state : AppState := mkAppState empty_db [] 0 None.

(** Functional updates of one table. *)
Definition set_books (t : Table Book.t) (d : DB) : DB :=
  mkDB t (authors d) (book_authors d) (reviews d) (users d).
Definition set_authors (t : Table Author.t) (d : DB) : DB :=
  mkDB (books d) t (book_authors d) (reviews d) (users d).
Definition set_book_authors (t : Table BookAuthor.t) (d : DB) : DB :=
  mkDB (books d) (authors d) t (reviews d) (users d).
Definition set_reviews (t : Table BookReview.t) (d : DB) : DB :=
  mkDB (books d) (authors d) (book_authors d) t (users d).
Definition set_users (t : Table CustomUser.t) (d : DB) : DB :=
  mkDB (books d) (authors d) (book_authors d) (reviews d) t.
Definition set_db (d : DB) (s : AppState) : AppState :=
  mkAppState d (outbox s) (clock s) (session s).
Definition set_session (sess : option Z) (s : AppState) : AppState :=
  mkAppState (db s) (outbox s) (clock s) sess.

(** [timezone.now()]: the clock of the state, which advances by one at
    every reading, so two rows stamped one after the other never share
    a time. *)
Definition tick (s : AppState) : AppState :=
  mkAppState (db s) (outbox s) (clock s + 1) (session s).

Definition now {E} : PyM AppState E Z := fun s => (tick s, inr (clock s)).

(** ** The invariant *)

Definition exists_row {A} (t : Table A) (k : Z) : Prop := is_Some (find_row k (rows t)).

Definition review_refs_ok (d : DB) (r : BookReview.t) : Prop :=
  exists_row (books d) (BookReview.book r) /\ exists_row (users d) (BookReview.user r).

Definition link_refs_ok (d : DB) (l : BookAuthor.t) : Prop :=
  exists_row (books d) (BookAuthor.book l) /\ exists_row (authors d) (BookAuthor.author l).

Definition db_wf (d : DB) : Prop :=
  table_wf (books d) /\ table_wf (authors d) /\ table_wf (book_authors d) /\
  table_wf (reviews d) /\ table_wf (users d) /\
  Forall (fun r => review_refs_ok d r.2) (rows (reviews d)) /\
  Forall (fun l => link_refs_ok d l.2) (rows (book_authors d)).

Lemma empty_db_wf : db_wf empty_db.
Proof. split_and!; try apply empty_table_wf; constructor. Qed.

(** Saving a user keeps every reference valid: rows are never removed. *)
Lemma set_users_save_wf d pk u :
  db_wf d -> (forall k, pk = Some k -> 0 < k)%Z ->
  db_wf (set_users (save_instance pk u (users d)).2 d).
Proof.
  intros (Hb & Ha & Hl & Hr & Hu & Hrr & Hll) Hpk.
  split_and!; simpl; try done.
  - by apply save_instance_wf.
  - eapply Forall_impl; [exact Hrr|]. intros r [? ?]. split; [done|].
    by apply save_instance_is_Some.
Qed.

Lemma set_books_save_wf d pk b :
  db_wf d -> (forall k, pk = Some k -> 0 < k)%Z ->
  db_wf (set_books (save_instance pk b (books d)).2 d).
Proof.
  intros (Hb & Ha & Hl & Hr & Hu & Hrr & Hll) Hpk.
  split_and!; simpl; try done.
  - by apply save_instance_wf.
  - eapply Forall_impl; [exact Hrr|]. intros r [? ?]. split; [|done].
    by apply save_instance_is_Some.
  - eapply Forall_impl; [exact Hll|]. intros l [? ?]. split; [|done].
    by apply save_instance_is_Some.
Qed.

Lemma set_authors_save_wf d a :
  db_wf d -> db_wf (set_authors (save_instance None a (authors d)).2 d).
Proof.
  intros (Hb & Ha & Hl & Hr & Hu & Hrr & Hll).
  split_and!; cbn [set_authors books authors book_authors reviews users]; try done.
  - apply save_instance_wf; [done|discriminate].
  - eapply Forall_impl; [exact Hll|]. intros l [? ?]. split; [done|].
    by apply save_instance_is_Some.
Qed.

(** Creating a book-author link whose book and author exist keeps the
    invariant. *)
Lemma set_book_authors_save_wf d l :
  db_wf d -> link_refs_ok d l -> db_wf (set_book_authors (save_instance None l (book_authors d)).2 d).
Proof.
  intros (Hb & Ha & Hl & Hr & Hu & Hrr & Hll) Hok.
  split_and!; cbn [set_book_authors books authors book_authors reviews users]; try done.
  - apply save_instance_wf; [done|discriminate].
  - rewrite save_instance_None. simpl. apply Forall_app. split; [done|]. by constructor.
Qed.

(** Creating a review whose book and user exist keeps the invariant. *)
Lemma set_reviews_create_wf d r :
  db_wf d -> review_refs_ok d r ->
  db_wf (set_reviews (objects_create r (reviews d)).2 d).
Proof.
  intros (Hb & Ha & Hl & Hr & Hu & Hrr & Hll) Hok.
  split_and!; simpl; try done.
  - by apply objects_create_wf.
  - apply Forall_app. split; [done|]. by constructor.
Qed.

#[export] Hint Resolve empty_db_wf set_users_save_wf set_books_save_wf set_authors_save_wf
  set_book_authors_save_wf set_reviews_create_wf : gr.
