(* ===== verification/Signals.v ===== *)
(** * Signals: the welcome e-mail sent when a user is created

    [src/users/signals.py] connects [sen_welcome_email] to [post_save] for
    [CustomUser]: when the saved instance was [created], it calls Django's
    [send_mail] with a fixed subject and sender and the user's address as
    the only recipient.  [send_mail] is called without [fail_silently], so
    a failure of the mail backend raises out of the receiver, out of
    [Signal.send] and out of [Model.save], after the row was written.

    Modelled here, in a section over the mail backend ([EmailBackend]):
    - [send_mail]: [EmailMessage.send()], which sends nothing when no
      recipient address is non-empty, and otherwise delivers the message
      (appended to the outbox) or raises [SMTPException];
    - [sen_welcome_email], the receiver, line for line;
    - [post_save_receivers] and [send_post_save]: the receivers connected
      to [post_save] for [CustomUser], called in order by [Signal.send];
    - [save_user]: [CustomUser.save()], the write ([Orm.save_instance])
      followed by the [post_save] dispatch;
    - [save_users]: a sequence of saves, one request after the other. *)

From S2P Require Import Prelude Text Django Orm Models.

Definition welcome_subject : string := "Welcome to Goodreads Clone".

Definition welcome_message (username : string) : string :=
  "Hi, " +:+ username +:+ ". Welcome to Goodreads Clone. Enjoy ht books and reviews.".

Definition welcome_from : string := "shnematov888@gmail.com".

(** The message the receiver builds for a user. *)
Definition welcome_email (u : CustomUser.t) : EmailMessage :=
  mkEmailMessage welcome_subject (welcome_message (CustomUser.username u)) welcome_from
    [CustomUser.email u].

Definition append_outbox (m : EmailMessage) (s : AppState) : AppState :=
  mkAppState (db s) (outbox s ++ [m]) (clock s) (session s).

Section WithBackend.
Context `{EmailBackend}.

(** [send_mail(subject, message, from_email, recipient_list)]: returns
    the number of messages sent. *)
Definition send_mail (subject message from : string) (recipient_list : list string)
    : PyM AppState Exn nat :=
  let m := mkEmailMessage subject message from recipient_list in
  match recipients m with
  | [] => ret 0
  | _ :: _ =>
      match deliver m with
      | None => modify_state (append_outbox m) ;;; ret 1
      | Some err => raise (SMTPException err)
      end
  end.

Definition sen_welcome_email (instance : CustomUser.t) (created : bool)
    : PyM AppState Exn unit :=
  if created then
    send_mail welcome_subject (welcome_message (CustomUser.username instance))
      welcome_from [CustomUser.email instance] ;;;
    ret tt
  else ret tt.

Definition post_save_receivers : list (CustomUser.t -> bool -> PyM AppState Exn unit) :=
  [sen_welcome_email].

Fixpoint send_post_save (rs : list (CustomUser.t -> bool -> PyM AppState Exn unit))
    (instance : CustomUser.t) (created : bool) : PyM AppState Exn unit :=
  match rs with
  | [] => ret tt
  | r :: rs' => r instance created ;;; send_post_save rs' instance created
  end.

(** [instance.save()] for a [CustomUser]; returns the primary key. *)
Definition save_user (pk : option Z) (u : CustomUser.t) : PyM AppState Exn Z :=
  s <- get_state ;;
  let '(created, k, t') := save_instance pk u (users (db s)) in
  put_state (set_db (set_users t' (db s)) s) ;;;
  send_post_save post_save_receivers u created ;;;
  ret k.

(** Several saves in sequence; the first exception stops the sequence. *)
Fixpoint save_users (ops : list (option Z * CustomUser.t)) : PyM AppState Exn (list Z) :=
  match ops with
  | [] => ret []
  | (pk, u) :: ops' => k <- save_user pk u ;; ks <- save_users ops' ;; ret (k :: ks)
  end.
End WithBackend.

(** ** How a save runs *)

Section Run.
Context `{EmailBackend}.

Lemma recipients_welcome_nonempty u :
  CustomUser.email u <> "" -> recipients (welcome_email u) = [CustomUser.email u].
Proof. intros Hne. unfold recipients. simpl. by rewrite filter_cons_True. Qed.

Lemma recipients_welcome_empty u :
  CustomUser.email u = "" -> recipients (welcome_email u) = [].
Proof. intros He. unfold recipients. simpl. rewrite filter_cons_False; [done|]. rewrite He. tauto. Qed.

Lemma sen_welcome_email_not_created u s : sen_welcome_email u false s = (s, inr tt).
Proof. done. Qed.

Lemma sen_welcome_email_no_address u s :
  CustomUser.email u = "" -> sen_welcome_email u true s = (s, inr tt).
Proof.
  intros He. unfold sen_welcome_email, send_mail, bind.
  fold (welcome_email u). by rewrite recipients_welcome_empty.
Qed.

Lemma sen_welcome_email_sent u s :
  CustomUser.email u <> "" -> deliver (welcome_email u) = None ->
  sen_welcome_email u true s = (append_outbox (welcome_email u) s, inr tt).
Proof.
  intros Hne Hd. unfold sen_welcome_email, send_mail, bind.
  fold (welcome_email u). by rewrite recipients_welcome_nonempty, Hd.
Qed.

Lemma sen_welcome_email_failed u s err :
  CustomUser.email u <> "" -> deliver (welcome_email u) = Some err ->
  sen_welcome_email u true s = (s, inl (SMTPException err)).
Proof.
  intros Hne Hd. unfold sen_welcome_email, send_mail, bind.
  fold (welcome_email u). by rewrite recipients_welcome_nonempty, Hd.
Qed.

(** A save is the write followed by the receiver, run on the state
    that already holds the row. *)
Lemma save_user_run pk u s :
  save_user pk u s =
  let '(created, k, t') := save_instance pk u (users (db s)) in
  match sen_welcome_email u created (set_db (set_users t' (db s)) s) with
  | (s', inl e) => (s', inl e)
  | (s', inr _) => (s', inr k)
  end.
Proof.
  unfold save_user, bind, get_state, put_state. simpl.
  destruct (save_instance pk u (users (db s))) as [[created k] t'].
  unfold send_post_save, post_save_receivers, bind, ret.
  by destruct (sen_welcome_email u created _) as [? [|[]]].
Qed.
End Run.

Lemma sen_welcome_email_db `{EmailBackend} u created s :
  db (sen_welcome_email u created s).1 = db s.
Proof.
  destruct created; [|done].
  destruct (decide (CustomUser.email u = "")) as [He|Hne].
  - by rewrite sen_welcome_email_no_address.
  - destruct (deliver (welcome_email u)) as [err|] eqn:Hd.
    + by rewrite (sen_welcome_email_failed u s err).
    + by rewrite sen_welcome_email_sent.
Qed.

(** The database a save leaves, whether the receiver returned or raised. *)
Lemma save_user_db `{EmailBackend} pk u s :
  db (save_user pk u s).1 = set_users (save_instance pk u (users (db s))).2 (db s).
Proof.
  rewrite save_user_run. destruct (save_instance pk u (users (db s))) as [[created k] t'].
  pose proof (sen_welcome_email_db u created (set_db (set_users t' (db s)) s)) as Hdb.
  destruct (sen_welcome_email u created _) as [s1 [e|[]]]; simpl in *; by rewrite Hdb.
Qed.

(** ** Properties of the welcome e-mail *)

(** C1. Creating a user with an address sends exactly one message, the
    welcome message to that address, and the user is stored under the key
    the save returns. *)
Theorem welcome_email_on_create `{EmailBackend} u s :
  table_wf (users (db s)) -> CustomUser.email u <> "" -> deliver (welcome_email u) = None ->
  exists s' k, save_user None u s = (s', inr k) /\
    outbox s' = outbox s ++ [welcome_email u] /\
    objects_get "CustomUser" k (users (db s')) = inr u.
Proof.
  intros Hwf Hne Hd. rewrite save_user_run, save_instance_None. cbv beta iota zeta.
  rewrite sen_welcome_email_sent by done.
  eexists _, _. split; [done|]. split; [done|].
  by apply objects_get_create.
Qed.

(** C2. Saving an existing user again (an UPDATE) sends nothing, and the
    row now holds the saved values. *)
Theorem no_welcome_email_on_update `{EmailBackend} k u0 u s :
  find_row k (rows (users (db s))) = Some u0 ->
  exists s', save_user (Some k) u s = (s', inr k) /\ outbox s' = outbox s /\
    find_row k (rows (users (db s'))) = Some u.
Proof.
  intros Hk. rewrite save_user_run. simpl. rewrite Hk. simpl.
  eexists. split; [done|]. split; [done|].
  apply find_row_update. by rewrite Hk.
Qed.

(** C3. A user without an e-mail address receives nothing: [send_mail]
    finds no recipient and returns 0, whatever the backend. *)
Theorem no_welcome_email_without_address `{EmailBackend} pk u s :
  CustomUser.email u = "" ->
  exists s' k, save_user pk u s = (s', inr k) /\ outbox s' = outbox s.
Proof.
  intros He. rewrite save_user_run.
  destruct (save_instance pk u (users (db s))) as [[[|] k] t'].
  - rewrite sen_welcome_email_no_address by done. by eexists _, _.
  - rewrite sen_welcome_email_not_created. by eexists _, _.
Qed.

(** C4. When the backend fails to deliver the welcome message, the save
    raises the transport's exception although the user row has been
    written: the notification is not fire-and-forget. *)
Theorem welcome_failure_propagates `{EmailBackend} u s err :
  table_wf (users (db s)) -> CustomUser.email u <> "" ->
  deliver (welcome_email u) = Some err ->
  exists s', save_user None u s = (s', inl (SMTPException err)) /\
    outbox s' = outbox s /\
    objects_get "CustomUser" (next_id (users (db s))) (users (db s')) = inr u.
Proof.
  intros Hwf Hne Hd. rewrite save_user_run, save_instance_None. cbv beta iota zeta.
  rewrite (sen_welcome_email_failed u _ err) by done.
  eexists. split; [done|]. split; [done|].
  by apply (objects_get_create "CustomUser" u (users (db s))).
Qed.

(** C5. Over a sequence of creations with a backend that always delivers,
    the outbox receives one welcome message per created user that has an
    address, in order, and the table one row per user. *)
Theorem save_users_outbox `{EmailBackend} (us : list CustomUser.t) s :
  (forall m, deliver m = None) ->
  exists s' ks, save_users (map (fun u => (None, u)) us) s = (s', inr ks) /\
    outbox s' = outbox s ++ map welcome_email (filter (fun u => CustomUser.email u <> "") us) /\
    objects_count (users (db s')) = (objects_count (users (db s)) + length us)%nat /\
    length ks = length us.
Proof.
  intros Hd. revert s. induction us as [|u us IH]; intros s; simpl.
  - eexists _, _. split; [done|]. rewrite app_nil_r. split_and!; done || lia.
  - unfold bind at 1. rewrite save_user_run, save_instance_None. cbv beta iota zeta.
    destruct (decide (CustomUser.email u = "")) as [He|Hne].
    + rewrite sen_welcome_email_no_address by done.
      destruct (IH (set_db (set_users (objects_create u (users (db s))).2 (db s)) s))
        as (s' & ks & Hrun & Ho & Hc & Hl).
      unfold bind. rewrite Hrun. eexists _, _. split; [done|].
      rewrite filter_cons_False by tauto. split_and!; [done| |simpl; lia].
      rewrite Hc. unfold objects_count. simpl. rewrite length_app. simpl. lia.
    + rewrite sen_welcome_email_sent by done.
      destruct (IH (append_outbox (welcome_email u)
                     (set_db (set_users (objects_create u (users (db s))).2 (db s)) s)))
        as (s' & ks & Hrun & Ho & Hc & Hl).
      unfold bind. rewrite Hrun. eexists _, _. split; [done|].
      rewrite filter_cons_True by done. split_and!; [| |simpl; lia].
      * rewrite Ho. simpl. by rewrite <- app_assoc.
      * rewrite Hc. unfold objects_count. simpl. rewrite length_app. simpl. lia.
Qed.

(** C6. A save, whether it returns or raises, leaves a well-formed
    database: the tables keep their invariant and every reference stays
    valid. *)
Theorem save_user_wf `{EmailBackend} pk u s s' r :
  db_wf (db s) -> (forall k, pk = Some k -> 0 < k)%Z ->
  save_user pk u s = (s', r) -> db_wf (db s').
Proof.
  intros Hwf Hpk Hrun. pose proof (save_user_db pk u s) as Hdb. rewrite Hrun in Hdb.
  simpl in Hdb. rewrite Hdb. by apply set_users_save_wf.
Qed.

(** ** Witnesses, on the user of the test suites *)

Definition shahzod : CustomUser.t :=
  CustomUser.mk "shahzod" "Shahzod" "Nematov" "shahzod@gmail.com" "pbkdf2_sha256$1$salt$hash".

Definition shahzod_no_email : CustomUser.t :=
  CustomUser.mk "shahzod" "Shahzod" "" "" "pbkdf2_sha256$1$salt$hash".

(** An SMTP server that refuses every connection. *)
Definition smtp_down : EmailBackend := {| deliver := fun _ => Some "Connection refused" |}.

Lemma welcome_email_on_create_witness :
  exists s' k, save_user None shahzod initial_state = (s', inr k) /\
    outbox s' = outbox initial_state ++ [welcome_email shahzod] /\
    objects_get "CustomUser" k (users (db s')) = inr shahzod.
Proof. apply welcome_email_on_create; [apply empty_table_wf|discriminate|reflexivity]. Defined.

Definition state_with_shahzod : AppState :=
  set_db (set_users (objects_create shahzod empty_table).2 empty_db) initial_state.

Lemma no_welcome_email_on_update_witness :
  exists s', save_user (Some 1%Z) shahzod state_with_shahzod = (s', inr 1%Z) /\
    outbox s' = outbox state_with_shahzod /\
    find_row 1%Z (rows (users (db s'))) = Some shahzod.
Proof. apply (no_welcome_email_on_update 1 shahzod). reflexivity. Defined.

Lemma no_welcome_email_without_address_witness :
  exists s' k, save_user None shahzod_no_email initial_state = (s', inr k) /\
    outbox s' = outbox initial_state.
Proof. apply no_welcome_email_without_address. reflexivity. Defined.

Lemma welcome_failure_propagates_witness :
  exists s', @save_user smtp_down None shahzod initial_state =
               (s', inl (SMTPException "Connection refused")) /\
    outbox s' = outbox initial_state /\
    objects_get "CustomUser" (next_id (users (db initial_state))) (users (db s')) = inr shahzod.
Proof. apply welcome_failure_propagates; [apply empty_table_wf|discriminate|reflexivity]. Defined.

Lemma save_users_outbox_witness :
  exists s' ks, save_users (map (fun u => (None, u)) [shahzod; shahzod_no_email]) initial_state
                  = (s', inr ks) /\
    outbox s' = outbox initial_state ++
                map welcome_email (filter (fun u => CustomUser.email u <> "")
                                     [shahzod; shahzod_no_email]) /\
    objects_count (users (db s')) = (objects_count (users (db initial_state)) + 2)%nat /\
    length ks = 2%nat.
Proof. apply (save_users_outbox [shahzod; shahzod_no_email]). reflexivity. Defined.

Lemma save_user_wf_witness :
  db_wf (db (save_user None shahzod initial_state).1).
Proof.
  apply (save_user_wf None shahzod initial_state _ (save_user None shahzod initial_state).2).
  - apply empty_db_wf.
  - discriminate.
  - by destruct (save_user None shahzod initial_state).
Defined.
