(* ===== verification/Api.v ===== *)
(** * Api: the JSON detail endpoint of a review

    [src/api/views.py], [BookReviewDetailAPIView.get]: fetch the review
    with [BookReview.objects.get(id=id)] and return a [JsonResponse] of
    its [id], [stars_given] and [comment].  The lookup is not guarded:
    a missing id raises [BookReview.DoesNotExist], which no view code
    catches, so the handler answers with the server error page (500) where
    the specification (section 4.4) promises NotFound (404).  The class
    defines [get] only, so [View.dispatch] answers any other method with
    405 ([BookReviewDetailAPIView_as_view]).

    Theorems: the response for an existing review and its status; the
    response for a missing one; the view never writes. *)

From S2P Require Import Prelude Django Orm Models.

(** The dictionary [json_response] of the view.  [book_review.id] is the
    primary key of the row [get] found, which is the [id] it was asked
    for. *)
Definition review_json (id : Z) (book_review : BookReview.t) : Json :=
  JObject [("id", JInt id);
           ("stars_given", JInt (BookReview.stars_given book_review));
           ("comment", JString (BookReview.comment book_review))].

Definition BookReviewDetailAPIView_get (id : Z) : PyM AppState Exn Response :=
  s <- get_state ;;
  match objects_get "BookReview" id (reviews (db s)) with
  | inl e => raise e
  | inr book_review => ret (JsonResponse (review_json id book_review))
  end.

(** [BookReviewDetailAPIView.as_view()]: [View.dispatch] calls the method
    of the class named after the request's method; the class defines [get]
    only, so any other method gets [http_method_not_allowed]. *)
Definition BookReviewDetailAPIView_as_view (m : Method) (id : Z) : PyM AppState Exn Response :=
  match m with
  | GET_ => BookReviewDetailAPIView_get id
  | POST_ => ret method_not_allowed
  end.

(** The view only reads. *)
Lemma BookReviewDetailAPIView_get_state id s :
  (BookReviewDetailAPIView_get id s).1 = s.
Proof.
  unfold BookReviewDetailAPIView_get, bind, get_state.
  by destruct (objects_get _ _ _).
Qed.

(** C7. For a stored review, the endpoint answers 200 with the JSON object
    [{"id": id, "stars_given": ..., "comment": ...}] of that review, and
    the state is unchanged. *)
Theorem api_review_detail_found id r s :
  find_row id (rows (reviews (db s))) = Some r ->
  serve (BookReviewDetailAPIView_get id) s =
    (s, mkResponse 200 "application/json"
          (JsonBody (JObject [("id", JInt id);
                              ("stars_given", JInt (BookReview.stars_given r));
                              ("comment", JString (BookReview.comment r))]))).
Proof.
  intros Hr. apply serve_ok.
  unfold BookReviewDetailAPIView_get, bind, get_state, objects_get. by rewrite Hr.
Qed.

(** C8. For an id no review has, [get] raises [DoesNotExist] and the
    handler answers with status 500, not 404. *)
Theorem api_review_detail_missing id s :
  find_row id (rows (reviews (db s))) = None ->
  BookReviewDetailAPIView_get id s = (s, inl (DoesNotExist "BookReview")) /\
  status_code (serve (BookReviewDetailAPIView_get id) s).2 = 500%Z.
Proof.
  intros Hr.
  assert (BookReviewDetailAPIView_get id s = (s, inl (DoesNotExist "BookReview"))) as E.
  { unfold BookReviewDetailAPIView_get, bind, get_state, objects_get. by rewrite Hr. }
  split; [done|]. by rewrite (serve_exn _ _ _ _ E).
Qed.

(** ** Witnesses: the review of the home page test *)

Definition review1 : BookReview.t := BookReview.mk 1 1 "Very good book" 3 0.

Definition state_with_review : AppState :=
  set_db (set_reviews (objects_create review1 empty_table).2 empty_db) initial_state.

Lemma api_review_detail_found_witness :
  serve (BookReviewDetailAPIView_get 1) state_with_review =
    (state_with_review, mkResponse 200 "application/json"
       (JsonBody (JObject [("id", JInt 1); ("stars_given", JInt 3);
                           ("comment", JString "Very good book")]))).
Proof. apply (api_review_detail_found 1 review1). reflexivity. Defined.

Lemma api_review_detail_missing_witness :
  BookReviewDetailAPIView_get 2 state_with_review =
    (state_with_review, inl (DoesNotExist "BookReview")) /\
  status_code (serve (BookReviewDetailAPIView_get 2) state_with_review).2 = 500%Z.
Proof. apply api_review_detail_missing. reflexivity. Defined.
