(* ===== verification/Urls.v ===== *)
(** * Urls: the URL patterns of the [api] application

    [src/api/urls.py] declares one pattern,
    [path("reviews/<int:id>/", BookReviewDetailAPIView.as_view(),
    name="review-detail")] in the namespace [api].  Django compiles the
    route to the regular expression [^reviews/(?P<id>[0-9]+)/\Z]; the
    [int] converter turns the matched digits into [int(value)] and turns a
    value back into [str(value)] when reversing.  [reverse] checks that
    the built path matches the pattern again, and raises [NoReverseMatch]
    otherwise.

    Modelled: a route as its literal parts and converters ([RoutePart]);
    [match_route] (the compiled regular expression, with the [[0-9]+] of a
    converter matching the longest run of digits, which is the only match
    when the next literal does not start with a digit, as here);
    [reverse_route]; the app's [urlpatterns], [resolve] and [reverse].

    Theorems: [resolve (reverse id) = id] for every [id >= 0]; every
    resolved path carries one id, never negative, and reverses back to
    itself. *)

From S2P Require Import Prelude Text Django.
From Stdlib Require Import Ascii String DecimalString.

Local Open Scope string_scope.

(** ** The [int] converter *)

Definition is_digit (c : ascii) : bool :=
  (48 <=? N_of_ascii c)%N && (N_of_ascii c <=? 57)%N.

(** The longest prefix of digits, and the rest. *)
Fixpoint take_digits (s : string) : string * string :=
  match s with
  | EmptyString => (EmptyString, EmptyString)
  | String c s' =>
      if is_digit c then let '(d, r) := take_digits s' in (String c d, r)
      else (EmptyString, s)
  end.

(** The rest of [s] after the literal [l], if [s] starts with [l]. *)
Fixpoint strip_prefix (l s : string) : option string :=
  match l, s with
  | EmptyString, _ => Some s
  | String a l', String b s' => if bool_decide (a = b) then strip_prefix l' s' else None
  | String _ _, EmptyString => None
  end.

Inductive RoutePart : Type :=
  | Lit (s : string)          (** literal text of the route *)
  | IntConv (name : string).  (** [<int:name>] *)

(** Match the whole path ([\Z]) and collect the converted keyword
    arguments. *)
Fixpoint match_route (route : list RoutePart) (path : string)
    : option (list (string * Z)) :=
  match route with
  | [] => match path with EmptyString => Some [] | _ => None end
  | Lit l :: route' =>
      match strip_prefix l path with
      | Some rest => match_route route' rest
      | None => None
      end
  | IntConv n :: route' =>
      let '(d, rest) := take_digits path in
      match int_of_digits d with
      | Some v => match match_route route' rest with
                  | Some kw => Some ((n, v) :: kw)
                  | None => None
                  end
      | None => None
      end
  end.

Fixpoint lookup_kwarg (n : string) (kwargs : list (string * Z)) : option Z :=
  match kwargs with
  | [] => None
  | (k, v) :: kw => if bool_decide (k = n) then Some v else lookup_kwarg n kw
  end.

(** Build the candidate path from the keyword arguments ([to_url] is
    [str]); a missing argument gives no candidate. *)
Fixpoint build_route (route : list RoutePart) (kwargs : list (string * Z)) : option string :=
  match route with
  | [] => Some EmptyString
  | Lit l :: route' =>
      match build_route route' kwargs with Some s => Some (l ++ s) | None => None end
  | IntConv n :: route' =>
      match lookup_kwarg n kwargs, build_route route' kwargs with
      | Some v, Some s => Some (str_Z v ++ s)
      | _, _ => None
      end
  end.

Fixpoint route_params (route : list RoutePart) : list string :=
  match route with
  | [] => []
  | Lit _ :: route' => route_params route'
  | IntConv n :: route' => n :: route_params route'
  end.

(** [reverse]: the keyword names must be the route's parameters, and the
    candidate is returned only if it matches the pattern. *)
Definition reverse_route (name : string) (route : list RoutePart) (kwargs : list (string * Z))
    : Exn + string :=
  if negb (bool_decide (map fst kwargs ⊆ route_params route /\
                        route_params route ⊆ map fst kwargs))
  then inl (NoReverseMatch name) else
  match build_route route kwargs with
  | Some cand => match match_route route cand with
                 | Some _ => inr cand
                 | None => inl (NoReverseMatch name)
                 end
  | None => inl (NoReverseMatch name)
  end.

(** ** The patterns of [src/api/urls.py] *)

Inductive ApiView : Type := BookReviewDetailAPIView.

Record URLPattern : Type := mkURLPattern {
  pattern_route : list RoutePart;
  pattern_view : ApiView;
  pattern_name : string
}.

Definition app_name : string := "api".

Definition urlpatterns : list URLPattern :=
  [mkURLPattern [Lit "reviews/"; IntConv "id"; Lit "/"] BookReviewDetailAPIView "review-detail"].

(** [resolve]: the first pattern that matches, with its arguments; [None]
    is the [Resolver404] of an unknown path. *)
Fixpoint resolve_in (ps : list URLPattern) (path : string) : option (ApiView * list (string * Z)) :=
  match ps with
  | [] => None
  | p :: ps' => match match_route (pattern_route p) path with
                | Some kw => Some (pattern_view p, kw)
                | None => resolve_in ps' path
                end
  end.

Definition resolve (path : string) : option (ApiView * list (string * Z)) :=
  resolve_in urlpatterns path.

Fixpoint reverse_in (ps : list URLPattern) (name : string) (kwargs : list (string * Z))
    : Exn + string :=
  match ps with
  | [] => inl (NoReverseMatch name)
  | p :: ps' => if bool_decide (pattern_name p = name)
                then reverse_route name (pattern_route p) kwargs
                else reverse_in ps' name kwargs
  end.

(** [reverse("api:<name>", kwargs=...)], relative to the app's prefix. *)
Definition reverse (name : string) (kwargs : list (string * Z)) : Exn + string :=
  reverse_in urlpatterns name kwargs.

(** ** Lemmas on the converter and the matcher *)

Definition starts_nondigit (s : string) : Prop :=
  match s with EmptyString => True | String c _ => is_digit c = false end.

Lemma take_digits_nondigit s : starts_nondigit s -> take_digits s = (EmptyString, s).
Proof. destruct s as [|c s]; [done|]. simpl. by intros ->. Qed.

Lemma string_cons_app c s x : String c s ++ x = String c (s ++ x).
Proof. done. Qed.

(** The decimal notation of a number is all digits. *)
Lemma take_digits_uint d rest :
  starts_nondigit rest ->
  take_digits (NilEmpty.string_of_uint d ++ rest) = (NilEmpty.string_of_uint d, rest).
Proof.
  intros Hr. induction d; [by apply take_digits_nondigit|..];
    simpl NilEmpty.string_of_uint; rewrite string_cons_app; simpl; by rewrite IHd.
Qed.

Lemma take_digits_str_N n rest :
  starts_nondigit rest -> take_digits (str_N n ++ rest) = (str_N n, rest).
Proof.
  intros Hr. unfold str_N, NilZero.string_of_uint.
  destruct (N.to_uint n) eqn:E; [by destruct (N_to_uint_nonnil n)|..];
    rewrite <- E; by apply take_digits_uint.
Qed.

Lemma strip_prefix_app l x : strip_prefix l (l ++ x) = Some x.
Proof.
  induction l as [|a l IH]; [done|].
  rewrite string_cons_app. simpl. by rewrite bool_decide_eq_true_2.
Qed.

Lemma match_route_lit l route x : match_route (Lit l :: route) (l ++ x) = match_route route x.
Proof. simpl. by rewrite strip_prefix_app. Qed.

Lemma match_route_int n route z x :
  (0 <= z)%Z -> starts_nondigit x ->
  match_route (IntConv n :: route) (str_Z z ++ x) =
  match match_route route x with Some kw => Some ((n, z) :: kw) | None => None end.
Proof.
  intros Hz Hx. rewrite str_Z_nonneg by done. simpl.
  rewrite take_digits_str_N by done. rewrite int_of_digits_str_N, Z2N.id by done.
  done.
Qed.

Definition review_detail_route : list RoutePart := [Lit "reviews/"; IntConv "id"; Lit "/"].

Definition review_path (id : Z) : string := "reviews/" ++ str_Z id ++ "/".

Lemma match_review_detail id :
  (0 <= id)%Z -> match_route review_detail_route (review_path id) = Some [("id", id)].
Proof.
  intros Hid. unfold review_detail_route, review_path.
  rewrite match_route_lit, match_route_int by done. done.
Qed.

Lemma reverse_review_detail_eq kwargs :
  reverse "review-detail" kwargs = reverse_route "review-detail" review_detail_route kwargs.
Proof. done. Qed.

Lemma reverse_route_params kwargs :
  map fst kwargs = ["id"] ->
  reverse_route "review-detail" review_detail_route kwargs =
  match build_route review_detail_route kwargs with
  | Some cand => match match_route review_detail_route cand with
                 | Some _ => inr cand
                 | None => inl (NoReverseMatch "review-detail")
                 end
  | None => inl (NoReverseMatch "review-detail")
  end.
Proof.
  intros Hk. unfold reverse_route. rewrite Hk. by rewrite bool_decide_eq_true_2.
Qed.

(** ** Properties of the routing *)

Lemma resolve_reverse_id id :
  (0 <= id)%Z ->
  reverse "review-detail" [("id", id)] = inr (review_path id) /\
  resolve (review_path id) = Some (BookReviewDetailAPIView, [("id", id)]).
Proof.
  intros Hid. rewrite reverse_review_detail_eq, reverse_route_params by done.
  assert (build_route review_detail_route [("id", id)] = Some (review_path id)) as ->.
  { reflexivity. }
  rewrite match_review_detail by done. split; [done|].
  unfold resolve, urlpatterns, resolve_in. cbn [pattern_route pattern_view].
  fold review_detail_route. by rewrite match_review_detail.
Qed.

(** C9. Reversing [api:review-detail] for an id [>= 0] gives the path
    [reviews/<id>/], which resolves to the detail view with that id. *)
Theorem resolve_reverse_review_detail id :
  (0 <= id)%Z ->
  reverse "review-detail" [("id", id)] = inr (review_path id) /\
  resolve (review_path id) = Some (BookReviewDetailAPIView, [("id", id)]).
Proof. apply resolve_reverse_id. Qed.

(** C11. Every path the app resolves carries one id, never negative, and
    reversing that id gives a path that resolves to the same view and
    arguments. *)
Theorem resolve_then_reverse p v kw :
  resolve p = Some (v, kw) ->
  exists id, kw = [("id", id)] /\ (0 <= id)%Z /\
    reverse "review-detail" kw = inr (review_path id) /\
    resolve (review_path id) = Some (v, kw).
Proof.
  unfold resolve, urlpatterns, resolve_in. cbn [pattern_route pattern_view match_route].
  destruct (strip_prefix "reviews/" p) as [rest|]; [|done].
  destruct (take_digits rest) as [d rest'].
  destruct (int_of_digits d) as [z|] eqn:Ez; [|done].
  destruct (strip_prefix "/" rest') as [[|c r]|]; intros [= <- <-].
  pose proof (int_of_digits_nonneg d z Ez) as Hz.
  exists z. split_and!; [done|done|..]; by apply resolve_reverse_id.
Qed.

Example resolve_leading_zeros :
  resolve "reviews/007/" = resolve "reviews/7/".
Proof. reflexivity. Qed.

(** ** Witnesses *)

Lemma resolve_reverse_review_detail_witness :
  reverse "review-detail" [("id", 42%Z)] = inr (review_path 42) /\
  resolve (review_path 42) = Some (BookReviewDetailAPIView, [("id", 42%Z)]).
Proof. apply resolve_reverse_review_detail. lia. Defined.

Lemma resolve_then_reverse_witness :
  exists id, [("id", 7%Z)] = [("id", id)] /\ (0 <= id)%Z /\
    reverse "review-detail" [("id", 7%Z)] = inr (review_path id) /\
    resolve (review_path id) = Some (BookReviewDetailAPIView, [("id", 7%Z)]).
Proof. apply (resolve_then_reverse "reviews/007/"). reflexivity. Defined.
