(* ===== verification/Admin.v ===== *)
(** * Admin: the admin site configuration of the [books] application

    [src/books/admin.py] declares four ModelAdmin classes and registers
    them.  [BookAdmin] searches [title] and [isbn] and lists [title],
    [description], [isbn]; [AuthorAdmin] searches [first_name] and
    [last_name] and lists the two names and [email]; [BookAuthorAdmin] and
    [BookReviewAdmin] keep ModelAdmin's defaults (no search, one column
    [__str__]).

    The configuration is data; its meaning is Django's:
    - [smart_split]: the tokenizer of the search box
      ([django.utils.text.smart_split]: a regular expression applied with
      [finditer]; its first alternative is a run of plain characters
      followed by one or more quoted strings, each followed by plain
      characters, its second a run of non-space characters; in a quoted
      string, a backslash escapes any character but a newline);
    - [search_bit]: a bit that starts and ends with the same quote is
      unquoted by [unescape_string_literal];
    - [get_search_results]: the rows for which every bit occurs,
      case-insensitively, in at least one search field
      ([field__icontains], OR over fields, AND over bits);
    - [changelist_row]: the columns of [list_display];
    - [register]: [admin.site.register], which raises [AlreadyRegistered]
      for a model registered before.
    The tokenizer's loops take the length of the term as fuel; the lemmas
    before [smart_split_terminates] show that every round consumes input,
    so the fuel never runs out.
    Rows are read through the interface [AdminFields] (a field name to the
    field's text), which each model of the admin implements. *)

From S2P Require Import Prelude Text Django Orm Models.
From Stdlib Require Import Ascii String.

Local Open Scope string_scope.

(** ** The ModelAdmin classes of [src/books/admin.py] *)

Record ModelAdmin : Type := mkModelAdmin {
  search_fields : list string;
  list_display : list string
}.

(** [admin.ModelAdmin]'s defaults. *)
Definition DefaultModelAdmin : ModelAdmin := mkModelAdmin [] ["__str__"].

Definition BookAdmin : ModelAdmin :=
  mkModelAdmin ["title"; "isbn"] ["title"; "description"; "isbn"].

Definition AuthorAdmin : ModelAdmin :=
  mkModelAdmin ["first_name"; "last_name"] ["first_name"; "last_name"; "email"].

Definition BookAuthorAdmin : ModelAdmin := DefaultModelAdmin.

Definition BookReviewAdmin : ModelAdmin := DefaultModelAdmin.

(** ** How the admin reads a row *)

Class AdminFields (A : Type) : Type := {
  field_text : string -> A -> option string
}.

#[export] Instance book_fields : AdminFields Book.t := {|
  field_text f b :=
    if bool_decide (f = "title") then Some (Book.title b)
    else if bool_decide (f = "description") then Some (Book.description b)
    else if bool_decide (f = "isbn") then Some (Book.isbn b)
    else None
|}.

#[export] Instance author_fields : AdminFields Author.t := {|
  field_text f a :=
    if bool_decide (f = "first_name") then Some (Author.first_name a)
    else if bool_decide (f = "last_name") then Some (Author.last_name a)
    else if bool_decide (f = "email") then Some (Author.email a)
    else None
|}.

(** ** [smart_split] *)

Definition dquote : ascii := "034".
Definition squote : ascii := "039".

Definition is_quote (c : ascii) : bool := bool_decide (c = dquote \/ c = squote).

Definition backslash : ascii := "092".
Definition newline : ascii := "010".

(** The longest run of plain characters (neither space nor quote), and the rest. *)
Fixpoint span_plain (s : string) : string * string :=
  match s with
  | EmptyString => (EmptyString, EmptyString)
  | String c s' =>
      if is_space c || is_quote c then (EmptyString, s)
      else let '(p, r) := span_plain s' in (String c p, r)
  end.

(** [\S+]: the longest run of non-space characters. *)
Fixpoint span_nonspace (s : string) : string * string :=
  match s with
  | EmptyString => (EmptyString, EmptyString)
  | String c s' =>
      if is_space c then (EmptyString, s)
      else let '(p, r) := span_nonspace s' in (String c p, r)
  end.

(** The body of a quoted string after its opening quote [q]:
    [(?:[^q\\]|\\.)*q]; a backslash escapes any character but a newline.
    Returns the text up to and including the closing quote. *)
Fixpoint scan_quoted (q : ascii) (s : string) : option (string * string) :=
  match s with
  | EmptyString => None
  | String c s' =>
      if bool_decide (c = q) then Some (String c EmptyString, s')
      else if bool_decide (c = backslash) then
        match s' with
        | EmptyString => None
        | String c2 s'' =>
            if bool_decide (c2 = newline) then None
            else match scan_quoted q s'' with
                 | Some (b, r) => Some (String c (String c2 b), r)
                 | None => None
                 end
        end
      else match scan_quoted q s' with
           | Some (b, r) => Some (String c b, r)
           | None => None
           end
  end.

(** Quoted strings each followed by plain characters, repeated as often as it matches; [fuel]
    bounds the repetitions (each consumes at least two characters). *)
Fixpoint quoted_units (fuel : nat) (s : string) : option (string * string) :=
  match fuel, s with
  | S fuel', String q s' =>
      if is_quote q then
        match scan_quoted q s' with
        | Some (body, r) =>
            let '(p, r') := span_plain r in
            let unit := String q body ++ p in
            match quoted_units fuel' r' with
            | Some (more, r'') => Some (unit ++ more, r'')
            | None => Some (unit, r')
            end
        | None => None
        end
      else None
  | _, _ => None
  end.

(** One match of the regular expression at a non-space position. *)
Definition smart_token (s : string) : string * string :=
  let '(p, r) := span_plain s in
  match quoted_units (String.length r) r with
  | Some (units, r') => (p ++ units, r')
  | None => span_nonspace s
  end.

(** [finditer]: skip the characters where no match starts (the spaces),
    take a token, continue after it. *)
Fixpoint smart_split_go (fuel : nat) (s : string) : list string :=
  match fuel with
  | O => []
  | S fuel' =>
      match s with
      | EmptyString => []
      | String c s' =>
          if is_space c then smart_split_go fuel' s'
          else let '(tok, r) := smart_token s in tok :: smart_split_go fuel' r
      end
  end.

Definition smart_split (s : string) : list string := smart_split_go (String.length s) s.

(** ** [unescape_string_literal] and the search bits *)

(** [s.replace(old, new)], left to right, without overlaps. *)
Fixpoint replace_go (fuel : nat) (old new s : string) : string :=
  match fuel with
  | O => s
  | S fuel' =>
      match s with
      | EmptyString => EmptyString
      | String c s' =>
          if prefixb old s then
            new ++ replace_go fuel' old new (substring (String.length old) (String.length s) s)
          else String c (replace_go fuel' old new s')
      end
  end.

Definition py_replace (old new s : string) : string := replace_go (String.length s) old new s.

Fixpoint last_char (s : string) : option ascii :=
  match s with
  | EmptyString => None
  | String c EmptyString => Some c
  | String _ s' => last_char s'
  end.

(** [s[1:-1]]. *)
Definition inner (s : string) : string :=
  substring 1 (String.length s - 2) s.

Definition unescape_string_literal (s : string) : string :=
  match s with
  | String q _ =>
      py_replace (String backslash (String backslash EmptyString)) (String backslash EmptyString)
        (py_replace (String backslash (String q EmptyString)) (String q EmptyString) (inner s))
  | EmptyString => s
  end.

(** If the bit starts with a quote and ends with the same quote, it is
    unescaped ([search_bit] in [get_search_results]). *)
Definition search_bit (bit : string) : string :=
  match bit with
  | String q _ =>
      if is_quote q && bool_decide (last_char bit = Some q)
      then unescape_string_literal bit else bit
  | EmptyString => bit
  end.

Definition search_bits (term : string) : list string := map search_bit (smart_split term).

(** ** [ModelAdmin.get_search_results] *)

Section Search.
Context {A : Type} `{AdminFields A}.

Definition field_matches (bit : string) (f : string) (a : A) : bool :=
  match field_text f a with Some v => icontains v bit | None => false end.

Definition row_matches (ma : ModelAdmin) (bits : list string) (a : A) : bool :=
  forallb (fun bit => existsb (fun f => field_matches bit f a) (search_fields ma)) bits.

Definition get_search_results (ma : ModelAdmin) (qs : list (Z * A)) (term : string)
    : list (Z * A) :=
  match search_fields ma, term with
  | [], _ | _, EmptyString => qs
  | _, _ => filter (fun r => row_matches ma (search_bits term) r.2 = true) qs
  end.

(** The cells of a change-list row. *)
Definition changelist_row (ma : ModelAdmin) (a : A) : list (option string) :=
  map (fun f => field_text f a) (list_display ma).
End Search.

(** ** [admin.site.register] *)

Definition AdminRegistry : Type := list (string * ModelAdmin).

Definition register (model : string) (ma : ModelAdmin) : PyM AdminRegistry Exn unit :=
  reg <- get_state ;;
  if bool_decide (model ∈ map fst reg) then raise (AlreadyRegistered model)
  else put_state (app reg [(model, ma)]).

(** The module body of [src/books/admin.py], run at import. *)
Definition admin_py : PyM AdminRegistry Exn unit :=
  register "Book" BookAdmin ;;;
  register "Author" AuthorAdmin ;;;
  register "BookAuthor" BookAuthorAdmin ;;;
  register "BookReview" BookReviewAdmin.

(** ** Lemmas *)

Lemma row_matches_book bits (b : Book.t) :
  row_matches BookAdmin bits b = true <->
  Forall (fun bit => icontains (Book.title b) bit = true \/ icontains (Book.isbn b) bit = true) bits.
Proof.
  unfold row_matches. rewrite forallb_forall, Forall_forall. simpl.
  unfold field_matches. simpl.
  split; intros Hall bit Hbit; specialize (Hall bit).
  - rewrite <- list_elem_of_In in Hall.
    apply Hall in Hbit. by rewrite orb_false_r, orb_true_iff in Hbit.
  - rewrite list_elem_of_In in Hall. apply Hall in Hbit. rewrite orb_false_r, orb_true_iff. done.
Qed.

Definition plain_word (w : string) : Prop :=
  w <> EmptyString /\ forall c, c ∈ list_ascii_of_string w -> is_space c = false /\ is_quote c = false.

Lemma span_plain_word w : (forall c, c ∈ list_ascii_of_string w -> is_space c = false /\ is_quote c = false) ->
  span_plain w = (w, EmptyString).
Proof.
  induction w as [|c w IH]; intros Hw; [done|]. simpl.
  destruct (Hw c) as [-> ->]; [by left|]. simpl.
  rewrite IH; [done|]. intros c' Hc'. apply Hw. by right.
Qed.

Lemma span_nonspace_word w : (forall c, c ∈ list_ascii_of_string w -> is_space c = false) ->
  span_nonspace w = (w, EmptyString).
Proof.
  induction w as [|c w IH]; intros Hw; [done|]. simpl.
  rewrite (Hw c) by (by left). rewrite IH; [done|]. intros c' Hc'. apply Hw. by right.
Qed.

(** A word with neither space nor quote is one search bit, itself. *)
Lemma search_bits_word w : plain_word w -> search_bits w = [w].
Proof.
  intros [Hne Hw]. unfold search_bits, smart_split.
  destruct w as [|c w']; [done|]. simpl String.length. cbn [smart_split_go].
  destruct (Hw c) as [Hs Hq]; [by left|]. rewrite Hs.
  unfold smart_token. rewrite span_plain_word by done. simpl.
  rewrite Hs, span_nonspace_word.
  - destruct (String.length w'); simpl; unfold search_bit; by rewrite Hq.
  - intros c' Hc'. destruct (Hw c'); [by right|done].
Qed.

Lemma smart_split_go_spaces n s :
  (forall c, c ∈ list_ascii_of_string s -> is_space c = true) -> smart_split_go n s = [].
Proof.
  revert s. induction n as [|n IH]; intros [|c s] Hs; simpl; try done.
  rewrite (Hs c) by (by left). apply IH. intros c' Hc'. apply Hs. by right.
Qed.

(** *** Every step of the tokenizer consumes input *)

Lemma span_plain_len s : String.length (span_plain s).2 <= String.length s.
Proof.
  induction s as [|c s IH]; simpl; [lia|].
  destruct (is_space c || is_quote c); simpl; [lia|].
  destruct (span_plain s) as [p r]; simpl in *; lia.
Qed.

Lemma span_nonspace_len s : String.length (span_nonspace s).2 <= String.length s.
Proof.
  induction s as [|c s IH]; simpl; [lia|].
  destruct (is_space c); simpl; [lia|].
  destruct (span_nonspace s) as [p r]; simpl in *; lia.
Qed.

Lemma span_nonspace_lt c s :
  is_space c = false -> String.length (span_nonspace (String c s)).2 < S (String.length s).
Proof.
  intros Hc. simpl. rewrite Hc. pose proof (span_nonspace_len s).
  destruct (span_nonspace s); simpl in *; lia.
Qed.

Lemma scan_quoted_len q s b r :
  scan_quoted q s = Some (b, r) -> String.length r < String.length s.
Proof.
  revert b. induction s as [s IH] using (induction_ltof1 _ String.length); intros b.
  destruct s as [|c s]; simpl; [done|].
  case_bool_decide; [intros [= _ <-]; lia|].
  case_bool_decide.
  - destruct s as [|c2 s]; [done|]. case_bool_decide; [done|].
    destruct (scan_quoted q s) as [[b' r']|] eqn:E; [|done]. intros [= _ <-].
    apply IH in E; [simpl in *; lia|]. unfold ltof. simpl. lia.
  - destruct (scan_quoted q s) as [[b' r']|] eqn:E; [|done]. intros [= _ <-].
    apply IH in E; [lia|]. unfold ltof. simpl. lia.
Qed.

Lemma quoted_units_len n s u r :
  quoted_units n s = Some (u, r) -> String.length r < String.length s.
Proof.
  revert s u. induction n as [|n IH]; intros [|q s] u; simpl; try done.
  destruct (is_quote q); [|done].
  destruct (scan_quoted q s) as [[b r1]|] eqn:Eq; [|done].
  apply scan_quoted_len in Eq. pose proof (span_plain_len r1).
  destruct (span_plain r1) as [p r2]; simpl in *.
  destruct (quoted_units n r2) as [[m r3]|] eqn:E.
  - intros [= _ <-]. apply IH in E. lia.
  - intros [= _ <-]. lia.
Qed.

(** A token at a non-space character consumes that character at least. *)
Lemma smart_token_lt c s :
  is_space c = false -> String.length (smart_token (String c s)).2 < S (String.length s).
Proof.
  intros Hc. unfold smart_token.
  destruct (span_plain (String c s)) as [p r] eqn:Ep.
  destruct (quoted_units (String.length r) r) as [[u r']|] eqn:Eu.
  - apply quoted_units_len in Eu. simpl.
    pose proof (span_plain_len (String c s)) as Hle. rewrite Ep in Hle. simpl in Hle. lia.
  - by apply span_nonspace_lt.
Qed.

(** A fuelled loop whose every round consumes input gives the same
    result for every fuel of at least the input's length. *)
Lemma smart_split_go_fuel n m s :
  String.length s <= n -> String.length s <= m -> smart_split_go n s = smart_split_go m s.
Proof.
  revert m s. induction n as [|n IH]; intros [|m] [|c s] Hn Hm; simpl in *; try (done || lia).
  destruct (is_space c) eqn:Hc; [apply IH; lia|].
  pose proof (smart_token_lt c s Hc).
  destruct (smart_token (String c s)) as [tok r]; simpl in *. f_equal. apply IH; lia.
Qed.

Lemma substring_len n m s : String.length (substring n m s) <= String.length s - n.
Proof.
  revert m s. induction n as [|n IH]; intros m s.
  - revert s. induction m as [|m IHm]; intros [|c s]; simpl; try lia.
    specialize (IHm s). lia.
  - destruct s as [|c s]; simpl; [lia|]. apply IH.
Qed.

Lemma replace_go_fuel old new n m s :
  old <> EmptyString -> String.length s <= n -> String.length s <= m ->
  replace_go n old new s = replace_go m old new s.
Proof.
  intros Hold. revert m s. induction n as [|n IH]; intros [|m] [|c s] Hn Hm; simpl in *; try (done || lia).
  destruct (prefixb old (String c s)).
  - pose proof (substring_len (String.length old) (S (String.length s)) (String c s)).
    destruct old; [done|]. simpl in *. f_equal. apply IH; lia.
  - f_equal. apply IH; lia.
Qed.

(** [py_replace] with a non-empty pattern runs the unbounded loop of
    [str.replace]: its fuel never runs out. *)
Lemma py_replace_unfold old new c s :
  old <> EmptyString ->
  py_replace old new (String c s) =
  if prefixb old (String c s)
  then new ++ py_replace old new (substring (String.length old) (S (String.length s)) (String c s))
  else String c (py_replace old new s).
Proof.
  intros Hold. unfold py_replace. simpl. destruct (prefixb old (String c s)); [|done].
  pose proof (substring_len (String.length old) (S (String.length s)) (String c s)).
  f_equal. apply replace_go_fuel; [done| |done]. destruct old; [done|]. simpl in *. lia.
Qed.

(** ** Properties of the admin configuration *)

(** C12. The Book admin's search returns, in their order, exactly the rows
    for which every search bit occurs, ignoring ASCII case, in the title
    or in the ISBN. *)
Theorem book_admin_search_spec (qs : list (Z * Book.t)) term r :
  term <> EmptyString ->
  (r ∈ get_search_results BookAdmin qs term <->
   r ∈ qs /\ Forall (fun bit => icontains (Book.title r.2) bit = true \/
                               icontains (Book.isbn r.2) bit = true) (search_bits term)) /\
  get_search_results BookAdmin qs term `sublist_of` qs.
Proof.
  intros Hne. unfold get_search_results. simpl.
  destruct term as [|c t]; [done|].
  split; [|apply sublist_filter].
  rewrite list_elem_of_filter, row_matches_book. tauto.
Qed.

(** A one-word query without spaces or quotes finds the books whose
    title or ISBN contains the word, ignoring ASCII case. *)
Theorem book_admin_search_word (qs : list (Z * Book.t)) w :
  plain_word w ->
  get_search_results BookAdmin qs w =
  filter (fun r => icontains (Book.title r.2) w || icontains (Book.isbn r.2) w = true) qs.
Proof.
  intros Hw. unfold get_search_results. simpl.
  destruct w as [|c t] eqn:E; [by destruct Hw|]. rewrite <- E in *.
  rewrite search_bits_word by done. apply list_filter_iff. intros r.
  unfold row_matches, field_matches. simpl. by rewrite orb_false_r, andb_true_r.
Qed.

(** A query of spaces only is no filter: every row is returned. *)
Theorem admin_search_blank {A} `{AdminFields A} ma (qs : list (Z * A)) term :
  (forall c, c ∈ list_ascii_of_string term -> is_space c = true) ->
  get_search_results ma qs term = qs.
Proof.
  intros Hs. unfold get_search_results.
  destruct (search_fields ma), term; try done.
  apply filter_all, Forall_forall. intros r _.
  unfold search_bits, smart_split. by rewrite smart_split_go_spaces.
Qed.

(** C15. Importing [admin.py] adds the four models with their admin
    classes after what was registered before, when none of them was;
    when [Book] was already registered, it raises [AlreadyRegistered]
    and registers nothing. *)
Theorem admin_py_registers (reg : AdminRegistry) :
  (Forall (fun m => m ∉ map fst reg) ["Book"; "Author"; "BookAuthor"; "BookReview"] ->
   admin_py reg = (app reg [("Book", BookAdmin); ("Author", AuthorAdmin);
                           ("BookAuthor", BookAuthorAdmin); ("BookReview", BookReviewAdmin)],
                   inr tt)) /\
  ("Book" ∈ map fst reg -> admin_py reg = (reg, inl (AlreadyRegistered "Book"))).
Proof.
  split.
  - intros Hnew. inversion Hnew as [|? ? H1 H']; subst.
    inversion H' as [|? ? H2 H'']; subst. inversion H'' as [|? ? H3 H''']; subst.
    inversion H''' as [|? ? H4 _]; subst.
    unfold admin_py, register, bind, get_state, put_state.
    rewrite bool_decide_eq_false_2 by done. cbn [fst snd].
    rewrite bool_decide_eq_false_2.
    2: { rewrite map_app, elem_of_app. simpl. set_solver. }
    cbn [fst snd]. rewrite bool_decide_eq_false_2.
    2: { rewrite !map_app, !elem_of_app. simpl. set_solver. }
    cbn [fst snd]. rewrite bool_decide_eq_false_2.
    2: { rewrite !map_app, !elem_of_app. simpl. set_solver. }
    by rewrite <- !app_assoc.
  - intros Hin. unfold admin_py, register, bind, get_state.
    by rewrite bool_decide_eq_true_2.
Qed.

(** The search box's tokenizer terminates: [smart_split], whose
    loop is bounded by the length of the term, satisfies the equations
    of the unbounded [finditer] loop of [smart_split] in
    [django.utils.text] for every input (a space is skipped; otherwise
    one token is taken and the loop resumes after it), so the fuel of
    the length is never exhausted.  In particular the Book admin's
    search ignores a leading space. *)
Theorem smart_split_terminates c s (qs : list (Z * Book.t)) :
  smart_split (String c s) =
  (if is_space c then smart_split s
   else let '(tok, r) := smart_token (String c s) in tok :: smart_split r) /\
  (is_space c = true -> s <> EmptyString ->
   get_search_results BookAdmin qs (String c s) = get_search_results BookAdmin qs s).
Proof.
  assert (Heq : smart_split (String c s) =
    if is_space c then smart_split s
    else let '(tok, r) := smart_token (String c s) in tok :: smart_split r).
  { unfold smart_split. simpl. destruct (is_space c) eqn:Hc; [done|].
    pose proof (smart_token_lt c s Hc).
    destruct (smart_token (String c s)) as [tok r]; simpl in *.
    f_equal. apply smart_split_go_fuel; lia. }
  split; [exact Heq|]. intros Hc Hs. unfold get_search_results, search_bits. simpl.
  rewrite Heq, Hc. by destruct s.
Qed.

(** ** Witnesses *)

Definition sport : Book.t := Book.mk "Sport" "Description1" "111111111".
Definition guide : Book.t := Book.mk "Guide" "Description2" "222222222".
Definition shoe_dog : Book.t := Book.mk "Shoe Dog" "Description3" "333333333".
Definition catalogue : list (Z * Book.t) := [(1, sport); (2, guide); (3, shoe_dog)]%Z.

Lemma book_admin_search_spec_witness :
  ((1%Z, sport) ∈ get_search_results BookAdmin catalogue "sport" <->
   (1%Z, sport) ∈ catalogue /\
   Forall (fun bit => icontains (Book.title sport) bit = true \/
                      icontains (Book.isbn sport) bit = true) (search_bits "sport")) /\
  get_search_results BookAdmin catalogue "sport" `sublist_of` catalogue.
Proof. apply book_admin_search_spec. discriminate. Defined.

Lemma book_admin_search_word_witness :
  get_search_results BookAdmin catalogue "shoe" =
  filter (fun r => icontains (Book.title r.2) "shoe" || icontains (Book.isbn r.2) "shoe" = true)
    catalogue.
Proof.
  apply book_admin_search_word. split; [discriminate|].
  intros c Hc. repeat (apply elem_of_cons in Hc as [->|Hc]; [done|]).
  by apply elem_of_nil in Hc.
Defined.

Lemma admin_search_blank_witness : get_search_results BookAdmin catalogue "  " = catalogue.
Proof.
  apply admin_search_blank. intros c Hc.
  repeat (apply elem_of_cons in Hc as [->|Hc]; [done|]).
  by apply elem_of_nil in Hc.
Defined.

Lemma admin_py_registers_witness :
  admin_py [] = ([("Book", BookAdmin); ("Author", AuthorAdmin);
                  ("BookAuthor", BookAuthorAdmin); ("BookReview", BookReviewAdmin)], inr tt).
Proof. apply (admin_py_registers []). repeat constructor; set_solver. Defined.

Example smart_split_leading_space :
  smart_split " Shoe Dog" = smart_split "Shoe Dog" /\
  get_search_results BookAdmin catalogue " shoe" = get_search_results BookAdmin catalogue "shoe".
Proof.
  pose proof (smart_split_terminates " " "Shoe Dog" catalogue) as [H1 _].
  split; [exact H1|]. apply (smart_split_terminates " " "shoe" catalogue); [reflexivity|discriminate].
Qed.
