(* ===== verification/Http.v ===== *)
(** * Http: requests, query strings and Python's [int] on text

    What the views receive: a [Request] with its path, the parsed query
    string ([request.GET], a QueryDict), the form data ([request.POST]) and
    [request.user] (the primary key of the authenticated user, if any).
    - [parse_qsl]: [QueryDict(query_string)] (Python's
      [urllib.parse.parse_qsl] with [keep_blank_values=True]): fields
      split on [&], name and value on the first [=], [+] read as a space,
      then percent-decoded ([unquote_plus]);
    - [query_get]: [QueryDict.get], the last value given for a key;
    - [quote]: [urllib.parse.quote] with [safe="/"], which
      [QueryDict.urlencode] and the login redirect use;
    - [py_int]: Python's [int(s)] on a string: surrounding whitespace,
      an optional sign, decimal digits with single underscores between
      them.
    Strings are byte strings (a text is its UTF-8 encoding), so
    percent-encoding works on bytes as Python's does.

    Theorems: [py_int (str z) = z]; [unquote_plus (quote s) = s]; a query
    string built by [urlencode] parses back to its pair. *)

From S2P Require Import Prelude Text Django Urls.
From Stdlib Require Import Ascii String DecimalString DecimalN.

Local Open Scope string_scope.

(** ** Python [int(s)] *)

Definition digit_value (c : ascii) : Z := Z.of_N (N_of_ascii c - 48).

(** The digits after the first one: [(_?[0-9])*]. *)
Fixpoint decimal_go (s : string) (acc : Z) : option Z :=
  match s with
  | EmptyString => Some acc
  | String c s' =>
      if is_digit c then decimal_go s' (acc * 10 + digit_value c)
      else if bool_decide (c = "_"%char) then
        match s' with
        | String d s'' => if is_digit d then decimal_go s'' (acc * 10 + digit_value d) else None
        | EmptyString => None
        end
      else None
  end.

Definition decimal (s : string) : option Z :=
  match s with
  | String c s' => if is_digit c then decimal_go s' (digit_value c) else None
  | EmptyString => None
  end.

(** [int(s)]; [None] is the [ValueError]. *)
Definition py_int (s : string) : option Z :=
  match strip s with
  | String c s' =>
      if bool_decide (c = "-"%char) then option_map Z.opp (decimal s')
      else if bool_decide (c = "+"%char) then decimal s'
      else decimal (String c s')
  | EmptyString => None
  end.

(** ** Percent-encoding *)

Definition is_alnum (c : ascii) : bool :=
  let n := N_of_ascii c in
  ((48 <=? n) && (n <=? 57) || (65 <=? n) && (n <=? 90) || (97 <=? n) && (n <=? 122))%N.

(** The characters [quote] never encodes, and the [safe="/"] of the
    callers. *)
Definition always_safe (c : ascii) : bool :=
  is_alnum c || bool_decide (c ∈ ["_"; "."; "-"; "~"]%char).

Definition quote_safe (c : ascii) : bool := always_safe c || bool_decide (c = "/"%char).

Definition percent : ascii := "%".

Definition hex_digit (n : N) : ascii :=
  if (n <? 10)%N then ascii_of_N (48 + n) else ascii_of_N (55 + n).

Definition hex_value (c : ascii) : option N :=
  let n := N_of_ascii c in
  if (48 <=? n)%N && (n <=? 57)%N then Some (n - 48)%N
  else if (65 <=? n)%N && (n <=? 70)%N then Some (n - 55)%N
  else if (97 <=? n)%N && (n <=? 102)%N then Some (n - 87)%N
  else None.

(** [quote(s, safe="/")]: every other byte as [%XX], upper-case hex. *)
Fixpoint quote (s : string) : string :=
  match s with
  | EmptyString => EmptyString
  | String c s' =>
      if quote_safe c then String c (quote s')
      else String percent (String (hex_digit (N_of_ascii c / 16))
                             (String (hex_digit (N_of_ascii c mod 16)) (quote s')))
  end.

(** [unquote(s)]: each [%XX] with two hex digits is the byte [XX]; any
    other [%] stays. *)
Fixpoint unquote (s : string) : string :=
  match s with
  | EmptyString => EmptyString
  | String c t =>
      if bool_decide (c = percent) then
        match t with
        | String h1 (String h2 r) =>
            match hex_value h1, hex_value h2 with
            | Some a, Some b => String (ascii_of_N (16 * a + b)) (unquote r)
            | _, _ => String c (unquote t)
            end
        | _ => String c (unquote t)
        end
      else String c (unquote t)
  end.

Fixpoint replace_plus (s : string) : string :=
  match s with
  | EmptyString => EmptyString
  | String c s' => String (if bool_decide (c = "+"%char) then " "%char else c) (replace_plus s')
  end.

(** [unquote_plus(s)]: [+] is a space, then [unquote]. *)
Definition unquote_plus (s : string) : string := unquote (replace_plus s).

(** ** Query strings *)

(** [s.split(sep)]. *)
Fixpoint split_on (sep : ascii) (s : string) : list string :=
  match s with
  | EmptyString => [EmptyString]
  | String c s' =>
      if bool_decide (c = sep) then EmptyString :: split_on sep s'
      else match split_on sep s' with
           | w :: ws => String c w :: ws
           | [] => [String c EmptyString]
           end
  end.

(** [s.split(sep, 1)]: the text before the first [sep], and what follows
    it if there is one. *)
Fixpoint split_once (sep : ascii) (s : string) : string * option string :=
  match s with
  | EmptyString => (EmptyString, None)
  | String c s' =>
      if bool_decide (c = sep) then (EmptyString, Some s')
      else let '(a, b) := split_once sep s' in (String c a, b)
  end.

(** One field [name=value] of [parse_qsl]; an empty field is skipped, a
    field without [=] has the empty value. *)
Definition parse_field (nv : string) : option (string * string) :=
  match nv with
  | EmptyString => None
  | _ => let '(n, v) := split_once "=" nv in
         Some (unquote_plus n, unquote_plus (default EmptyString v))
  end.

Definition parse_qsl (qs : string) : list (string * string) :=
  omap parse_field (split_on "&" qs).

(** [QueryDict.get(key)]: the last value given for the key. *)
Definition query_get (key : string) (qd : list (string * string)) : option string :=
  last (map snd (filter (fun kv => kv.1 = key) qd)).

(** [QueryDict.urlencode(safe="/")]: each pair as [key=value], quoted,
    joined by [&]. *)
Definition urlencode1 (key value : string) : string := quote key ++ "=" ++ quote value.

Fixpoint urlencode (kvs : list (string * string)) : string :=
  match kvs with
  | [] => EmptyString
  | [(k, v)] => urlencode1 k v
  | (k, v) :: kvs' => urlencode1 k v ++ String "&" (urlencode kvs')
  end.

(** ** Requests *)

(** A request as the handler builds it: the path, the raw query string,
    the form data, and [request.user] set by the authentication
    middleware from the session. *)
Record Request : Type := mkRequest {
  method : Method;
  path : string;
  query : string;
  POST : list (string * string);
  user : option Z      (** [None] is [AnonymousUser] *)
}.

(** [request.GET]. *)
Definition GET (r : Request) : list (string * string) := parse_qsl (query r).

(** [request.get_full_path()]. *)
Definition full_path (r : Request) : string :=
  match query r with
  | EmptyString => path r
  | q => path r ++ String "?" q
  end.

(** [settings.LOGIN_URL], the route of [users:login]. *)
Definition login_url : string := "/users/login/".

(** [redirect_to_login(next)]: to the login page with [?next=] the
    quoted path ([login_required], [LoginRequiredMixin]). *)
Definition redirect_to_login (next : string) : Response :=
  HttpResponseRedirect (login_url ++ String "?" (urlencode [("next", next)])).

(** ** Lemmas on [int] *)

(** The value of a decimal numeral read after [acc]. *)
Fixpoint uint_val (d : Decimal.uint) (acc : Z) : Z :=
  match d with
  | Decimal.Nil => acc
  | Decimal.D0 l => uint_val l (acc * 10 + 0)
  | Decimal.D1 l => uint_val l (acc * 10 + 1)
  | Decimal.D2 l => uint_val l (acc * 10 + 2)
  | Decimal.D3 l => uint_val l (acc * 10 + 3)
  | Decimal.D4 l => uint_val l (acc * 10 + 4)
  | Decimal.D5 l => uint_val l (acc * 10 + 5)
  | Decimal.D6 l => uint_val l (acc * 10 + 6)
  | Decimal.D7 l => uint_val l (acc * 10 + 7)
  | Decimal.D8 l => uint_val l (acc * 10 + 8)
  | Decimal.D9 l => uint_val l (acc * 10 + 9)
  end.

Lemma of_uint_acc_val d acc : Zpos (Pos.of_uint_acc d acc) = uint_val d (Zpos acc).
Proof. revert acc. induction d; intros acc; simpl; rewrite ?IHd; f_equal; lia. Qed.

Lemma N_of_uint_val d : Z.of_N (N.of_uint d) = uint_val d 0.
Proof.
  induction d; [done|exact IHd|exact (of_uint_acc_val d 1)|exact (of_uint_acc_val d 2)
  |exact (of_uint_acc_val d 3)|exact (of_uint_acc_val d 4)|exact (of_uint_acc_val d 5)
  |exact (of_uint_acc_val d 6)|exact (of_uint_acc_val d 7)|exact (of_uint_acc_val d 8)
  |exact (of_uint_acc_val d 9)].
Qed.

Lemma decimal_go_uint d acc :
  decimal_go (NilEmpty.string_of_uint d) acc = Some (uint_val d acc).
Proof. revert acc. induction d; intros acc; simpl; rewrite ?IHd; done. Qed.

Lemma decimal_str_N n : decimal (str_N n) = Some (Z.of_N n).
Proof.
  unfold str_N, NilZero.string_of_uint.
  destruct (N.to_uint n) eqn:E; [by destruct (N_to_uint_nonnil n)|..];
    simpl; rewrite decimal_go_uint, <- (DecimalN.Unsigned.of_to n), E, N_of_uint_val; done.
Qed.

Lemma str_N_digits n : Forall (fun c => is_digit c = true) (list_ascii_of_string (str_N n)).
Proof.
  unfold str_N, NilZero.string_of_uint. destruct (N.to_uint n) as [| d | d | d | d | d | d | d | d | d | d];
    [repeat constructor|..];
    (constructor; [done|]); induction d; simpl; by constructor.
Qed.

Lemma str_N_nonempty n : str_N n <> EmptyString.
Proof.
  unfold str_N, NilZero.string_of_uint. by destruct (N.to_uint n).
Qed.

Lemma digit_not_space c : is_digit c = true -> is_space c = false.
Proof.
  unfold is_digit, is_space. intros [H1 H2]%andb_true_iff.
  apply N.leb_le in H1, H2.
  repeat match goal with
         | |- context [(?a <=? ?b)%N] => destruct (N.leb_spec a b)
         | |- context [(?a =? ?b)%N] => destruct (N.eqb_spec a b)
         end; simpl; done || lia.
Qed.

Lemma lstrip_nonspace c s : is_space c = false -> lstrip (String c s) = String c s.
Proof. simpl. by intros ->. Qed.

Lemma rstrip_nonspace s :
  Forall (fun c => is_space c = false) (list_ascii_of_string s) -> rstrip s = s.
Proof.
  induction s as [|c s IH]; intros Hs; [done|]. simpl in *. invc Hs.
  rewrite IH by done. destruct s; [|done]. by rewrite H1.
Qed.

Lemma strip_nonspace s :
  Forall (fun c => is_space c = false) (list_ascii_of_string s) -> strip s = s.
Proof.
  intros Hs. unfold strip. destruct s as [|c s']; [done|].
  inversion Hs; subst. rewrite lstrip_nonspace by done. by apply rstrip_nonspace.
Qed.

Lemma str_Z_nonspace z : Forall (fun c => is_space c = false) (list_ascii_of_string (str_Z z)).
Proof.
  assert (forall n, Forall (fun c => is_space c = false) (list_ascii_of_string (str_N n))) as HN.
  { intros n. eapply Forall_impl; [apply str_N_digits|]. apply digit_not_space. }
  unfold str_Z. destruct (z <? 0)%Z; [|apply HN]. simpl. by constructor.
Qed.

(** ** Lemmas on percent-encoding *)

Lemma hex_digit_value n : (n < 16)%N -> hex_value (hex_digit n) = Some n /\ quote_safe (hex_digit n) = true.
Proof.
  intros Hn. rewrite <- (N2Nat.id n). assert (N.to_nat n < 16)%nat as Hm by lia.
  generalize (N.to_nat n) Hm. clear. intros m Hm.
  do 16 (destruct m as [|m]; [split; reflexivity|]). lia.
Qed.

Lemma quote_safe_percent : quote_safe percent = false.
Proof. reflexivity. Qed.

Lemma unquote_quote s : unquote (quote s) = s.
Proof.
  induction s as [|c s IH]; [done|]. cbn [quote]. destruct (quote_safe c) eqn:Hc; cbn [unquote].
  - rewrite bool_decide_eq_false_2 by (intros ->; by rewrite quote_safe_percent in Hc).
    by rewrite IH.
  - pose proof (N_ascii_bounded c) as Hb.
    rewrite bool_decide_eq_true_2 by done.
    destruct (hex_digit_value (N_of_ascii c / 16)) as [-> _]; [apply N.Div0.div_lt_upper_bound; lia|].
    destruct (hex_digit_value (N_of_ascii c mod 16)) as [-> _]; [apply N.mod_lt; lia|].
    rewrite IH, <- N.div_mod by lia. by rewrite ascii_N_embedding.
Qed.

(** Every character of [quote s] is safe or the [%] of an escape. *)
Lemma quote_chars s :
  Forall (fun c => quote_safe c = true \/ c = percent) (list_ascii_of_string (quote s)).
Proof.
  induction s as [|c s IH]; simpl; [constructor|].
  pose proof (N_ascii_bounded c) as Hb.
  destruct (quote_safe c) eqn:Hc; simpl; [by constructor; [left|]|].
  destruct (hex_digit_value (N_of_ascii c / 16)) as [_ H1]; [apply N.Div0.div_lt_upper_bound; lia|].
  destruct (hex_digit_value (N_of_ascii c mod 16)) as [_ H2]; [apply N.mod_lt; lia|].
  constructor; [by right|]. constructor; [by left|]. constructor; [by left|]. done.
Qed.

(** A character that is neither safe nor [%] never occurs in [quote s]. *)
Lemma quote_excludes c s :
  quote_safe c = false -> c <> percent -> Forall (fun c' => c' <> c) (list_ascii_of_string (quote s)).
Proof.
  intros Hc Hp. eapply Forall_impl; [apply quote_chars|]. intros c' [H|H] ->; congruence.
Qed.

Lemma replace_plus_id s :
  Forall (fun c => c <> "+"%char) (list_ascii_of_string s) -> replace_plus s = s.
Proof.
  induction s as [|c s IH]; intros Hs; [done|]. simpl in *. invc Hs.
  rewrite bool_decide_eq_false_2 by done. by rewrite IH.
Qed.

Lemma unquote_plus_quote s : unquote_plus (quote s) = s.
Proof.
  unfold unquote_plus. rewrite replace_plus_id; [apply unquote_quote|].
  by apply quote_excludes.
Qed.

Lemma split_on_id sep s :
  Forall (fun c => c <> sep) (list_ascii_of_string s) -> split_on sep s = [s].
Proof.
  induction s as [|c s IH]; intros Hs; [done|]. simpl in *. invc Hs.
  rewrite bool_decide_eq_false_2 by done. by rewrite IH.
Qed.

Lemma split_once_app sep k v :
  Forall (fun c => c <> sep) (list_ascii_of_string k) ->
  split_once sep (k ++ String sep v) = (k, Some v).
Proof.
  induction k as [|c k IH]; intros Hk; simpl.
  - by rewrite bool_decide_eq_true_2.
  - invc Hk. rewrite bool_decide_eq_false_2 by done. by rewrite IH.
Qed.

Lemma list_ascii_of_string_app s1 s2 :
  list_ascii_of_string (s1 ++ s2) = app (list_ascii_of_string s1) (list_ascii_of_string s2).
Proof. induction s1 as [|c s1 IH]; [done|]. simpl. by rewrite IH. Qed.

Lemma parse_field_nonempty nv :
  nv <> EmptyString ->
  parse_field nv = let '(n, v) := split_once "=" nv in
                   Some (unquote_plus n, unquote_plus (default EmptyString v)).
Proof. by destruct nv. Qed.

(** ** Round trips *)

(** [int(str(z)) = z] for every integer, negative ones included. *)
Lemma py_int_of_str_Z z : py_int (str_Z z) = Some z.
Proof.
  unfold py_int. rewrite strip_nonspace by apply str_Z_nonspace.
  unfold str_Z. destruct (Z.ltb_spec z 0).
  - rewrite bool_decide_eq_true_2 by done. simpl.
    rewrite decimal_str_N. simpl. f_equal. lia.
  - pose proof (str_N_digits (Z.to_N z)) as Hd. pose proof (str_N_nonempty (Z.to_N z)) as Hne.
    destruct (str_N (Z.to_N z)) as [|c r] eqn:E; [done|]. invc Hd.
    rewrite !bool_decide_eq_false_2 by (intros ->; discriminate).
    rewrite <- E, decimal_str_N. f_equal. lia.
Qed.

Lemma split_on_sep_app sep a b :
  Forall (fun c => c <> sep) (list_ascii_of_string a) ->
  split_on sep (a ++ String sep b) = a :: split_on sep b.
Proof.
  induction a as [|c a IH]; intros Ha; simpl.
  - by rewrite bool_decide_eq_true_2.
  - invc Ha. rewrite bool_decide_eq_false_2 by done. by rewrite IH.
Qed.

Lemma urlencode1_no_amp k v :
  Forall (fun c => c <> "&"%char) (list_ascii_of_string (urlencode1 k v)).
Proof.
  unfold urlencode1. change ("=" ++ quote v) with (String "=" (quote v)).
  rewrite list_ascii_of_string_app. apply Forall_app. split; [by apply quote_excludes|].
  simpl. constructor; [done|]. by apply quote_excludes.
Qed.

Lemma parse_field_urlencode1 k v : parse_field (urlencode1 k v) = Some (k, v).
Proof.
  unfold urlencode1. change ("=" ++ quote v) with (String "=" (quote v)).
  rewrite parse_field_nonempty by (by destruct (quote k)).
  rewrite (split_once_app "=" (quote k) (quote v)) by (apply quote_excludes; [done|discriminate]).
  cbv beta iota zeta delta [default id]. by rewrite !unquote_plus_quote.
Qed.

(** [QueryDict(urlencode(pairs))] holds the pairs, in order, whatever the
    bytes of the keys and the values. *)
Lemma parse_qsl_of_urlencode kvs : parse_qsl (urlencode kvs) = kvs.
Proof.
  induction kvs as [|[k v] kvs IH]; [done|]. destruct kvs as [|kv kvs'].
  - unfold parse_qsl. simpl. rewrite split_on_id by apply urlencode1_no_amp.
    simpl. by rewrite parse_field_urlencode1.
  - change (urlencode ((k, v) :: kv :: kvs')) with (urlencode1 k v ++ String "&" (urlencode (kv :: kvs'))).
    unfold parse_qsl in *. rewrite split_on_sep_app by apply urlencode1_no_amp.
    remember (urlencode (kv :: kvs')) as rest eqn:Er. clear Er.
    simpl. rewrite parse_field_urlencode1. f_equal. exact IH.
Qed.

Lemma query_get_urlencode1 k v : query_get k (parse_qsl (urlencode [(k, v)])) = Some v.
Proof. rewrite parse_qsl_of_urlencode. unfold query_get. by rewrite filter_cons_True. Qed.

Example py_int_examples :
  py_int " 2 " = Some 2%Z /\ py_int "+1_000" = Some 1000%Z /\ py_int "-07" = Some (-7)%Z /\
  py_int "1__0" = None /\ py_int "abc" = None /\ py_int "" = None.
Proof. vm_compute. repeat split. Qed.
