(* ===== verification/Json.v ===== *)
(** * Json: the bytes of a [JsonResponse], and reading them back

    [JsonResponse(data)] serialises [data] with [json.dumps] (Django's
    [DjangoJSONEncoder], default arguments): a comma and a space between
    members, a colon and a space after a key,
    [ensure_ascii=True], integers as [repr], strings quoted by
    [py_encode_basestring_ascii]: a backslash and a double quote are
    escaped, [\b \f \n \r \t] get their two-character escapes, every
    other character outside [' '..'~'] becomes [\u00XX] (lower-case hex).
    A string of the model is a string of bytes, each read as the code
    point of the same value, so every escape has the form [\u00XX].

    [json_loads] is the reader a client applies to the body
    ([json.loads], strict mode) on the objects the endpoint returns: an
    object of string keys and flat values ([null], [true], [false], an
    integer, a string), whitespace [ \t\n\r] allowed between tokens, and
    nothing after the object but whitespace.  A string accepts the
    escapes of JSON (a backslash before a quote, a backslash, a slash or
    one of [b f n r t], and [\uXXXX] below 256) and refuses a raw control character; an integer
    is [-?[0-9]+] (the reader does not reject the leading zeros JSON
    forbids, which [json_dumps] never writes).

    Theorems: reading the bytes [json_dumps] writes gives the object
    back, for every flat object, whatever bytes its strings hold. *)

From S2P Require Import Prelude Text Django Orm Models Api Urls Http.
From Stdlib Require Import Ascii String.

Local Open Scope string_scope.
Local Open Scope Z_scope.

(** ** [json.dumps] *)

Definition hex_lower (d : N) : ascii := ascii_of_N (if (d <? 10)%N then 48 + d else 87 + d)%N.

(** The escape of one character ([ESCAPE_ASCII] and [ESCAPE_DCT]). *)
Definition json_escape_char (c : ascii) : string :=
  let n := N_of_ascii c in
  if bool_decide (c = "092"%char) then String "092" (String "092" EmptyString)
  else if bool_decide (c = "034"%char) then String "092" (String "034" EmptyString)
  else if (n =? 8)%N then String "092" (String "b" EmptyString)
  else if (n =? 12)%N then String "092" (String "f" EmptyString)
  else if (n =? 10)%N then String "092" (String "n" EmptyString)
  else if (n =? 13)%N then String "092" (String "r" EmptyString)
  else if (n =? 9)%N then String "092" (String "t" EmptyString)
  else if (32 <=? n)%N && (n <=? 126)%N then String c EmptyString
  else String "092" (String "u" (String "0" (String "0"
         (String (hex_lower (n / 16)) (String (hex_lower (n mod 16)) EmptyString))))).

Fixpoint json_escape (s : string) : string :=
  match s with
  | EmptyString => EmptyString
  | String c s' => json_escape_char c ++ json_escape s'
  end.

(** [py_encode_basestring_ascii]. *)
Definition json_quote (s : string) : string := String "034" (json_escape s ++ String "034" EmptyString).

Fixpoint json_dumps (j : Json) : string :=
  match j with
  | JNull => "null"
  | JBool true => "true"
  | JBool false => "false"
  | JInt z => str_Z z
  | JString s => json_quote s
  | JObject fs =>
      let fix members (fs : list (string * Json)) : string :=
        match fs with
        | [] => EmptyString
        | [(k, v)] => json_quote k ++ ": " ++ json_dumps v
        | (k, v) :: fs' => json_quote k ++ ": " ++ json_dumps v ++ ", " ++ members fs'
        end in
      "{" ++ members fs ++ "}"
  end.

(** The body of a response as the client receives it. *)
Definition response_content (r : Response) : option string :=
  match body r with JsonBody j => Some (json_dumps j) | _ => None end.

(** ** [json.loads] on flat objects *)

Definition is_json_ws (c : ascii) : bool :=
  let n := N_of_ascii c in ((n =? 32) || (n =? 9) || (n =? 10) || (n =? 13))%N.

Fixpoint skip_ws (s : string) : string :=
  match s with
  | String c s' => if is_json_ws c then skip_ws s' else s
  | EmptyString => s
  end.

(** The next token is the character [c]. *)
Definition expect (c : ascii) (s : string) : option string :=
  match skip_ws s with
  | String c' r => if bool_decide (c' = c) then Some r else None
  | EmptyString => None
  end.

Fixpoint strip_prefix (p s : string) : option string :=
  match p, s with
  | EmptyString, _ => Some s
  | String a p', String b s' => if bool_decide (a = b) then strip_prefix p' s' else None
  | _, _ => None
  end.

Definition hex_value (c : ascii) : option N :=
  let n := N_of_ascii c in
  if (48 <=? n)%N && (n <=? 57)%N then Some (n - 48)%N
  else if (97 <=? n)%N && (n <=? 102)%N then Some (n - 87)%N
  else if (65 <=? n)%N && (n <=? 70)%N then Some (n - 55)%N
  else None.

(** The character of a [\uXXXX] escape, when it is a byte. *)
Definition unicode_escape (h1 h2 h3 h4 : ascii) : option ascii :=
  match hex_value h1, hex_value h2, hex_value h3, hex_value h4 with
  | Some a, Some b, Some c, Some d =>
      let n := (a * 4096 + b * 256 + c * 16 + d)%N in
      if (n <? 256)%N then Some (ascii_of_N n) else None
  | _, _, _, _ => None
  end.

Definition simple_escape (e : ascii) : option ascii :=
  if bool_decide (e = "034"%char) then Some "034"%char
  else if bool_decide (e = "092"%char) then Some "092"%char
  else if bool_decide (e = "/"%char) then Some "/"%char
  else if bool_decide (e = "b"%char) then Some (ascii_of_N 8)
  else if bool_decide (e = "f"%char) then Some (ascii_of_N 12)
  else if bool_decide (e = "n"%char) then Some (ascii_of_N 10)
  else if bool_decide (e = "r"%char) then Some (ascii_of_N 13)
  else if bool_decide (e = "t"%char) then Some (ascii_of_N 9)
  else None.

Definition cons_fst (c : ascii) (r : option (string * string)) : option (string * string) :=
  match r with Some (s, rest) => Some (String c s, rest) | None => None end.

(** [py_scanstring] after the opening quote: the string up to the closing
    quote, and the rest. *)
Fixpoint scan_string (s : string) : option (string * string) :=
  match s with
  | EmptyString => None
  | String c s' =>
      if bool_decide (c = "034"%char) then Some (EmptyString, s')
      else if bool_decide (c = "092"%char) then
        match s' with
        | String e s'' =>
            if bool_decide (e = "u"%char) then
              match s'' with
              | String h1 (String h2 (String h3 (String h4 r))) =>
                  match unicode_escape h1 h2 h3 h4 with
                  | Some u => cons_fst u (scan_string r)
                  | None => None
                  end
              | _ => None
              end
            else match simple_escape e with
                 | Some u => cons_fst u (scan_string s'')
                 | None => None
                 end
        | EmptyString => None
        end
      else if (N_of_ascii c <? 32)%N then None
      else cons_fst c (scan_string s')
  end.

Fixpoint span_digits (s : string) : string * string :=
  match s with
  | String c s' => if is_digit c then let '(d, r) := span_digits s' in (String c d, r) else (EmptyString, s)
  | EmptyString => (EmptyString, EmptyString)
  end.

Definition scan_digits (s : string) : option (Z * string) :=
  let '(d, r) := span_digits s in
  match int_of_digits d with Some z => Some (z, r) | None => None end.

Definition scan_int (s : string) : option (Z * string) :=
  match s with
  | String c s' =>
      if bool_decide (c = "-"%char)
      then match scan_digits s' with Some (z, r) => Some (- z, r) | None => None end
      else scan_digits s
  | EmptyString => None
  end.

(** A flat value: a literal, a string or an integer. *)
Definition scan_value (s : string) : option (Json * string) :=
  let s := skip_ws s in
  match strip_prefix "null" s with Some r => Some (JNull, r) | None =>
  match strip_prefix "true" s with Some r => Some (JBool true, r) | None =>
  match strip_prefix "false" s with Some r => Some (JBool false, r) | None =>
  match s with
  | String c r =>
      if bool_decide (c = "034"%char)
      then match scan_string r with Some (str, r') => Some (JString str, r') | None => None end
      else match scan_int s with Some (z, r') => Some (JInt z, r') | None => None end
  | EmptyString => None
  end end end end.

Definition scan_member (s : string) : option ((string * Json) * string) :=
  match expect "034" s with
  | Some r =>
      match scan_string r with
      | Some (k, r1) =>
          match expect ":" r1 with
          | Some r2 => match scan_value r2 with Some (v, r3) => Some ((k, v), r3) | None => None end
          | None => None
          end
      | None => None
      end
  | None => None
  end.

(** Members separated by commas up to the closing brace; [fuel] bounds
    their number. *)
Fixpoint scan_members (fuel : nat) (s : string) : option (list (string * Json) * string) :=
  match fuel with
  | O => None
  | S fuel' =>
      match scan_member s with
      | Some (kv, r) =>
          match expect "," r with
          | Some r' => match scan_members fuel' r' with Some (kvs, r'') => Some (kv :: kvs, r'') | None => None end
          | None => match expect "}" r with Some r' => Some ([kv], r') | None => None end
          end
      | None => None
      end
  end.

Definition json_loads (s : string) : option Json :=
  match expect "{" s with
  | Some r =>
      let body := match expect "}" r with
                  | Some r' => Some ([], r')
                  | None => scan_members (String.length s) r
                  end in
      match body with
      | Some (fs, rest) => if bool_decide (skip_ws rest = EmptyString) then Some (JObject fs) else None
      | None => None
      end
  | None => None
  end.

Definition flat (j : Json) : bool := match j with JObject _ => false | _ => true end.


(** [json.dumps] of an object, with its members as a function of their own. *)
Fixpoint members_str (fs : list (string * Json)) : string :=
  match fs with
  | [] => EmptyString
  | [(k, v)] => json_quote k ++ ": " ++ json_dumps v
  | (k, v) :: fs' => json_quote k ++ ": " ++ json_dumps v ++ ", " ++ members_str fs'
  end.

(** ** Lemmas *)

Lemma str_app_assoc (a b c : string) : (a ++ b) ++ c = a ++ b ++ c.
Proof. induction a as [|x a IH]; [done|]. exact (f_equal (String x) IH). Qed.

Lemma str_cons_app c (s t : string) : String c s ++ t = String c (s ++ t).
Proof. done. Qed.

Lemma json_dumps_object fs : json_dumps (JObject fs) = "{" ++ members_str fs ++ "}".
Proof. reflexivity. Qed.

(** Every escape is read back as its character. *)
Lemma scan_string_escape_char c rest :
  scan_string (json_escape_char c ++ rest) = cons_fst c (scan_string rest).
Proof. destruct c as [[] [] [] [] [] [] [] []]; reflexivity. Qed.

(** The closing quote ends the string: the escaped text reads back as the
    original, whatever its bytes. *)
Lemma scan_string_escape s rest :
  scan_string (json_escape s ++ String "034" rest) = Some (s, rest).
Proof.
  induction s as [|c s IH]; [done|]. cbn [json_escape].
  by rewrite str_app_assoc, scan_string_escape_char, IH.
Qed.

(** What can follow a value in a member list: no digit. *)
Definition no_digit_ahead (rest : string) : Prop :=
  forall c r, rest = String c r -> is_digit c = false.

Lemma span_digits_app d rest :
  Forall (fun c => is_digit c = true) (list_ascii_of_string d) -> no_digit_ahead rest ->
  span_digits (d ++ rest) = (d, rest).
Proof.
  intros Hd Hr. induction d as [|c d IH]; simpl in *.
  - destruct rest as [|c r]; [done|]. simpl. by rewrite (Hr c r eq_refl).
  - apply Forall_cons in Hd as [Hc Hd]. rewrite Hc. by rewrite IH.
Qed.

(** The first character of an integer's text: a digit or the minus sign. *)
Lemma int_head_facts c :
  c = "-"%char \/ is_digit c = true ->
  is_json_ws c = false /\ c <> "n"%char /\ c <> "t"%char /\ c <> "f"%char /\ c <> "034"%char.
Proof.
  intros [->|H]; [split_and!; (reflexivity || discriminate)|].
  destruct c as [[] [] [] [] [] [] [] []]; vm_compute in H; try discriminate H;
    split_and!; (reflexivity || discriminate).
Qed.

Lemma scan_digits_str_N n rest :
  no_digit_ahead rest -> scan_digits (str_N n ++ rest) = Some (Z.of_N n, rest).
Proof.
  intros Hr. unfold scan_digits. rewrite span_digits_app by (done || apply str_N_digits).
  by rewrite int_of_digits_str_N.
Qed.

(** [int] reads back what [repr] writes. *)
Lemma scan_int_str_Z z rest :
  no_digit_ahead rest -> scan_int (str_Z z ++ rest) = Some (z, rest).
Proof.
  intros Hr. unfold str_Z. destruct (Z.ltb_spec z 0).
  - rewrite str_cons_app. cbn [scan_int]. rewrite bool_decide_eq_true_2 by done.
    rewrite scan_digits_str_N by done. f_equal. f_equal. lia.
  - pose proof (str_N_digits (Z.to_N z)) as Hd.
    destruct (str_N (Z.to_N z)) as [|c d] eqn:E; [by destruct (str_N_nonempty (Z.to_N z))|].
    simpl in Hd. apply Forall_cons in Hd as [Hc _].
    rewrite str_cons_app. cbn [scan_int]. rewrite bool_decide_eq_false_2.
    2: { intros ->. discriminate Hc. }
    rewrite <- str_cons_app, <- E, scan_digits_str_N by done. f_equal. f_equal. lia.
Qed.

Lemma str_Z_head z rest :
  exists c r, str_Z z ++ rest = String c r /\ (c = "-"%char \/ is_digit c = true).
Proof.
  unfold str_Z. destruct (z <? 0); [by do 2 eexists; split; [reflexivity|left]|].
  pose proof (str_N_digits (Z.to_N z)) as Hd.
  destruct (str_N (Z.to_N z)) as [|c d] eqn:E; [by destruct (str_N_nonempty (Z.to_N z))|].
  simpl in Hd. apply Forall_cons in Hd as [Hc _]. exists c, (d ++ rest). split; [done|by right].
Qed.

Lemma scan_value_int_head c r :
  c = "-"%char \/ is_digit c = true ->
  scan_value (String c r) = match scan_int (String c r) with Some (z, r') => Some (JInt z, r') | None => None end.
Proof.
  intros Hc. destruct (int_head_facts c Hc) as (Hws & Hn & Ht & Hf & Hq).
  unfold scan_value. cbn [skip_ws]. rewrite Hws. cbn [strip_prefix].
  rewrite !bool_decide_eq_false_2 by congruence. done.
Qed.

Lemma scan_value_space r : scan_value (String " " r) = scan_value r.
Proof. done. Qed.

(** A flat value reads back from its text, followed by anything that does
    not start with a digit. *)
Lemma scan_value_dumps v rest :
  flat v = true -> no_digit_ahead rest -> scan_value (json_dumps v ++ rest) = Some (v, rest).
Proof.
  intros Hv Hr. destruct v as [|[]|z|s|fs]; try done.
  - destruct (str_Z_head z rest) as (c & r & E & Hc). cbn [json_dumps].
    rewrite E, scan_value_int_head by done. rewrite <- E, scan_int_str_Z by done. done.
  - cbn [json_dumps]. unfold json_quote. rewrite str_cons_app, str_app_assoc.
    change (scan_value (String "034" (json_escape s ++ String "034" EmptyString ++ rest))) with
      (match scan_string (json_escape s ++ String "034" EmptyString ++ rest) with
       | Some (str, r') => Some (JString str, r') | None => None end).
    by rewrite str_cons_app, scan_string_escape.
Qed.

Lemma scan_member_dumps k v rest :
  flat v = true -> no_digit_ahead rest ->
  scan_member (json_quote k ++ ": " ++ json_dumps v ++ rest) = Some ((k, v), rest).
Proof.
  intros Hv Hr. unfold json_quote. rewrite str_cons_app, !str_app_assoc, str_cons_app.
  unfold scan_member. change (expect "034" (String "034" ?x)) with (Some x). cbv beta iota.
  change (EmptyString ++ ?y) with y. rewrite scan_string_escape. cbv beta iota. rewrite !str_cons_app.
  change (expect ":" (String ":" ?x)) with (Some x). cbv beta iota.
  change (EmptyString ++ ?y) with y. by rewrite scan_value_space, scan_value_dumps.
Qed.

Lemma str_length_app (a b : string) : String.length (a ++ b) = (String.length a + String.length b)%nat.
Proof. induction a as [|c a IH]; [done|]. simpl. by rewrite IH. Qed.

Lemma members_str_cons k v kv fs :
  members_str ((k, v) :: kv :: fs) = json_quote k ++ ": " ++ json_dumps v ++ ", " ++ members_str (kv :: fs).
Proof. done. Qed.

Lemma members_str_length fs : (Datatypes.length fs <= String.length (members_str fs))%nat.
Proof.
  induction fs as [|[k v] fs IH]; [simpl; lia|].
  destruct fs as [|kv fs].
  - cbn [members_str]. unfold json_quote. rewrite str_cons_app. simpl. lia.
  - rewrite members_str_cons. unfold json_quote. rewrite str_cons_app. cbn [String.length].
    rewrite !str_length_app. cbn [String.length Datatypes.length] in *. lia.
Qed.

Lemma no_digit_ahead_cons c r : is_digit c = false -> no_digit_ahead (String c r).
Proof. by intros Hc c' r' [= <- _]. Qed.

Lemma scan_member_space r : scan_member (String " " r) = scan_member r.
Proof. done. Qed.

Lemma scan_members_space fuel r : scan_members fuel (String " " r) = scan_members fuel r.
Proof. destruct fuel; [done|]. cbn [scan_members]. by rewrite scan_member_space. Qed.

(** The members, then the closing brace: read back with enough fuel. *)
Lemma scan_members_str fuel fs tail :
  fs <> [] -> Forall (fun kv => flat kv.2 = true) fs -> (Datatypes.length fs <= fuel)%nat ->
  scan_members fuel (members_str fs ++ "}" ++ tail) = Some (fs, tail).
Proof.
  revert fuel. induction fs as [|[k v] fs IH]; intros fuel Hne Hf Hfuel; [done|].
  apply Forall_cons in Hf as [Hv Hf]. destruct fuel as [|fuel]; [simpl in Hfuel; lia|].
  destruct fs as [|kv fs].
  - cbn [members_str]. rewrite !str_app_assoc. cbn [scan_members].
    rewrite scan_member_dumps by (done || by apply no_digit_ahead_cons). done.
  - rewrite members_str_cons, !str_app_assoc. cbn [scan_members].
    rewrite scan_member_dumps by (done || by apply no_digit_ahead_cons).
    change (expect "," (", " ++ ?x)) with (Some (String " " x)). cbv beta iota.
    rewrite scan_members_space.
    rewrite IH; [done|done|done|simpl in *; lia].
Qed.

Lemma members_str_head fs : fs <> [] -> exists x, members_str fs = String "034" x.
Proof.
  destruct fs as [|[k v] [|kv fs]]; [done| |]; intros _.
  - cbn [members_str]. unfold json_quote. rewrite str_cons_app. by eexists.
  - rewrite members_str_cons. unfold json_quote. rewrite str_cons_app. by eexists.
Qed.

(** [json.loads(json.dumps(obj)) == obj] for every flat object, whatever
    the bytes of its keys and strings. *)
Lemma json_loads_dumps fs :
  Forall (fun kv => flat kv.2 = true) fs -> json_loads (json_dumps (JObject fs)) = Some (JObject fs).
Proof.
  intros Hf. rewrite json_dumps_object. destruct fs as [|kv fs]; [reflexivity|].
  destruct (members_str_head (kv :: fs)) as [x Hx]; [done|].
  pose proof (members_str_length (kv :: fs)) as Hlen.
  unfold json_loads. change (expect "{" ("{" ++ ?y)) with (Some y). cbv beta iota.
  rewrite Hx at 1. rewrite str_cons_app.
  change (expect "}" (String "034" ?y)) with (@None string). cbv beta iota zeta.
  change ("}") with ("}" ++ EmptyString) at 2.
  rewrite scan_members_str; [reflexivity|done|done|].
  rewrite !str_length_app. cbn [String.length]. lia.
Qed.

(** ** The bytes of the review endpoint *)

(** The body of the API's answer for a stored review is the text
    [json.dumps] writes for the object of its id, stars and comment, and
    a client reading that body with [json.loads] gets back exactly the
    review's id, stars and comment, whatever bytes the comment holds
    (quotes, backslashes, control characters, bytes above 127). *)
Theorem api_json_roundtrip id s r :
  find_row id (rows (reviews (db s))) = Some r ->
  response_content (serve (BookReviewDetailAPIView_get id) s).2 = Some (json_dumps (review_json id r)) /\
  json_loads (json_dumps (review_json id r)) =
    Some (JObject [("id", JInt id); ("stars_given", JInt (BookReview.stars_given r));
                   ("comment", JString (BookReview.comment r))]).
Proof.
  intros Hr. split.
  - unfold serve, BookReviewDetailAPIView_get, bind, get_state, objects_get. by rewrite Hr.
  - apply json_loads_dumps. repeat constructor.
Qed.

(** A comment with a quote, a backslash, a newline and a byte above 127. *)
Definition tricky_review : BookReview.t :=
  BookReview.mk 1 1 (String "034" (String "092" (String "010" (String "200" "ok")))) 5 0.

Definition state_with_tricky : AppState :=
  set_db (set_reviews (objects_create tricky_review empty_table).2 empty_db) initial_state.

Example api_json_tricky_comment :
  response_content (serve (BookReviewDetailAPIView_get 1) state_with_tricky).2 =
    Some (json_dumps (review_json 1 tricky_review)) /\
  json_loads (json_dumps (review_json 1 tricky_review)) =
    Some (JObject [("id", JInt 1); ("stars_given", JInt 5); ("comment", JString (BookReview.comment tricky_review))]).
Proof. apply (api_json_roundtrip 1 state_with_tricky tricky_review). reflexivity. Qed.

Example tricky_review_bytes :
  json_dumps (review_json 1 tricky_review) =
  "{" ++ json_quote "id" ++ ": 1, " ++ json_quote "stars_given" ++ ": 5, " ++ json_quote "comment" ++ ": " ++
  String "034" (String "092" (String "034" (String "092" (String "092" (String "092" (String "n"
    (String "092" ("u00c8ok" ++ String "034" "}")))))))).
Proof. vm_compute. reflexivity. Qed.
