(* ===== verification/Paginator.v ===== *)
(** * Paginator: [django.core.paginator.Paginator] and [get_page]

    The list views (the book list, the home page) hand a query set and the
    requested page size to Django's [Paginator] and ask for
    [paginator.get_page(request.GET.get("page"))].  This file models the
    class as the framework defines it:
    - [count]: [len(object_list)]; [num_pages]: [0] for an empty list when
      [allow_empty_first_page] is false, else
      [ceil(max(1, count - orphans) / per_page)];
    - [validate_number]: [int(number)] ([PageNotAnInteger] when it fails),
      then [EmptyPage] below 1 or above [num_pages];
    - [page]: the slice [object_list[bottom:top]] with
      [bottom = (number - 1) * per_page], [top = bottom + per_page], and
      [top = count] when [top + orphans >= count] (the orphans join the
      last page);
    - [get_page]: a non-integer gives page 1, an out-of-range number the
      last page.
    [per_page] is positive: the views only build paginators with a
    positive size (they fall back to the default size otherwise).

    The specification of a page ([Spec.page]): page [p] of size [k] holds
    the items at offsets [(p-1)*k] to [p*k-1] that exist.  Theorems:
    [page] refines it when there are no orphans; the pages [1..num_pages]
    concatenate to the whole list for any [orphans]; [get_page] always
    returns a page whose number is in [1..num_pages]; two different pages
    of a list without duplicates share no item. *)

From S2P Require Import Prelude Text Http.

Local Open Scope string_scope.
Local Open Scope Z_scope.

(** What [get_page] receives: [request.GET.get("page")] is a string or
    [None], and the code may pass an [int]. *)
Inductive PageArg : Type :=
  | PageInt (n : Z)
  | PageStr (s : string)
  | PageNone.

Inductive InvalidPage : Type :=
  | PageNotAnInteger
  | EmptyPage (message : string).

(** [ceil(a / b)] for [b > 0]. *)
Definition ceil_div (a b : Z) : Z := (a + b - 1) / b.

Section Paginator.
Context {A : Type}.

Record Paginator : Type := mkPaginator {
  object_list : list A;
  per_page : positive;
  orphans : N;
  allow_empty_first_page : bool
}.

(** [Paginator(object_list, per_page)]: no orphans, an empty first page
    allowed. *)
Definition paginator (l : list A) (k : positive) : Paginator := mkPaginator l k 0%N true.

Definition count (P : Paginator) : Z := Z.of_nat (length (object_list P)).

Definition num_pages (P : Paginator) : Z :=
  if bool_decide (count P = 0) && negb (allow_empty_first_page P) then 0
  else ceil_div (Z.max 1 (count P - Z.of_N (orphans P))) (Zpos (per_page P)).

(** [int(number)]: [int(None)] raises [TypeError], [int("abc")]
    [ValueError]; both are [PageNotAnInteger]. *)
Definition int_arg (a : PageArg) : option Z :=
  match a with
  | PageInt n => Some n
  | PageStr s => py_int s
  | PageNone => None
  end.

Definition validate_number (P : Paginator) (a : PageArg) : InvalidPage + Z :=
  match int_arg a with
  | None => inl PageNotAnInteger
  | Some n =>
      if n <? 1 then inl (EmptyPage "That page number is less than 1")
      else if num_pages P <? n then inl (EmptyPage "That page contains no results")
      else inr n
  end.

(** [l[i:j]] for [0 <= i]. *)
Definition py_slice (l : list A) (i j : Z) : list A :=
  take (Z.to_nat j - Z.to_nat i)%nat (drop (Z.to_nat i) l).

Definition page_bounds (P : Paginator) (number : Z) : Z * Z :=
  let bottom := (number - 1) * Zpos (per_page P) in
  let top := bottom + Zpos (per_page P) in
  (bottom, if count P <=? top + Z.of_N (orphans P) then count P else top).

Record Page : Type := mkPage {
  page_object_list : list A;
  page_number : Z;
  page_paginator : Paginator
}.

Definition page_slice (P : Paginator) (number : Z) : list A :=
  let '(bottom, top) := page_bounds P number in py_slice (object_list P) bottom top.

Definition page (P : Paginator) (a : PageArg) : InvalidPage + Page :=
  match validate_number P a with
  | inl e => inl e
  | inr n => inr (mkPage (page_slice P n) n P)
  end.

Definition get_page (P : Paginator) (a : PageArg) : InvalidPage + Page :=
  let n := match validate_number P a with
           | inr n => n
           | inl PageNotAnInteger => 1
           | inl (EmptyPage _) => num_pages P
           end in
  page P (PageInt n).

Definition has_next (pg : Page) : bool := page_number pg <? num_pages (page_paginator pg).
Definition has_previous (pg : Page) : bool := 1 <? page_number pg.
End Paginator.

Arguments Paginator : clear implicits.
Arguments Page : clear implicits.

(** ** The specification of a page *)

Module Spec.
(** The items at offsets [(p-1)*k .. p*k-1] of [l], those that exist, in
    order. *)
Definition page {A} (l : list A) (k : positive) (p : Z) : list A :=
  omap (fun i => l !! i) (seq (Z.to_nat ((p - 1) * Zpos k)) (Pos.to_nat k)).
End Spec.

(** ** Arithmetic of the page count *)

Lemma ceil_div_spec a b : 0 < b -> b * ceil_div a b - b < a <= b * ceil_div a b.
Proof.
  intros Hb. unfold ceil_div.
  pose proof (Z.div_mod (a + b - 1) b ltac:(lia)). pose proof (Z.mod_pos_bound (a + b - 1) b Hb).
  nia.
Qed.

Section Lemmas.
Context {A : Type}.
Implicit Types (P : Paginator A) (l : list A).

Lemma count_nonneg P : 0 <= count P.
Proof. unfold count. lia. Qed.

(** In the usual case ([num_pages] given by the ceiling), the last page
    takes the end of the list and every earlier page is full. *)
Lemma num_pages_cases P :
  (num_pages P = 0 /\ count P = 0) \/
  (1 <= num_pages P /\ count P <= num_pages P * Zpos (per_page P) + Z.of_N (orphans P) /\
   forall q, 1 <= q < num_pages P -> q * Zpos (per_page P) + Z.of_N (orphans P) < count P).
Proof.
  unfold num_pages. destruct (bool_decide (count P = 0)) eqn:E; simpl.
  - apply bool_decide_eq_true in E. destruct (allow_empty_first_page P); simpl; [|by left].
    right. pose proof (ceil_div_spec (Z.max 1 (count P - Z.of_N (orphans P))) (Zpos (per_page P))).
    split_and!; [nia|nia|]. intros q Hq. nia.
  - apply bool_decide_eq_false in E. right. pose proof (count_nonneg P).
    pose proof (ceil_div_spec (Z.max 1 (count P - Z.of_N (orphans P))) (Zpos (per_page P))).
    split_and!; [nia|nia|]. intros q Hq. nia.
Qed.

Lemma num_pages_pos P : allow_empty_first_page P = true -> 1 <= num_pages P.
Proof.
  intros Ha. destruct (num_pages_cases P) as [[H0 Hc]|[H _]]; [|done].
  unfold num_pages in H0. rewrite Ha, andb_false_r in H0.
  pose proof (ceil_div_spec (Z.max 1 (count P - Z.of_N (orphans P))) (Zpos (per_page P))). nia.
Qed.

Lemma validate_number_inr P a n : validate_number P a = inr n -> 1 <= n <= num_pages P.
Proof.
  unfold validate_number. destruct (int_arg a) as [m|]; [|done].
  destruct (Z.ltb_spec m 1); [done|]. destruct (Z.ltb_spec (num_pages P) m); [done|].
  intros [= <-]. lia.
Qed.

Lemma validate_number_in_range P n :
  1 <= n <= num_pages P -> validate_number P (PageInt n) = inr n.
Proof.
  intros Hn. unfold validate_number. simpl.
  destruct (Z.ltb_spec n 1); [lia|]. destruct (Z.ltb_spec (num_pages P) n); [lia|done].
Qed.

Lemma page_in_range P n :
  1 <= n <= num_pages P -> page P (PageInt n) = inr (mkPage (page_slice P n) n P).
Proof. intros Hn. unfold page. by rewrite validate_number_in_range. Qed.

Lemma get_page_in_range P n :
  1 <= n <= num_pages P -> get_page P (PageInt n) = inr (mkPage (page_slice P n) n P).
Proof. intros Hn. unfold get_page. by rewrite validate_number_in_range, page_in_range. Qed.

(** A page number written as text is read by [int]. *)
Lemma get_page_str P n : get_page P (PageStr (str_Z n)) = get_page P (PageInt n).
Proof. unfold get_page, validate_number. simpl. by rewrite py_int_of_str_Z. Qed.

(** ** Slices *)

Lemma take_drop_omap l b m : take m (drop b l) = omap (fun i => l !! i) (seq b m).
Proof.
  revert b. induction m as [|m IH]; intros b; [by rewrite take_0|]. simpl.
  destruct (l !! b) as [x|] eqn:E.
  - rewrite (drop_S l x b E). simpl. by rewrite <- IH.
  - apply lookup_ge_None in E. rewrite <- IH, (drop_ge l b), (drop_ge l (S b)) by lia. by rewrite !take_nil.
Qed.

Lemma take_short l (n m : nat) : (length l <= n)%nat -> (length l <= m)%nat -> take n l = take m l.
Proof. intros. by rewrite !take_ge. Qed.

Lemma page_bounds_full P n :
  1 <= n -> n * Zpos (per_page P) + Z.of_N (orphans P) < count P ->
  page_slice P n = take (Pos.to_nat (per_page P)) (drop (Z.to_nat ((n - 1) * Zpos (per_page P))) (object_list P)).
Proof.
  intros Hn Hlt. unfold page_slice, page_bounds, py_slice.
  destruct (Z.leb_spec (count P) ((n - 1) * Zpos (per_page P) + Zpos (per_page P) + Z.of_N (orphans P)));
    [lia|]. f_equal. nia.
Qed.

Lemma page_bounds_last P n :
  1 <= n -> count P <= n * Zpos (per_page P) + Z.of_N (orphans P) ->
  page_slice P n = drop (Z.to_nat ((n - 1) * Zpos (per_page P))) (object_list P).
Proof.
  intros Hn Hle. unfold page_slice, page_bounds, py_slice.
  destruct (Z.leb_spec (count P) ((n - 1) * Zpos (per_page P) + Zpos (per_page P) + Z.of_N (orphans P)));
    [|lia]. apply take_ge. rewrite length_drop. unfold count in *. lia.
Qed.
End Lemmas.

(** ** Properties of the paginator *)

Section Properties.
Context {A : Type}.
Implicit Types (P : Paginator A) (l : list A).

(** Without orphans, the slice of page [n] is the specification's page. *)
Lemma page_slice_spec P n :
  orphans P = 0%N -> 1 <= n -> page_slice P n = Spec.page (object_list P) (per_page P) n.
Proof.
  intros Ho Hn. unfold Spec.page. rewrite <- take_drop_omap.
  destruct (Z.leb_spec (count P) (n * Zpos (per_page P) + Z.of_N (orphans P))).
  - rewrite page_bounds_last by done. symmetry. apply take_ge.
    rewrite length_drop. unfold count in *. rewrite Ho in *. nia.
  - by rewrite page_bounds_full.
Qed.

(** The first page is the first [per_page] items. *)
Lemma page_slice_first P :
  orphans P = 0%N -> page_slice P 1 = take (Pos.to_nat (per_page P)) (object_list P).
Proof.
  intros Ho. rewrite page_slice_spec by (done || lia). unfold Spec.page.
  by rewrite <- take_drop_omap, drop_0.
Qed.

(** Without a [page] parameter, the first page. *)
Lemma get_page_none P :
  allow_empty_first_page P = true -> get_page P PageNone = inr (mkPage (page_slice P 1) 1 P).
Proof.
  intros Ha. pose proof (num_pages_pos P Ha). unfold get_page. simpl.
  by rewrite page_in_range by lia.
Qed.

(** [get_page(1)] is the first page. *)
Lemma get_page_first P :
  allow_empty_first_page P = true -> get_page P (PageInt 1) = inr (mkPage (page_slice P 1) 1 P).
Proof. intros Ha. pose proof (num_pages_pos P Ha). apply get_page_in_range. lia. Qed.

(** Without orphans, a page whose first offset lies within the list is
    one of the pages [1..num_pages]. *)
Lemma offset_in_range P p :
  orphans P = 0%N -> 1 <= p -> (p - 1) * Zpos (per_page P) < count P -> p <= num_pages P.
Proof.
  intros Ho Hp Hc. destruct (num_pages_cases P) as [[_ H0]|(_ & Hlast & _)]; [nia|].
  rewrite Ho in Hlast. nia.
Qed.

(** The pages from [j+1] to the last one are the list after the first [j]
    full pages. *)
Lemma pages_from P m j :
  1 <= num_pages P -> (j + S m)%nat = Z.to_nat (num_pages P) ->
  concat (map (fun i => page_slice P (Z.of_nat i)) (seq (S j) (S m))) =
  drop (j * Pos.to_nat (per_page P)) (object_list P).
Proof.
  intros Hpos. destruct (num_pages_cases P) as [[? _]|(_ & Hlast & Hfull)]; [lia|].
  revert j. induction m as [|m IH]; intros j Hj.
  - simpl. rewrite app_nil_r, page_bounds_last by nia. f_equal. nia.
  - change (seq (S j) (S (S m))) with (S j :: seq (S (S j)) (S m)). cbn [map concat].
    rewrite (IH (S j)) by lia.
    rewrite page_bounds_full by (try apply Hfull; lia).
    replace (Z.to_nat ((Z.of_nat (S j) - 1) * Zpos (per_page P))) with (j * Pos.to_nat (per_page P))%nat
      by nia.
    replace (S j * Pos.to_nat (per_page P))%nat with (j * Pos.to_nat (per_page P) + Pos.to_nat (per_page P))%nat
      by lia.
    rewrite <- drop_drop. apply firstn_skipn.
Qed.

(** Every page of a non-empty list holds at least one item. *)
Lemma page_slice_nonempty P n :
  0 < count P -> 1 <= n <= num_pages P -> page_slice P n <> [].
Proof.
  intros Hc Hn. destruct (num_pages_cases P) as [[? ?]|(Hpos & Hlast & Hfull)]; [lia|].
  assert (Hlt : (n - 1) * Zpos (per_page P) < count P).
  { destruct (Z.eq_dec n (num_pages P)) as [->|Hne].
    - unfold num_pages in *. destruct (bool_decide (count P = 0)) eqn:E.
      + apply bool_decide_eq_true in E. lia.
      + pose proof (ceil_div_spec (Z.max 1 (count P - Z.of_N (orphans P))) (Zpos (per_page P))). simpl in *. nia.
    - specialize (Hfull n ltac:(lia)). nia. }
  destruct (Z.leb_spec (count P) (n * Zpos (per_page P) + Z.of_N (orphans P))).
  - rewrite page_bounds_last by lia. intros Hd. apply (f_equal length) in Hd.
    rewrite length_drop in Hd. unfold count in *. simpl in Hd. lia.
  - rewrite page_bounds_full by lia. intros Hd. apply (f_equal length) in Hd.
    rewrite length_take, length_drop in Hd. unfold count in *. simpl in Hd. lia.
Qed.

(** Page [p] of a paginator without orphans, for [p] in [1..num_pages],
    holds exactly the items at offsets [(p-1)*k] to [p*k-1] of the list. *)
Lemma get_page_refines P p :
  orphans P = 0%N -> 1 <= p <= num_pages P ->
  get_page P (PageInt p) = inr (mkPage (Spec.page (object_list P) (per_page P) p) p P).
Proof.
  intros Ho Hp. rewrite get_page_in_range by done. by rewrite page_slice_spec by lia.
Qed.

(** Whatever the orphans, the pages [1..num_pages] in order concatenate
    to the whole list: no item is lost or repeated. *)
Lemma concat_pages P :
  concat (map (fun i => page_slice P (Z.of_nat i)) (seq 1 (Z.to_nat (num_pages P)))) = object_list P.
Proof.
  destruct (num_pages_cases P) as [[H0 Hc]|(Hpos & _)].
  - rewrite H0. simpl. unfold count in Hc. symmetry. apply nil_length_inv. lia.
  - destruct (Z.to_nat (num_pages P)) as [|m] eqn:E; [lia|].
    rewrite (pages_from P m 0) by lia. by rewrite drop_0.
Qed.

(** When an empty first page is allowed, [get_page] returns a page
    whatever it is given, numbered within [1..num_pages], holding that
    page's slice. *)
Lemma get_page_returns P a :
  allow_empty_first_page P = true ->
  exists pg, get_page P a = inr pg /\ 1 <= page_number pg <= num_pages P /\
    page_object_list pg = page_slice P (page_number pg) /\ page_paginator pg = P.
Proof.
  intros Ha. pose proof (num_pages_pos P Ha) as Hpos. unfold get_page.
  destruct (validate_number P a) as [[|msg]|n] eqn:E.
  - rewrite page_in_range by lia. eexists. split_and!; done || simpl; lia.
  - rewrite page_in_range by lia. eexists. split_and!; done || simpl; lia.
  - apply validate_number_inr in E. rewrite page_in_range by lia.
    eexists. split_and!; done || simpl; lia.
Qed.

(** A page argument that is not an integer gives the first page; an
    integer below 1 or above [num_pages] gives the last page. *)
Lemma get_page_fallback P a :
  (int_arg a = None -> get_page P a = page P (PageInt 1)) /\
  (forall n, int_arg a = Some n -> n < 1 \/ num_pages P < n ->
   get_page P a = page P (PageInt (num_pages P))).
Proof.
  unfold get_page, validate_number. split.
  - by intros ->.
  - intros n -> Hn. destruct (Z.ltb_spec n 1); [done|].
    destruct (Z.ltb_spec (num_pages P) n); [done|lia].
Qed.

(** In a list without duplicates, two different pages share no item
    (no orphans). *)
Lemma pages_disjoint P p q x :
  NoDup (object_list P) -> orphans P = 0%N -> 1 <= p -> 1 <= q -> p <> q ->
  x ∈ page_slice P p -> x ∉ page_slice P q.
Proof.
  intros Hnd Ho Hp Hq Hne. rewrite !page_slice_spec by done. unfold Spec.page.
  rewrite !list_elem_of_omap. intros (i & Hi%elem_of_seq & Hxi) (j & Hj%elem_of_seq & Hxj).
  pose proof (NoDup_lookup _ _ _ _ Hnd Hxi Hxj). subst j. apply Hne. nia.
Qed.
End Properties.

(** ** Three books, two per page, as in [test_books_list] *)

Definition books3 : Paginator string := paginator ["book1"; "book2"; "book3"] 2.

Example books3_pages :
  page_slice books3 1 = ["book1"; "book2"] /\ page_slice books3 2 = ["book3"] /\
  num_pages books3 = 2 /\ get_page books3 (PageStr "0") = page books3 (PageInt 2) /\
  get_page books3 (PageStr "abc") = page books3 (PageInt 1).
Proof. vm_compute. repeat split. Qed.
