(* ===== verification/Catalog.v ===== *)
(** * Catalog: the book list with search and pagination, and the book detail

    The views of the [books] application are not in the repository; they
    are modelled from the specification (section 4.1) and the tests of
    [src/books/tests.py]:
    - [BookListView_get] ([GET /books/?q=&page=&page_size=]): the books in
      insertion order (primary-key order), restricted to the titles that
      contain [q] ignoring case when [q] is given and not empty
      ([title__icontains]); a [Paginator] of [page_size] books per page
      ([page_size_param]: a positive integer, else the configured default
      size); the page [get_page(n)], [n] the positive integer of [?page=],
      else 1 ([page_param]: the fallback of section 4.1); the list page
      shows the titles of the page's books, or "No books found." when it
      has none;
    - [BookDetailView_get] ([GET /books/<id>/]): the book
      ([get_object_or_404], so a missing id is [Http404]) with its title,
      its description and the comments of its reviews.
    The default page size is a parameter of the section: the
    specification calls it fixed and does not give it.

    Theorems: the search returns exactly the books whose title contains
    the query, in order; the list view never raises nor writes and shows
    one page of the matching books; the page [?page=p] shows the matching
    titles at offsets [(p-1)*k .. p*k-1]; a page parameter that is
    missing, not an integer or below 1 shows the first page, one beyond
    the last page shows the last page; the page size survives the query
    string; reading the pages [1..num_pages] by their [?page=] parameter
    shows every matching book once, in insertion order; the detail view
    answers 404 for a missing id. *)

From S2P Require Import Prelude Text Django Orm Models Admin Http Paginator.

Local Open Scope string_scope.
Local Open Scope Z_scope.

(** ** Query parameters of the list views *)

Section Params.
Context (default_page_size : positive).

(** [page_size]: a positive integer, else the default size. *)
Definition page_size_param (GET : list (string * string)) : positive :=
  match query_get "page_size" GET with
  | Some v => match py_int v with
              | Some z => if (0 <? z)%Z then Z.to_pos z else default_page_size
              | None => default_page_size
              end
  | None => default_page_size
  end.
End Params.

(** [page]: a positive integer; a missing value, one that is not an
    integer and one below 1 fall back to the first page (section 4.1).
    A page beyond the last one is left to [get_page], which shows the
    last page. *)
Definition page_param (GET : list (string * string)) : PageArg :=
  match query_get "page" GET ≫= py_int with
  | Some n => if 0 <? n then PageInt n else PageInt 1
  | None => PageInt 1
  end.

(** ** The book list *)

(** [Book.objects.all()], filtered by [title__icontains=q] when [q] is not
    empty. *)
Definition search_books (q : string) (rows : list (Z * Book.t)) : list (Z * Book.t) :=
  match q with
  | EmptyString => rows
  | _ => filter (fun r => icontains (Book.title r.2) q = true) rows
  end.

Definition no_books : string := "No books found.".

Definition list_texts (objs : list (Z * Book.t)) : list string :=
  match objs with
  | [] => [no_books]
  | _ => map (fun r => Book.title r.2) objs
  end.

Section BookList.
Context (default_page_size : positive).

Definition book_list_paginator (GET : list (string * string)) (s : AppState) : Paginator (Z * Book.t) :=
  paginator (search_books (default EmptyString (query_get "q" GET)) (objects_all (books (db s))))
    (page_size_param default_page_size GET).

Definition BookListView_get (req : Request) : PyM AppState Exn Response :=
  s <- get_state ;;
  match get_page (book_list_paginator (GET req) s) (page_param (GET req)) with
  | inl _ => raise Http404
  | inr pg => ret (render "books/list.html" (list_texts (page_object_list pg)) [])
  end.
End BookList.

(** ** The book detail *)

Definition book_reviews (id : Z) (s : AppState) : list (Z * BookReview.t) :=
  objects_filter (fun r => bool_decide (BookReview.book r = id)) (reviews (db s)).

Definition BookDetailView_get (id : Z) : PyM AppState Exn Response :=
  s <- get_state ;;
  match objects_get "Book" id (books (db s)) with
  | inl _ => raise Http404
  | inr b => ret (render "books/detail.html"
                    (Book.title b :: Book.description b ::
                     map (fun r => BookReview.comment r.2) (book_reviews id s)) [])
  end.

(** ** Lemmas *)

Lemma page_size_param_str k dps GET :
  query_get "page_size" GET = Some (str_Z (Zpos k)) -> page_size_param dps GET = k.
Proof. unfold page_size_param. intros ->. by rewrite py_int_of_str_Z. Qed.

Lemma list_texts_nonempty objs : objs <> [] -> list_texts objs = map (fun r => Book.title r.2) objs.
Proof. by destruct objs. Qed.

(** The list view on a state [s]: the page [n] chosen by [get_page]. *)
Lemma BookListView_get_run dps req s :
  exists n, 1 <= n <= num_pages (book_list_paginator dps (GET req) s) /\
    get_page (book_list_paginator dps (GET req) s) (page_param (GET req)) =
      inr (mkPage (page_slice (book_list_paginator dps (GET req) s) n) n
             (book_list_paginator dps (GET req) s)) /\
    BookListView_get dps req s =
      (s, inr (render "books/list.html"
                 (list_texts (page_slice (book_list_paginator dps (GET req) s) n)) [])).
Proof.
  destruct (get_page_returns (book_list_paginator dps (GET req) s) (page_param (GET req)))
    as ([objs n P'] & Hg & Hn & Ho & HP); [done|]. simpl in *. subst.
  exists n. split_and!; [lia|lia|done|]. unfold BookListView_get, bind, get_state. by rewrite Hg.
Qed.

(** The [?q=...&page_size=k&page=i] request of the list. *)
Definition list_request (q : string) (k : positive) (i : Z) : Request :=
  mkRequest GET_ "/books/" (urlencode [("q", q); ("page_size", str_Z (Zpos k)); ("page", str_Z i)]) [] None.

Lemma list_request_GET q k i :
  GET (list_request q k i) = [("q", q); ("page_size", str_Z (Zpos k)); ("page", str_Z i)].
Proof. apply parse_qsl_of_urlencode. Qed.

Lemma list_request_paginator dps q k i s :
  book_list_paginator dps (GET (list_request q k i)) s =
  paginator (search_books q (objects_all (books (db s)))) k.
Proof.
  unfold book_list_paginator. rewrite list_request_GET, (page_size_param_str k); done.
Qed.

Lemma page_param_int G i : 1 <= i -> query_get "page" G = Some (str_Z i) -> page_param G = PageInt i.
Proof.
  intros Hi Hq. unfold page_param. rewrite Hq. simpl. rewrite py_int_of_str_Z.
  destruct (Z.ltb_spec 0 i); [done|lia].
Qed.

Lemma page_param_first G :
  match query_get "page" G ≫= py_int with Some n => n < 1 | None => True end -> page_param G = PageInt 1.
Proof.
  unfold page_param. destruct (_ ≫= py_int) as [n|]; [|done]. intros Hn.
  destruct (Z.ltb_spec 0 n); [lia|done].
Qed.

Lemma list_request_page q k i : 1 <= i -> page_param (GET (list_request q k i)) = PageInt i.
Proof. intros Hi. apply page_param_int; [done|]. by rewrite list_request_GET. Qed.

(** A non-empty query keeps the books whose title contains it. *)
Lemma search_books_filter q rows :
  q <> EmptyString -> search_books q rows = filter (fun r => icontains (Book.title r.2) q = true) rows.
Proof. by destruct q. Qed.

(** The list view shows the page [get_page] returns. *)
Lemma BookListView_get_page dps req s n :
  get_page (book_list_paginator dps (GET req) s) (page_param (GET req)) =
    inr (mkPage (page_slice (book_list_paginator dps (GET req) s) n) n (book_list_paginator dps (GET req) s)) ->
  serve (BookListView_get dps req) s =
    (s, render "books/list.html" (list_texts (page_slice (book_list_paginator dps (GET req) s) n)) []).
Proof. intros Hg. apply serve_ok. unfold BookListView_get, bind, get_state. by rewrite Hg. Qed.

Lemma book_list_paginator_shape dps GET s :
  orphans (book_list_paginator dps GET s) = 0%N /\ allow_empty_first_page (book_list_paginator dps GET s) = true.
Proof. done. Qed.

(** ** Properties of the catalog *)

(** C24.  The page [?page=p] of the books whose title contains [q]
    (ignoring ASCII case), [k] to a page, shows the titles of the matching
    books at offsets [(p-1)*k] to [p*k-1], in insertion order, whenever
    the page starts within the matching books; the view writes nothing. *)
Theorem book_list_page_offsets dps q k p s :
  q <> EmptyString -> 1 <= p ->
  (p - 1) * Zpos k < Z.of_nat (length (filter (fun r => icontains (Book.title r.2) q = true) (rows (books (db s))))) ->
  serve (BookListView_get dps (list_request q k p)) s =
    (s, render "books/list.html"
          (map (fun r => Book.title r.2)
             (take (Pos.to_nat k) (drop (Z.to_nat ((p - 1) * Zpos k))
                (filter (fun r => icontains (Book.title r.2) q = true) (rows (books (db s))))))) []).
Proof.
  intros Hq Hp Hlen. apply serve_ok. unfold BookListView_get, bind, get_state.
  rewrite list_request_paginator, list_request_page, search_books_filter by done.
  set (P := paginator (filter _ (objects_all (books (db s)))) k).
  assert (Hc : (p - 1) * Zpos k < count P) by (unfold count, P, objects_all; simpl; lia).
  assert (Hr : 1 <= p <= num_pages P) by (split; [done|by apply offset_in_range]).
  rewrite get_page_in_range by done. simpl.
  rewrite list_texts_nonempty by (apply page_slice_nonempty; [nia|done]).
  rewrite page_slice_spec by (done || lia). unfold Spec.page. by rewrite <- take_drop_omap.
Qed.

(** C26.  A page parameter that is missing, is not an integer or is
    below 1 falls back to the first page (section 4.1): the view answers
    with the titles of the first [page_size] matching books, or
    "No books found.", never with an error, and writes nothing. *)
Theorem book_list_fallback dps req s :
  match query_get "page" (GET req) ≫= py_int with Some n => n < 1 | None => True end ->
  serve (BookListView_get dps req) s =
    (s, render "books/list.html"
          (list_texts (take (Pos.to_nat (page_size_param dps (GET req)))
             (search_books (default EmptyString (query_get "q" (GET req))) (rows (books (db s)))))) []).
Proof.
  intros Hn. rewrite (BookListView_get_page dps req s 1); [by rewrite page_slice_first|].
  rewrite page_param_first by done. by apply get_page_first.
Qed.

(** A page beyond the last one shows the last page ([get_page]); the
    specification does not say what it shows. *)
Lemma book_list_beyond_last dps req s n :
  query_get "page" (GET req) ≫= py_int = Some n -> num_pages (book_list_paginator dps (GET req) s) < n ->
  serve (BookListView_get dps req) s =
    (s, render "books/list.html"
          (list_texts (page_slice (book_list_paginator dps (GET req) s)
                         (num_pages (book_list_paginator dps (GET req) s)))) []).
Proof.
  set (P := book_list_paginator dps (GET req) s). intros Hq Hn.
  pose proof (num_pages_pos P eq_refl) as Hpos.
  assert (page_param (GET req) = PageInt n) as Hp.
  { unfold page_param. rewrite Hq. destruct (Z.ltb_spec 0 n); [done|lia]. }
  apply BookListView_get_page. fold P. rewrite Hp.
  rewrite (proj2 (get_page_fallback P (PageInt n)) n) by (done || lia). apply page_in_range. lia.
Qed.

(** The page size survives the round trip through the query
    string: [?page_size=] written with [urlencode] from [str(k)] is read
    back by [page_size_param] as [k] when [k] is positive, and as the
    default size otherwise (zero, negative). *)
Theorem page_size_roundtrip dps k :
  page_size_param dps (parse_qsl (urlencode [("page_size", str_Z k)])) =
  if 0 <? k then Z.to_pos k else dps.
Proof.
  rewrite parse_qsl_of_urlencode. unfold page_size_param.
  assert (query_get "page_size" [("page_size", str_Z k)] = Some (str_Z k)) as -> by reflexivity.
  by rewrite py_int_of_str_Z.
Qed.

(** C29.  A non-empty query returns exactly the books whose
    title contains it, ignoring ASCII case, in insertion order. *)
Theorem search_books_exact q (rows : list (Z * Book.t)) r :
  q <> EmptyString ->
  (r ∈ search_books q rows <-> r ∈ rows /\ icontains (Book.title r.2) q = true) /\
  search_books q rows `sublist_of` rows.
Proof.
  intros Hq. destruct q as [|c q']; [done|]. unfold search_books.
  split; [rewrite list_elem_of_filter; tauto|apply sublist_filter].
Qed.

(** C30.  The list view never raises and never writes: it answers
    200 with the page [n] (within [1..num_pages]) of the matching books,
    showing their titles, or "No books found." when the page is empty. *)
Theorem book_list_view dps req s :
  exists n, 1 <= n <= num_pages (book_list_paginator dps (GET req) s) /\
    serve (BookListView_get dps req) s =
      (s, render "books/list.html" (list_texts (page_slice (book_list_paginator dps (GET req) s) n)) []).
Proof.
  destruct (BookListView_get_run dps req s) as (n & Hn & _ & Hrun).
  exists n. split; [done|]. by apply serve_ok.
Qed.

(** C31.  Asking the list for [?page=1], [?page=2], ...,
    up to the last page shows every matching book once, in insertion
    order: the pagination loses and repeats nothing. *)
Theorem book_list_all_pages dps q k s :
  search_books q (objects_all (books (db s))) <> [] ->
  concat (map (fun i => page_shown (serve (BookListView_get dps (list_request q k (Z.of_nat i))) s).2)
            (seq 1 (Z.to_nat (num_pages (paginator (search_books q (objects_all (books (db s)))) k))))) =
  map (fun r => Book.title r.2) (search_books q (objects_all (books (db s)))).
Proof.
  intros Hne. set (P := paginator (search_books q (objects_all (books (db s)))) k).
  change (search_books q (objects_all (books (db s)))) with (object_list P).
  rewrite <- (concat_pages P). rewrite concat_map, map_map. f_equal.
  apply map_ext_in. intros i Hi%in_seq.
  assert (Hc : 0 < count P).
  { unfold count. simpl. destruct (search_books _ _); [done|simpl; lia]. }
  assert (Hr : 1 <= Z.of_nat i <= num_pages P) by lia.
  unfold serve, BookListView_get, bind, get_state.
  rewrite list_request_paginator, list_request_page by lia. fold P.
  rewrite get_page_in_range by done. simpl.
  rewrite list_texts_nonempty by (by apply page_slice_nonempty). done.
Qed.

(** C32.  The detail of a stored book shows its title and its
    description; for an id no book has, the view raises [Http404] and the
    handler answers 404. *)
Theorem book_detail_view id s :
  (forall b, find_row id (rows (books (db s))) = Some b ->
   exists more, serve (BookDetailView_get id) s =
     (s, render "books/detail.html" (Book.title b :: Book.description b :: more) [])) /\
  (find_row id (rows (books (db s))) = None ->
   serve (BookDetailView_get id) s = (s, response_for_exception Http404) /\
   status_code (serve (BookDetailView_get id) s).2 = 404%Z).
Proof.
  unfold serve, BookDetailView_get, bind, get_state, objects_get. split.
  - intros b ->. by eexists.
  - intros ->. done.
Qed.

(** ** Witnesses: the three books of [test_search_books] *)

Definition catalog_state : AppState :=
  set_db (set_books (mkTable catalogue 4) empty_db) initial_state.

Lemma search_books_exact_witness :
  ((1%Z, sport) ∈ search_books "sport" catalogue <->
   (1%Z, sport) ∈ catalogue /\ icontains (Book.title sport) "sport" = true) /\
  search_books "sport" catalogue `sublist_of` catalogue.
Proof. apply search_books_exact. discriminate. Defined.

Lemma book_list_all_pages_witness :
  concat (map (fun i => page_shown (serve (BookListView_get 10 (list_request "o" 2 (Z.of_nat i)))
                                      catalog_state).2)
            (seq 1 (Z.to_nat (num_pages (paginator (search_books "o" (objects_all (books (db catalog_state)))) 2))))) =
  map (fun r => Book.title r.2) (search_books "o" (objects_all (books (db catalog_state)))).
Proof. apply book_list_all_pages. intros H. vm_compute in H. discriminate. Defined.

Lemma book_list_page_offsets_witness :
  serve (BookListView_get 10 (list_request "o" 1 2)) catalog_state =
    (catalog_state, render "books/list.html"
       (map (fun r => Book.title r.2)
          (take 1 (drop (Z.to_nat ((2 - 1) * 1))
             (filter (fun r => icontains (Book.title r.2) "o" = true) (rows (books (db catalog_state))))))) []).
Proof. apply book_list_page_offsets; [discriminate|lia|apply Z.ltb_lt; vm_compute; reflexivity]. Defined.

Lemma book_list_fallback_witness :
  serve (BookListView_get 10 (mkRequest GET_ "/books/" "page=abc&page_size=2" [] None)) catalog_state =
    (catalog_state, render "books/list.html" (list_texts (take 2 (search_books EmptyString catalogue))) []) /\
  serve (BookListView_get 10 (mkRequest GET_ "/books/" "page=0&page_size=2" [] None)) catalog_state =
    (catalog_state, render "books/list.html" (list_texts (take 2 (search_books EmptyString catalogue))) []).
Proof.
  split; [apply (book_list_fallback 10 (mkRequest GET_ "/books/" "page=abc&page_size=2" [] None))
         |apply (book_list_fallback 10 (mkRequest GET_ "/books/" "page=0&page_size=2" [] None))];
    vm_compute; reflexivity.
Defined.

Lemma book_detail_view_witness :
  (exists more, serve (BookDetailView_get 1) catalog_state =
     (catalog_state, render "books/detail.html" (Book.title sport :: Book.description sport :: more) [])) /\
  serve (BookDetailView_get 9) catalog_state = (catalog_state, response_for_exception Http404) /\
  status_code (serve (BookDetailView_get 9) catalog_state).2 = 404%Z.
Proof.
  split.
  - apply (proj1 (book_detail_view 1 catalog_state)). reflexivity.
  - apply (proj2 (book_detail_view 9 catalog_state)). reflexivity.
Defined.

Example catalog_search_shoe :
  serve (BookListView_get 10 (mkRequest GET_ "/books/" "q=shoe" [] None)) catalog_state =
  (catalog_state, render "books/list.html" ["Shoe Dog"] []).
Proof. vm_compute. reflexivity. Qed.
