(* ===== verification/Reviews.v ===== *)
(** * Reviews: submitting a review, and the home page of recent reviews

    Modelled from the specification (sections 4.2, 8) and the tests of
    [src/books/tests.py] ([test_add_review]) and
    [src/goodreads/tests.py] ([test_paginated_list]); the views and the
    form are not in the repository.
    - [clean_review_form]: the review form's fields [stars_given] (an
      [IntegerField] bounded by the rating scale [lo..hi]: required, then
      [int], then the bounds) and [comment] (a required [CharField], whose
      value is stripped); every invalid field contributes its message, in
      field order;
    - [AddReviewView_post] ([POST /books/<id>/reviews/]): an anonymous user
      is redirected to the login page with [?next=] the requested path;
      a missing book is [Http404]; an invalid form re-renders the detail
      page with the field errors and writes nothing; a valid one creates
      the review (stamped with [timezone.now()]) and redirects to the
      book's detail page;
    - [home_page] ([GET /?page=&page_size=]): the reviews ordered by
      [-created_at] ([sort_desc], a stable insertion sort), paginated like
      the book list, showing the comments of the page.
    The rating scale is a parameter: the specification bounds it without
    giving the bounds.

    Theorems: a valid submission creates exactly one review, with the
    submitted stars and comment, for the requesting user and the book;
    an invalid one, a missing book or an anonymous user writes nothing;
    the submission keeps the database invariant; reviews are stamped in
    increasing time ([reviews_chrono], preserved by submission), so the
    home page lists them in reverse insertion order, its first page of
    size [k] being the [k] newest; its pages together show every review
    once; after a valid submission the home page shows the new comment
    first; two submissions served in either order store the same reviews
    up to the order of the rows. *)

From S2P Require Import Prelude Text Django Orm Models Admin Http Paginator Catalog.
From Stdlib Require Import Sorting.Sorted.

Local Open Scope string_scope.
Local Open Scope Z_scope.

(** ** The review form *)

Definition required_msg : string := "This field is required.".
Definition invalid_int_msg : string := "Enter a whole number.".
Definition min_value_msg (n : Z) : string :=
  "Ensure this value is greater than or equal to " ++ str_Z n ++ ".".
Definition max_value_msg (n : Z) : string :=
  "Ensure this value is less than or equal to " ++ str_Z n ++ ".".

(** [IntegerField(min_value=lo, max_value=hi).clean(value)]: a missing or
    empty value is required, [int] must read it, then the validators. *)
Definition clean_integer (lo hi : Z) (v : option string) : string + Z :=
  match v with
  | None | Some EmptyString => inl required_msg
  | Some t =>
      match py_int t with
      | None => inl invalid_int_msg
      | Some n => if n <? lo then inl (min_value_msg lo)
                  else if hi <? n then inl (max_value_msg hi)
                  else inr n
      end
  end.

(** [CharField(required=True, strip=True).clean(value)]. *)
Definition clean_char (v : option string) : string + string :=
  match strip (default EmptyString v) with
  | EmptyString => inl required_msg
  | t => inr t
  end.

Definition field_error {B} (field : string) (r : string + B) : list (string * string) :=
  match r with inl m => [(field, m)] | inr _ => [] end.

(** [form.is_valid()] and [form.cleaned_data], or [form.errors]. *)
Definition clean_review_form (lo hi : Z) (data : list (string * string))
    : list (string * string) + (Z * string) :=
  let stars := clean_integer lo hi (query_get "stars_given" data) in
  let comment := clean_char (query_get "comment" data) in
  match stars, comment with
  | inr n, inr c => inr (n, c)
  | _, _ => inl (app (field_error "stars_given" stars) (field_error "comment" comment))
  end.

(** ** Submitting a review *)

Definition book_detail_path (id : Z) : string := "/books/" ++ str_Z id ++ "/".

Definition detail_texts (id : Z) (b : Book.t) (s : AppState) : list string :=
  Book.title b :: Book.description b :: map (fun r => BookReview.comment r.2) (book_reviews id s).

(** [BookReview.objects.create(...)] with [created_at = timezone.now()]. *)
Definition create_review (uid id : Z) (stars : Z) (comment : string) : PyM AppState Exn Z :=
  t <- now ;;
  s <- get_state ;;
  let '(k, tbl) := objects_create (BookReview.mk uid id comment stars t) (reviews (db s)) in
  put_state (set_db (set_reviews tbl (db s)) s) ;;;
  ret k.

Definition AddReviewView_post (lo hi : Z) (id : Z) (req : Request) : PyM AppState Exn Response :=
  match user req with
  | None => ret (redirect_to_login (full_path req))
  | Some uid =>
      s <- get_state ;;
      match objects_get "Book" id (books (db s)) with
      | inl _ => raise Http404
      | inr b =>
          match clean_review_form lo hi (POST req) with
          | inl errors => ret (render "books/detail.html" (detail_texts id b s) errors)
          | inr (stars, comment) =>
              create_review uid id stars comment ;;;
              ret (HttpResponseRedirect (book_detail_path id))
          end
      end
  end.

(** ** The home page *)

(** [order_by("-created_at")], newest first; rows with the same time keep
    their order. *)
Fixpoint insert_desc (x : Z * BookReview.t) (l : list (Z * BookReview.t)) : list (Z * BookReview.t) :=
  match l with
  | [] => [x]
  | y :: l' => if BookReview.created_at y.2 <? BookReview.created_at x.2 then x :: l
               else y :: insert_desc x l'
  end.

Definition sort_desc (l : list (Z * BookReview.t)) : list (Z * BookReview.t) :=
  foldr insert_desc [] l.

Definition home_paginator (dps : positive) (GET : list (string * string)) (s : AppState)
    : Paginator (Z * BookReview.t) :=
  paginator (sort_desc (objects_all (reviews (db s)))) (page_size_param dps GET).

Definition home_page (dps : positive) (req : Request) : PyM AppState Exn Response :=
  s <- get_state ;;
  match get_page (home_paginator dps (GET req) s) (page_param (GET req)) with
  | inl _ => raise Http404
  | inr pg => ret (render "home.html" (map (fun r => BookReview.comment r.2) (page_object_list pg)) [])
  end.

(** ** The chronology of the reviews *)

(** Reviews are stamped in increasing time, all before the clock. *)
Definition reviews_chrono (s : AppState) : Prop :=
  StronglySorted (fun r1 r2 : Z * BookReview.t => BookReview.created_at r1.2 < BookReview.created_at r2.2)
    (rows (reviews (db s))) /\
  Forall (fun r : Z * BookReview.t => BookReview.created_at r.2 < clock s) (rows (reviews (db s))).

(** ** Lemmas *)

Lemma str_Z_nonempty z : str_Z z <> EmptyString.
Proof. unfold str_Z. destruct (z <? 0); [done|apply str_N_nonempty]. Qed.

Lemma clean_integer_str lo hi n :
  lo <= n <= hi -> clean_integer lo hi (Some (str_Z n)) = inr n.
Proof.
  intros Hn. unfold clean_integer. pose proof (str_Z_nonempty n).
  destruct (str_Z n) eqn:E; [done|]. rewrite <- E, py_int_of_str_Z.
  destruct (Z.ltb_spec n lo); [lia|]. destruct (Z.ltb_spec hi n); [lia|done].
Qed.

Lemma clean_review_form_valid lo hi data n c :
  query_get "stars_given" data = Some (str_Z n) -> lo <= n <= hi ->
  query_get "comment" data = Some c -> strip c = c -> c <> EmptyString ->
  clean_review_form lo hi data = inr (n, c).
Proof.
  intros Hs Hn Hc Hstrip Hne. unfold clean_review_form. rewrite Hs, Hc, clean_integer_str by done.
  unfold clean_char. simpl. rewrite Hstrip. by destruct c.
Qed.

Lemma clean_integer_bounds lo hi v n : clean_integer lo hi v = inr n -> lo <= n <= hi.
Proof.
  unfold clean_integer. destruct v as [[|c t]|]; try done.
  destruct (py_int _) as [m|]; [|done].
  destruct (Z.ltb_spec m lo); [done|]. destruct (Z.ltb_spec hi m); [done|]. intros [= <-]. lia.
Qed.

Lemma clean_char_nonempty v t : clean_char v = inr t -> t <> EmptyString.
Proof. unfold clean_char. by destruct (strip _); intros [= <-]. Qed.

(** A valid form holds a rating on the scale and a comment that is not
    empty. *)
Lemma clean_review_form_inr lo hi data n c :
  clean_review_form lo hi data = inr (n, c) -> lo <= n <= hi /\ c <> EmptyString.
Proof.
  unfold clean_review_form.
  destruct (clean_integer lo hi _) eqn:Ei, (clean_char _) eqn:Ec; intros [=]; subst.
  split; [by eapply clean_integer_bounds|by eapply clean_char_nonempty].
Qed.

(** An invalid form has at least one field error. *)
Lemma clean_review_form_errors lo hi data errors :
  clean_review_form lo hi data = inl errors -> errors <> [].
Proof.
  unfold clean_review_form.
  destruct (clean_integer lo hi _), (clean_char _); intros [= <-]; done.
Qed.

Lemma create_review_run uid id stars comment s :
  create_review uid id stars comment s =
  (set_db (set_reviews (objects_create (BookReview.mk uid id comment stars (clock s)) (reviews (db s))).2
             (db s)) (tick s),
   inr (next_id (reviews (db s)))).
Proof. reflexivity. Qed.

(** How a submission runs, branch by branch. *)
Lemma AddReviewView_post_run lo hi id req s :
  AddReviewView_post lo hi id req s =
  match user req with
  | None => (s, inr (redirect_to_login (full_path req)))
  | Some uid =>
      match find_row id (rows (books (db s))) with
      | None => (s, inl Http404)
      | Some b =>
          match clean_review_form lo hi (POST req) with
          | inl errors => (s, inr (render "books/detail.html" (detail_texts id b s) errors))
          | inr (stars, comment) =>
              (set_db (set_reviews (objects_create (BookReview.mk uid id comment stars (clock s))
                                      (reviews (db s))).2 (db s)) (tick s),
               inr (HttpResponseRedirect (book_detail_path id)))
          end
      end
  end.
Proof.
  unfold AddReviewView_post, bind, get_state, objects_get.
  destruct (user req) as [uid|]; [|done]. destruct (find_row id _) as [b|]; [|done].
  by destruct (clean_review_form lo hi (POST req)) as [|[]].
Qed.

Lemma StronglySorted_app_single {B} (R : B -> B -> Prop) l x :
  StronglySorted R l -> Forall (fun y => R y x) l -> StronglySorted R (app l [x]).
Proof.
  induction 1 as [|y l _ IH Hy]; intros Hall; simpl; [repeat constructor|].
  invc Hall. constructor; [by apply IH|]. apply Forall_app. by split; [|constructor].
Qed.

Lemma insert_desc_last x l :
  Forall (fun y : Z * BookReview.t => BookReview.created_at x.2 <= BookReview.created_at y.2) l ->
  insert_desc x l = app l [x].
Proof.
  induction 1 as [|y l Hy _ IH]; [done|]. simpl.
  destruct (Z.ltb_spec (BookReview.created_at y.2) (BookReview.created_at x.2)); [lia|]. by rewrite IH.
Qed.

(** Rows in increasing time are sorted newest first by reversing them. *)
Lemma sort_desc_rev l :
  StronglySorted (fun r1 r2 : Z * BookReview.t => BookReview.created_at r1.2 < BookReview.created_at r2.2) l ->
  sort_desc l = rev l.
Proof.
  induction 1 as [|x l _ IH Hx]; [done|]. simpl. fold (sort_desc l). rewrite IH.
  apply insert_desc_last. apply Forall_rev. eapply Forall_impl; [exact Hx|]. simpl. lia.
Qed.

(** What a stored review says, without its key and its time stamp. *)
Definition review_content (r : Z * BookReview.t) : Z * Z * string * Z :=
  (BookReview.user r.2, BookReview.book r.2, BookReview.comment r.2, BookReview.stars_given r.2).

(** The review a submission adds, if any: it depends on the request and
    the book table only. *)
Definition submitted (lo hi id : Z) (req : Request) (bk : Table Book.t) : list (Z * Z * string * Z) :=
  match user req, find_row id (rows bk), clean_review_form lo hi (POST req) with
  | Some uid, Some _, inr (stars, comment) => [(uid, id, comment, stars)]
  | _, _, _ => []
  end.

(** A submission appends what [submitted] says and touches neither the
    books nor the users. *)
Lemma AddReviewView_post_effect lo hi id req s :
  map review_content (rows (reviews (db (AddReviewView_post lo hi id req s).1))) =
    app (map review_content (rows (reviews (db s)))) (submitted lo hi id req (books (db s))) /\
  books (db (AddReviewView_post lo hi id req s).1) = books (db s) /\
  users (db (AddReviewView_post lo hi id req s).1) = users (db s).
Proof.
  rewrite AddReviewView_post_run. unfold submitted.
  destruct (user req) as [uid|]; [|by rewrite app_nil_r].
  destruct (find_row id _) as [b|]; [|by rewrite app_nil_r].
  destruct (clean_review_form lo hi (POST req)) as [errors|[stars comment]]; [by rewrite app_nil_r|].
  simpl. by rewrite map_app.
Qed.

(** ** Properties of review submission and of the home page *)

(** C17.  An authenticated user submitting a valid form for a
    stored book adds exactly one review, with the submitted stars and
    comment, the user and the book, stamped with the current time, and is
    redirected to the book's page; nothing else changes but the clock. *)
Theorem add_review_creates lo hi id req s uid b stars comment :
  user req = Some uid -> find_row id (rows (books (db s))) = Some b ->
  clean_review_form lo hi (POST req) = inr (stars, comment) ->
  exists s', serve (AddReviewView_post lo hi id req) s = (s', HttpResponseRedirect (book_detail_path id)) /\
    rows (reviews (db s')) =
      app (rows (reviews (db s))) [(next_id (reviews (db s)), BookReview.mk uid id comment stars (clock s))] /\
    books (db s') = books (db s) /\ users (db s') = users (db s) /\
    book_authors (db s') = book_authors (db s) /\ outbox s' = outbox s /\ session s' = session s.
Proof.
  intros Hu Hb Hf. eexists. split; [apply serve_ok; rewrite AddReviewView_post_run, Hu, Hb, Hf; done|].
  done.
Qed.

(** C18.  An anonymous user is sent to the login page with
    [?next=] the requested path; a missing book is a 404; an invalid form
    is shown again with at least one field error.  In every case the
    state is left as it was. *)
Theorem add_review_rejects lo hi id req s :
  (user req = None ->
   serve (AddReviewView_post lo hi id req) s = (s, redirect_to_login (full_path req))) /\
  (forall uid, user req = Some uid -> find_row id (rows (books (db s))) = None ->
   serve (AddReviewView_post lo hi id req) s = (s, response_for_exception Http404)) /\
  (forall uid b errors, user req = Some uid -> find_row id (rows (books (db s))) = Some b ->
   clean_review_form lo hi (POST req) = inl errors ->
   errors <> [] /\
   serve (AddReviewView_post lo hi id req) s = (s, render "books/detail.html" (detail_texts id b s) errors)).
Proof.
  unfold serve. rewrite AddReviewView_post_run. split_and!.
  - by intros ->.
  - by intros uid -> ->.
  - intros uid b errors -> -> Hf. rewrite Hf. split; [|done]. by eapply clean_review_form_errors.
Qed.

Lemma create_review_state uid id stars comment s :
  (create_review uid id stars comment s).1 =
  set_db (set_reviews (objects_create (BookReview.mk uid id comment stars (clock s)) (reviews (db s))).2
            (db s)) (tick s).
Proof. by rewrite create_review_run. Qed.

(** A review stamped with the clock, which then advances, keeps the
    reviews in time order. *)
Lemma create_review_chrono uid id stars comment s :
  reviews_chrono s -> reviews_chrono (create_review uid id stars comment s).1.
Proof.
  intros [Hs Hc]. rewrite create_review_state. unfold reviews_chrono. simpl. split.
  - by apply StronglySorted_app_single.
  - apply Forall_app. split; [|constructor; simpl; [lia|constructor]].
    eapply Forall_impl; [exact Hc|]. simpl. lia.
Qed.

(** A submission, whatever its outcome, keeps the database
    invariant, provided the session's user exists: the new review names a
    stored book and a stored user. *)
Theorem add_review_wf lo hi id req s s' r :
  db_wf (db s) -> (forall uid, user req = Some uid -> exists_row (users (db s)) uid) ->
  AddReviewView_post lo hi id req s = (s', r) -> db_wf (db s').
Proof.
  intros Hwf Hu. rewrite AddReviewView_post_run.
  destruct (user req) as [uid|] eqn:Eu; [|by intros [= <- _]].
  destruct (find_row id (rows (books (db s)))) as [b|] eqn:Eb; [|by intros [= <- _]].
  destruct (clean_review_form lo hi (POST req)) as [errors|[stars comment]]; [by intros [= <- _]|].
  intros [= <- _]. simpl. apply set_reviews_create_wf; [done|]. split; simpl.
  - unfold exists_row. rewrite Eb. by eexists.
  - by apply Hu.
Qed.

(** Submissions keep the reviews in increasing time,
    all stamped before the clock. *)
Theorem add_review_chrono lo hi id req s s' r :
  reviews_chrono s -> AddReviewView_post lo hi id req s = (s', r) -> reviews_chrono s'.
Proof.
  intros Hch. rewrite AddReviewView_post_run.
  destruct (user req) as [uid|]; [|by intros [= <- _]].
  destruct (find_row id (rows (books (db s)))) as [b|]; [|by intros [= <- _]].
  destruct (clean_review_form lo hi (POST req)) as [errors|[stars comment]]; [by intros [= <- _]|].
  intros [= <- _]. pose proof (create_review_chrono uid id stars comment s Hch) as H. by rewrite create_review_state in H.
Qed.

Lemma home_sorted_desc s :
  reviews_chrono s -> sort_desc (objects_all (reviews (db s))) = rev (objects_all (reviews (db s))).
Proof. intros [Hs _]. by apply sort_desc_rev. Qed.

(** The [?page_size=k&page=i] request of the home page. *)
Definition home_request (k : positive) (i : Z) : Request :=
  mkRequest GET_ "/" (urlencode [("page_size", str_Z (Zpos k)); ("page", str_Z i)]) [] None.

Lemma home_request_GET k i :
  GET (home_request k i) = [("page_size", str_Z (Zpos k)); ("page", str_Z i)].
Proof. apply parse_qsl_of_urlencode. Qed.

Lemma home_request_paginator dps k i s :
  home_paginator dps (GET (home_request k i)) s = paginator (sort_desc (objects_all (reviews (db s)))) k.
Proof. unfold home_paginator. rewrite home_request_GET, (page_size_param_str k); done. Qed.

(** The home page [?page=i], for [i] in [1..num_pages], shows the
    comments of page [i] of the reviews newest first, and writes nothing. *)
Lemma home_request_run dps k i s :
  1 <= i <= num_pages (paginator (sort_desc (objects_all (reviews (db s)))) k) ->
  serve (home_page dps (home_request k i)) s =
    (s, render "home.html"
          (map (fun r => BookReview.comment r.2)
             (page_slice (paginator (sort_desc (objects_all (reviews (db s)))) k) i)) []).
Proof.
  intros Hi. apply serve_ok. unfold home_page, bind, get_state.
  rewrite home_request_paginator, (page_param_int _ i); [by rewrite get_page_in_range|lia|].
  by rewrite home_request_GET.
Qed.

(** C25.  Reading the home page [?page=1], [?page=2], ..., up to the last
    page shows the comment of every review once, newest first: the
    pagination of the home page loses and repeats nothing. *)
Theorem home_all_pages dps k s :
  reviews_chrono s ->
  concat (map (fun i => page_shown (serve (home_page dps (home_request k (Z.of_nat i))) s).2)
            (seq 1 (Z.to_nat (num_pages (paginator (sort_desc (objects_all (reviews (db s)))) k))))) =
  map (fun r => BookReview.comment r.2) (rev (rows (reviews (db s)))).
Proof.
  intros Hch. set (P := paginator (sort_desc (objects_all (reviews (db s)))) k).
  change (rows (reviews (db s))) with (objects_all (reviews (db s))).
  rewrite <- home_sorted_desc by done. change (sort_desc _) with (object_list P).
  rewrite <- (concat_pages P), concat_map, map_map. f_equal.
  apply map_ext_in. intros i Hi%in_seq. rewrite home_request_run; [done|]. fold P. lia.
Qed.

(** C28.  Submitting a valid review and then opening the home page shows
    the new comment first: the review service and the home page agree on
    the order, across the state the submission leaves. *)
Theorem review_then_home lo hi dps id req s uid b stars comment k :
  reviews_chrono s -> user req = Some uid -> find_row id (rows (books (db s))) = Some b ->
  clean_review_form lo hi (POST req) = inr (stars, comment) ->
  exists rest,
    serve (home_page dps (home_request k 1)) (serve (AddReviewView_post lo hi id req) s).1 =
      ((serve (AddReviewView_post lo hi id req) s).1, render "home.html" (comment :: rest) []).
Proof.
  intros Hch Hu Hb Hf.
  set (s' := set_db (set_reviews (objects_create (BookReview.mk uid id comment stars (clock s))
                                   (reviews (db s))).2 (db s)) (tick s)).
  assert (E : AddReviewView_post lo hi id req s = (s', inr (HttpResponseRedirect (book_detail_path id))))
    by (rewrite AddReviewView_post_run, Hu, Hb, Hf; done).
  assert (Hch' : reviews_chrono s') by (eapply add_review_chrono; [exact Hch|exact E]).
  rewrite (serve_ok _ _ _ _ E). cbn [fst].
  rewrite home_request_run.
  - rewrite page_slice_first by done. cbn [object_list per_page paginator].
    rewrite home_sorted_desc by done. cbn [objects_all reviews db s' set_db set_reviews objects_create fst].
    rewrite objects_all_create, rev_app_distr. simpl. destruct (Pos.to_nat k) eqn:Ek; [lia|]. by eexists.
  - pose proof (num_pages_pos (paginator (sort_desc (objects_all (reviews (db s')))) k) eq_refl). lia.
Qed.

(** C35.  Two submissions commute: whichever of two requests is served
    first, the reviews stored afterwards say the same things (user, book,
    comment, stars), up to the order of the rows, and the books and users
    are the same.  Each submission writes only its own new row, as the
    specification's concurrency model (section 5) assumes. *)
Theorem submissions_commute lo hi id1 id2 req1 req2 s :
  map review_content (rows (reviews (db (AddReviewView_post lo hi id2 req2 (AddReviewView_post lo hi id1 req1 s).1).1)))
  ≡ₚ map review_content (rows (reviews (db (AddReviewView_post lo hi id1 req1 (AddReviewView_post lo hi id2 req2 s).1).1))) /\
  books (db (AddReviewView_post lo hi id2 req2 (AddReviewView_post lo hi id1 req1 s).1).1) =
    books (db (AddReviewView_post lo hi id1 req1 (AddReviewView_post lo hi id2 req2 s).1).1) /\
  users (db (AddReviewView_post lo hi id2 req2 (AddReviewView_post lo hi id1 req1 s).1).1) =
    users (db (AddReviewView_post lo hi id1 req1 (AddReviewView_post lo hi id2 req2 s).1).1).
Proof.
  destruct (AddReviewView_post_effect lo hi id1 req1 s) as (R1 & B1 & U1).
  destruct (AddReviewView_post_effect lo hi id2 req2 s) as (R2 & B2 & U2).
  destruct (AddReviewView_post_effect lo hi id2 req2 (AddReviewView_post lo hi id1 req1 s).1) as (R12 & B12 & U12).
  destruct (AddReviewView_post_effect lo hi id1 req1 (AddReviewView_post lo hi id2 req2 s).1) as (R21 & B21 & U21).
  rewrite R12, R21, R1, R2, B1, B2, <- !app_assoc. split_and!.
  - f_equiv. apply Permutation_app_comm.
  - congruence.
  - congruence.
Qed.

(** C34.  The home page with [?page_size=k] and no page
    shows the comments of the [k] newest reviews, newest first, and
    writes nothing. *)
Theorem home_first_page dps req s k :
  reviews_chrono s -> query_get "page_size" (GET req) = Some (str_Z (Zpos k)) ->
  query_get "page" (GET req) = None ->
  serve (home_page dps req) s =
    (s, render "home.html"
          (map (fun r => BookReview.comment r.2) (take (Pos.to_nat k) (rev (rows (reviews (db s)))))) []).
Proof.
  intros Hch Hk Hp. unfold serve, home_page, bind, get_state.
  rewrite page_param_first by (by rewrite Hp). rewrite get_page_first by done. simpl.
  rewrite page_slice_first by done. unfold home_paginator. simpl.
  rewrite (page_size_param_str k) by done. by rewrite home_sorted_desc.
Qed.

(** ** Witnesses: the book, user and reviews of the test suites *)

Definition reader : CustomUser.t :=
  CustomUser.mk "shahzod" "Shahzod" "Nematov" "shahzod@gmail.com" "".

Definition review_state : AppState :=
  set_db (set_users (mkTable [(1, reader)] 2) (db catalog_state)) catalog_state.

Definition review_request (stars comment : string) (u : option Z) : Request :=
  mkRequest POST_ "/books/1/reviews/" "" [("stars_given", stars); ("comment", comment)] u.

(** The three reviews of [test_paginated_list], one after the other. *)
Definition home_state : AppState :=
  ((create_review 1 1 3 "Very good book" ;;; create_review 1 1 4 "Useful book" ;;;
    create_review 1 1 5 "Nice book") review_state).1.

Lemma review_state_wf : db_wf (db review_state).
Proof.
  unfold db_wf, table_wf. simpl. split_and!; repeat constructor; simpl; try lia.
Qed.

Lemma home_state_chrono : reviews_chrono home_state.
Proof. unfold reviews_chrono. simpl. split; repeat constructor; simpl; lia. Qed.

Lemma add_review_creates_witness :
  exists s', serve (AddReviewView_post 1 5 1 (review_request "3" "Nice book" (Some 1))) review_state =
               (s', HttpResponseRedirect (book_detail_path 1)) /\
    rows (reviews (db s')) =
      app (rows (reviews (db review_state)))
        [(next_id (reviews (db review_state)), BookReview.mk 1 1 "Nice book" 3 (clock review_state))] /\
    books (db s') = books (db review_state) /\ users (db s') = users (db review_state) /\
    book_authors (db s') = book_authors (db review_state) /\ outbox s' = outbox review_state /\
    session s' = session review_state.
Proof. apply (add_review_creates 1 5 1 _ review_state 1 sport); reflexivity. Defined.

Lemma add_review_rejects_witness :
  serve (AddReviewView_post 1 5 1 (review_request "3" "Nice book" None)) review_state =
    (review_state, redirect_to_login "/books/1/reviews/") /\
  serve (AddReviewView_post 1 5 9 (review_request "3" "Nice book" (Some 1))) review_state =
    (review_state, response_for_exception Http404) /\
  ([("stars_given", max_value_msg 5)] : list (string * string)) <> [] /\
  serve (AddReviewView_post 1 5 1 (review_request "7" "Nice book" (Some 1))) review_state =
    (review_state, render "books/detail.html" (detail_texts 1 sport review_state)
                     [("stars_given", max_value_msg 5)]).
Proof.
  split; [apply (add_review_rejects 1 5 1 (review_request "3" "Nice book" None)); reflexivity|].
  split; [apply (add_review_rejects 1 5 9 (review_request "3" "Nice book" (Some 1)) review_state) with 1;
          reflexivity|].
  apply (add_review_rejects 1 5 1 (review_request "7" "Nice book" (Some 1)) review_state) with 1;
    reflexivity.
Defined.

Lemma add_review_wf_witness :
  db_wf (db (AddReviewView_post 1 5 1 (review_request "3" "Nice book" (Some 1)) review_state).1).
Proof.
  apply (add_review_wf 1 5 1 (review_request "3" "Nice book" (Some 1)) review_state _
           (AddReviewView_post 1 5 1 (review_request "3" "Nice book" (Some 1)) review_state).2).
  - apply review_state_wf.
  - intros uid [= <-]. unfold exists_row. simpl. by eexists.
  - by destruct (AddReviewView_post _ _ _ _ _).
Defined.

Lemma add_review_chrono_witness :
  reviews_chrono (AddReviewView_post 1 5 1 (review_request "3" "Nice book" (Some 1)) home_state).1.
Proof.
  apply (add_review_chrono 1 5 1 (review_request "3" "Nice book" (Some 1)) home_state _
           (AddReviewView_post 1 5 1 (review_request "3" "Nice book" (Some 1)) home_state).2).
  - apply home_state_chrono.
  - by destruct (AddReviewView_post _ _ _ _ _).
Defined.

Lemma home_first_page_witness :
  serve (home_page 10 (mkRequest GET_ "/" "page_size=2" [] None)) home_state =
    (home_state, render "home.html"
       (map (fun r => BookReview.comment r.2) (take 2 (rev (rows (reviews (db home_state)))))) []).
Proof. apply (home_first_page 10 _ home_state 2); [apply home_state_chrono|reflexivity|reflexivity]. Defined.

Example home_first_page_comments :
  serve (home_page 10 (mkRequest GET_ "/" "page_size=2" [] None)) home_state =
    (home_state, render "home.html" ["Nice book"; "Useful book"] []).
Proof. vm_compute. reflexivity. Qed.

Lemma home_all_pages_witness :
  concat (map (fun i => page_shown (serve (home_page 10 (home_request 2 (Z.of_nat i))) home_state).2)
            (seq 1 (Z.to_nat (num_pages (paginator (sort_desc (objects_all (reviews (db home_state)))) 2))))) =
  map (fun r => BookReview.comment r.2) (rev (rows (reviews (db home_state)))).
Proof. apply home_all_pages. apply home_state_chrono. Defined.

Lemma review_then_home_witness :
  exists rest,
    serve (home_page 10 (home_request 2 1))
      (serve (AddReviewView_post 1 5 1 (review_request "4" "Great" (Some 1))) home_state).1 =
    ((serve (AddReviewView_post 1 5 1 (review_request "4" "Great" (Some 1))) home_state).1,
     render "home.html" ("Great" :: rest) []).
Proof.
  apply (review_then_home 1 5 10 1 (review_request "4" "Great" (Some 1)) home_state 1 sport 4 "Great" 2);
    [apply home_state_chrono|reflexivity|reflexivity|reflexivity].
Defined.
