(* ===== verification/Identity.v ===== *)
(** * Identity: registration, login, logout and the profile

    Modelled from the specification (sections 4.3, 7, 8) and the tests of
    [src/users/tests.py]; the views, forms and templates of [users] are not
    in the repository.
    - [PasswordHasher]: the interface of Django's password hashing
      ([make_password], [check_password]) with the laws the code relies on;
      a salted hash is abstracted as a function of the raw password.
    - [clean_register_form]: the registration form (fields [username],
      [first_name], [last_name], [email], [password]): [username] and
      [password] are required, the names optional, [email] optional and
      checked by [validate_email] when given; then the model's uniqueness
      of [username] ("A user with that username already exists.").  The
      errors are listed in the order Django's [form.errors] records them.
    - [RegisterView_post]: an invalid form is shown again with its errors
      and nothing is written; a valid one is saved once with the hashed
      password through [save_user] (so the [post_save] receiver sends the
      welcome e-mail) and the client is redirected to the login page.
    - [authenticate] and [LoginView_post]: the user with that username
      whose stored hash verifies the password; success stores the user in
      the session and redirects to [next] (a local path) or to
      [LOGIN_REDIRECT_URL]; failure shows the form again with the one
      message that does not say which field was wrong.
    - [LogoutView_get]: the session forgets the user.
    - [ProfileView_get], [ProfileEditView_post]: [login_required] (an
      anonymous request is redirected to the login page with [?next=] its
      path); the profile shows the user's username, names and e-mail; the
      edit form validates like registration (without the password, the
      uniqueness excluding the user itself), saves through [save_user]
      (an UPDATE: no e-mail) and redirects to the profile.
    [validate_email] is Django's [EmailValidator] on its dot-atom user part
    and host-name domain (a quoted user part and an IP literal domain are
    not modelled). *)

From S2P Require Import Prelude Text Django Orm Models Signals Http.
From Stdlib Require Import Ascii String.

Local Open Scope string_scope.
Local Open Scope Z_scope.

(** ** Password hashing *)

Class PasswordHasher : Type := {
  make_password : string -> string;
  check_password : string -> string -> bool;
  (** the hash of a password verifies it *)
  check_make_password raw : check_password raw (make_password raw) = true;
  (** and no other password *)
  check_password_only raw raw' : check_password raw (make_password raw') = true -> raw = raw';
  (** the stored value is never the raw password *)
  make_password_not_raw raw : make_password raw <> raw;
  (** an empty stored value verifies nothing ([identify_hasher] fails) *)
  check_password_empty raw : check_password raw EmptyString = false
}.

(** ** [EmailValidator] *)

Definition atext (c : ascii) : bool :=
  is_alnum c || bool_decide (c ∈ list_ascii_of_string "-!#$%&'*+/=?^_`{}|~").

Definition all_chars (p : ascii -> bool) (s : string) : bool := forallb p (list_ascii_of_string s).

(** [user_regex]: dot-separated atoms of [atext]. *)
Definition valid_user_part (u : string) : bool :=
  forallb (fun a => bool_decide (a <> EmptyString) && all_chars atext a) (split_on "." u).

Definition is_hyphen (c : ascii) : bool := bool_decide (c = "-"%char).

Definition first_char (s : string) : option ascii :=
  match s with String c _ => Some c | EmptyString => None end.

(** A label [[A-Z0-9](?:[A-Z0-9-]{0,61}[A-Z0-9])?]. *)
Definition valid_label (l : string) : bool :=
  (1 <=? String.length l)%nat && (String.length l <=? 63)%nat &&
  all_chars (fun c => is_alnum c || is_hyphen c) l &&
  negb (bool_decide (first_char l = Some "-"%char)) &&
  negb (bool_decide (last (list_ascii_of_string l) = Some "-"%char)).

(** The top-level domain [[A-Z0-9-]{2,63}(?<!-)]. *)
Definition valid_tld (l : string) : bool :=
  (2 <=? String.length l)%nat && (String.length l <=? 63)%nat &&
  all_chars (fun c => is_alnum c || is_hyphen c) l &&
  negb (bool_decide (last (list_ascii_of_string l) = Some "-"%char)).

Definition valid_domain_part (d : string) : bool :=
  bool_decide (d = "localhost") ||
  match rev (split_on "." d) with
  | tld :: (_ :: _) as labels => valid_tld tld && forallb valid_label labels
  | _ => false
  end.

(** [value.rsplit("@", 1)] when [value] holds an [@]. *)
Fixpoint rsplit_at (sep : ascii) (s : string) : option (string * string) :=
  match s with
  | EmptyString => None
  | String c s' =>
      match rsplit_at sep s' with
      | Some (u, d) => Some (String c u, d)
      | None => if bool_decide (c = sep) then Some (EmptyString, s') else None
      end
  end.

Definition validate_email (v : string) : bool :=
  (String.length v <=? 320)%nat &&
  match rsplit_at "@" v with
  | Some (u, d) => valid_user_part u && valid_domain_part d
  | None => false
  end.

(** ** The forms *)

Definition invalid_email_msg : string := "Enter a valid email address.".
Definition unique_username_msg : string := "A user with that username already exists.".
Definition field_required_msg : string := "This field is required.".
Definition invalid_login_msg : string :=
  "Please enter a correct username and password. Note that both fields may be case-sensitive.".

(** A [CharField]: stripped, required or not. *)
Definition clean_text (required : bool) (v : option string) : string + string :=
  match strip (default EmptyString v) with
  | EmptyString => if required then inl field_required_msg else inr EmptyString
  | t => inr t
  end.

(** An [EmailField], not required. *)
Definition clean_email (v : option string) : string + string :=
  match strip (default EmptyString v) with
  | EmptyString => inr EmptyString
  | t => if validate_email t then inr t else inl invalid_email_msg
  end.

Definition errors_of {B} (field : string) (r : string + B) : list (string * string) :=
  match r with inl m => [(field, m)] | inr _ => [] end.

(** Is [name] the username of a row other than [self]? *)
Definition username_taken (name : string) (self : option Z) (t : Table CustomUser.t) : bool :=
  existsb (fun r => bool_decide (CustomUser.username r.2 = name) && negb (bool_decide (self = Some r.1)))
    (rows t).

(** [validate_unique] after the fields are cleaned: it runs on
    [username] when that field is clean, whatever the other fields gave;
    its error is recorded after the field errors. *)
Definition unique_errors (un : string + string) (self : option Z) (t : Table CustomUser.t)
    : list (string * string) :=
  match un with
  | inr u => if username_taken u self t then [("username", unique_username_msg)] else []
  | inl _ => []
  end.

(** The profile form: [username], [first_name], [last_name], [email] of
    the user [self]. *)
Definition clean_profile_form (data : list (string * string)) (self : Z) (t : Table CustomUser.t)
    : list (string * string) + (string * string * string * string) :=
  let un := clean_text true (query_get "username" data) in
  let fn := clean_text false (query_get "first_name" data) in
  let ln := clean_text false (query_get "last_name" data) in
  let em := clean_email (query_get "email" data) in
  let uniq := unique_errors un (Some self) t in
  match un, fn, ln, em, uniq with
  | inr u, inr f, inr l, inr e, [] => inr (u, f, l, e)
  | _, _, _, _, _ =>
      inl (app (errors_of "username" un) (app (errors_of "first_name" fn)
            (app (errors_of "last_name" ln) (app (errors_of "email" em) uniq))))
  end.

(** The password field of the login form: required, not stripped. *)
Definition clean_password (v : option string) : string + string :=
  match default EmptyString v with
  | EmptyString => inl field_required_msg
  | p => inr p
  end.

(** [CustomUser.objects.get(username=...)]: the row with that username. *)
Fixpoint find_user (username : string) (rs : list (Z * CustomUser.t)) : option (Z * CustomUser.t) :=
  match rs with
  | [] => None
  | (k, u) :: rs' => if bool_decide (CustomUser.username u = username) then Some (k, u)
                     else find_user username rs'
  end.

(** A redirect target without scheme and host: it starts with one [/]
    not followed by another [/] or a backslash. *)
Definition is_local_path (n : string) : bool :=
  match n with
  | String c r =>
      bool_decide (c = "/"%char) &&
      match r with
      | String c2 _ => negb (bool_decide (c2 = "/"%char) || bool_decide (c2 = "092"%char))
      | EmptyString => true
      end
  | EmptyString => false
  end.

Definition profile_path : string := "/users/profile/".

Section Views.
Context `{EmailBackend} `{PasswordHasher}.
Context (LOGIN_REDIRECT_URL LOGOUT_REDIRECT_URL : string).

(** The registration form: the same fields and [password], required. *)
Definition clean_register_form (data : list (string * string)) (t : Table CustomUser.t)
    : list (string * string) + CustomUser.t :=
  let un := clean_text true (query_get "username" data) in
  let fn := clean_text false (query_get "first_name" data) in
  let ln := clean_text false (query_get "last_name" data) in
  let em := clean_email (query_get "email" data) in
  let pw := clean_text true (query_get "password" data) in
  let uniq := unique_errors un None t in
  match un, fn, ln, em, pw, uniq with
  | inr u, inr f, inr l, inr e, inr p, [] => inr (CustomUser.mk u f l e (make_password p))
  | _, _, _, _, _, _ =>
      inl (app (errors_of "username" un) (app (errors_of "first_name" fn)
            (app (errors_of "last_name" ln) (app (errors_of "email" em)
              (app (errors_of "password" pw) uniq)))))
  end.
(** [POST /users/register/]. *)
Definition RegisterView_post (req : Request) : PyM AppState Exn Response :=
  s <- get_state ;;
  match clean_register_form (POST req) (users (db s)) with
  | inl errors => ret (render "users/register.html" [] errors)
  | inr u => save_user None u ;;; ret (HttpResponseRedirect login_url)
  end.

(** [authenticate(username=..., password=...)] with the model backend:
    [get_by_natural_key], then [check_password]. *)
Definition authenticate (username password : string) (t : Table CustomUser.t) : option Z :=
  match find_user username (rows t) with
  | Some (k, u) => if check_password password (CustomUser.password u) then Some k else None
  | None => None
  end.

(** Where a successful login goes: [next] from the form or the query
    string when it is a local path, else [LOGIN_REDIRECT_URL]. *)
Definition success_url (req : Request) : string :=
  let next := match query_get "next" (POST req) with
              | Some n => Some n
              | None => query_get "next" (GET req)
              end in
  match next with
  | Some n => if is_local_path n then n else LOGIN_REDIRECT_URL
  | None => LOGIN_REDIRECT_URL
  end.

(** [POST /users/login/] ([LoginView] with the [AuthenticationForm]:
    both fields required, the password not stripped). *)
Definition LoginView_post (req : Request) : PyM AppState Exn Response :=
  s <- get_state ;;
  let un := clean_text true (query_get "username" (POST req)) in
  let pw := clean_password (query_get "password" (POST req)) in
  match un, pw with
  | inr u, inr p =>
      match authenticate u p (users (db s)) with
      | Some k => put_state (set_session (Some k) s) ;;; ret (HttpResponseRedirect (success_url req))
      | None => ret (render "users/login.html" [] [("__all__", invalid_login_msg)])
      end
  | _, _ => ret (render "users/login.html" [] (app (errors_of "username" un) (errors_of "password" pw)))
  end.

(** [GET /users/logout/]. *)
Definition LogoutView_get (req : Request) : PyM AppState Exn Response :=
  modify_state (set_session None) ;;; ret (HttpResponseRedirect LOGOUT_REDIRECT_URL).

(** [GET /users/profile/], [login_required].  A session whose user no
    longer exists is anonymous ([get_user] returns [AnonymousUser]). *)
Definition ProfileView_get (req : Request) : PyM AppState Exn Response :=
  match user req with
  | None => ret (redirect_to_login (full_path req))
  | Some k =>
      s <- get_state ;;
      match find_row k (rows (users (db s))) with
      | Some u => ret (render "users/profile.html"
                         [CustomUser.username u; CustomUser.first_name u;
                          CustomUser.last_name u; CustomUser.email u] [])
      | None => ret (redirect_to_login (full_path req))
      end
  end.

(** [GET /users/profile/edit/], [login_required]: the form filled with
    the user's fields. *)
Definition ProfileEditView_get (req : Request) : PyM AppState Exn Response :=
  match user req with
  | None => ret (redirect_to_login (full_path req))
  | Some k =>
      s <- get_state ;;
      match find_row k (rows (users (db s))) with
      | Some u => ret (render "users/profile_edit.html"
                         [CustomUser.username u; CustomUser.first_name u;
                          CustomUser.last_name u; CustomUser.email u] [])
      | None => ret (redirect_to_login (full_path req))
      end
  end.

(** [POST /users/profile/edit/], [login_required]. *)
Definition ProfileEditView_post (req : Request) : PyM AppState Exn Response :=
  match user req with
  | None => ret (redirect_to_login (full_path req))
  | Some k =>
      s <- get_state ;;
      match find_row k (rows (users (db s))) with
      | None => ret (redirect_to_login (full_path req))
      | Some u0 =>
          match clean_profile_form (POST req) k (users (db s)) with
          | inl errors => ret (render "users/profile_edit.html" [] errors)
          | inr (un, fn, ln, em) =>
              save_user (Some k) (CustomUser.mk un fn ln em (CustomUser.password u0)) ;;;
              ret (HttpResponseRedirect profile_path)
          end
      end
  end.
End Views.

(** ** Lemmas on the forms *)

Lemma clean_text_nonempty req v t : clean_text req v = inr t -> req = true -> t <> EmptyString.
Proof. unfold clean_text. destruct (strip _); [destruct req; congruence|]. by intros [= <-]. Qed.

Lemma clean_text_str req v : v <> EmptyString -> strip v = v -> clean_text req (Some v) = inr v.
Proof. intros Hne Hs. unfold clean_text. simpl. rewrite Hs. by destruct v. Qed.

Lemma clean_email_str v : strip v = v -> v <> EmptyString -> validate_email v = true ->
  clean_email (Some v) = inr v.
Proof. intros Hs Hne Hv. unfold clean_email. simpl. rewrite Hs. destruct v; [done|]. by rewrite Hv. Qed.

Lemma unique_errors_ok un self t :
  unique_errors un self t = [] -> forall u, un = inr u -> username_taken u self t = false.
Proof. intros Hu u ->. simpl in Hu. by destruct (username_taken u self t). Qed.

Ltac destruct_fields :=
  repeat match goal with
         | |- context [match clean_text ?r ?v with _ => _ end] => destruct (clean_text r v) eqn:?
         | |- context [match clean_email ?v with _ => _ end] => destruct (clean_email v) eqn:?
         | |- context [match unique_errors ?a ?b ?c with _ => _ end] => destruct (unique_errors a b c) eqn:?
         end.

Section FormLemmas.
Context `{PasswordHasher}.

(** What a valid registration form gives: a username not taken, not
    empty, and the hash of a non-empty password. *)
Lemma clean_register_form_inr data t u :
  clean_register_form data t = inr u ->
  exists raw, clean_text true (query_get "password" data) = inr raw /\ raw <> EmptyString /\
    CustomUser.password u = make_password raw /\ CustomUser.username u <> EmptyString /\
    username_taken (CustomUser.username u) None t = false.
Proof.
  unfold clean_register_form. destruct_fields; try discriminate. intros [= <-].
  eexists. split_and!; [reflexivity|by eapply clean_text_nonempty|done|..]; simpl.
  - by eapply clean_text_nonempty.
  - by eapply unique_errors_ok.
Qed.

(** The stored username is the cleaned [username] field. *)
Lemma clean_register_form_username data t u :
  clean_register_form data t = inr u -> clean_text true (query_get "username" data) = inr (CustomUser.username u).
Proof. unfold clean_register_form. destruct_fields; try discriminate. by intros [= <-]. Qed.

Lemma clean_text_strip req v r : clean_text req (Some v) = inr r -> r = strip v.
Proof. unfold clean_text. simpl. destruct (strip v) eqn:E; [destruct req|]; by intros [= <-]. Qed.

(** The registration form strips the password (a form [CharField] strips
    by default), while the login form does not: a password typed with a
    leading or trailing space at registration does not verify as typed. *)
Lemma register_password_stripped data t u raw :
  clean_register_form data t = inr u -> query_get "password" data = Some raw -> strip raw <> raw ->
  check_password raw (CustomUser.password u) = false.
Proof.
  intros Hf Hraw Hs. destruct (clean_register_form_inr _ _ _ Hf) as (raw' & Hc & _ & Hpw & _).
  rewrite Hraw in Hc. apply clean_text_strip in Hc as ->. rewrite Hpw.
  destruct (check_password raw _) eqn:E; [|done]. apply check_password_only in E. by symmetry in E.
Qed.

(** A field error puts the form in error, and the error is reported. *)
Lemma clean_register_form_error data t fld msg :
  (fld, msg) ∈ app (errors_of "username" (clean_text true (query_get "username" data)))
                (app (errors_of "first_name" (clean_text false (query_get "first_name" data)))
                (app (errors_of "last_name" (clean_text false (query_get "last_name" data)))
                (app (errors_of "email" (clean_email (query_get "email" data)))
                (app (errors_of "password" (clean_text true (query_get "password" data)))
                     (unique_errors (clean_text true (query_get "username" data)) None t))))) ->
  exists errors, clean_register_form data t = inl errors /\ (fld, msg) ∈ errors.
Proof.
  unfold clean_register_form. intros Hin. destruct_fields; simpl in *;
    try (eexists; split; [reflexivity|exact Hin]).
  by apply elem_of_nil in Hin.
Qed.
End FormLemmas.

(** ** How the views run *)

Section Run.
Context `{EmailBackend} `{PasswordHasher}.
Context (LOGIN_REDIRECT_URL LOGOUT_REDIRECT_URL : string).

Lemma RegisterView_post_run req s :
  RegisterView_post req s =
  match clean_register_form (POST req) (users (db s)) with
  | inl errors => (s, inr (render "users/register.html" [] errors))
  | inr u => match save_user None u s with
             | (s', inl e) => (s', inl e)
             | (s', inr _) => (s', inr (HttpResponseRedirect login_url))
             end
  end.
Proof.
  unfold RegisterView_post, bind, get_state. destruct (clean_register_form _ _) as [|u]; [done|].
  by destruct (save_user None u s) as [? []].
Qed.

Lemma LoginView_post_run req s :
  LoginView_post LOGIN_REDIRECT_URL req s =
  match clean_text true (query_get "username" (POST req)), clean_password (query_get "password" (POST req)) with
  | inr u, inr p =>
      match authenticate u p (users (db s)) with
      | Some k => (set_session (Some k) s, inr (HttpResponseRedirect (success_url LOGIN_REDIRECT_URL req)))
      | None => (s, inr (render "users/login.html" [] [("__all__", invalid_login_msg)]))
      end
  | un, pw => (s, inr (render "users/login.html" [] (app (errors_of "username" un) (errors_of "password" pw))))
  end.
Proof.
  unfold LoginView_post, bind, get_state, put_state, ret.
  destruct (clean_text true _), (clean_password _); try done. by destruct (authenticate _ _ _).
Qed.

Lemma ProfileEditView_post_run req s :
  ProfileEditView_post req s =
  match user req with
  | None => (s, inr (redirect_to_login (full_path req)))
  | Some k =>
      match find_row k (rows (users (db s))) with
      | None => (s, inr (redirect_to_login (full_path req)))
      | Some u0 =>
          match clean_profile_form (POST req) k (users (db s)) with
          | inl errors => (s, inr (render "users/profile_edit.html" [] errors))
          | inr (un, fn, ln, em) =>
              match save_user (Some k) (CustomUser.mk un fn ln em (CustomUser.password u0)) s with
              | (s', inl e) => (s', inl e)
              | (s', inr _) => (s', inr (HttpResponseRedirect profile_path))
              end
          end
      end
  end.
Proof.
  unfold ProfileEditView_post, bind, get_state. destruct (user req) as [k|]; [|done].
  destruct (find_row k _) as [u0|]; [|done].
  destruct (clean_profile_form _ _ _) as [|[[[un fn] ln] em]]; [done|].
  by destruct (save_user _ _ s) as [? []].
Qed.
End Run.

(** ** Properties of registration, login and the profile *)

(** C19.  A valid registration, with a mail backend that
    delivers, adds exactly one user, whose stored password is not the
    plaintext but verifies it, sends the welcome message when the user
    gave an address, and redirects to the login page. *)
Theorem register_creates `{EmailBackend} `{PasswordHasher} req s u :
  (forall m, deliver m = None) ->
  clean_register_form (POST req) (users (db s)) = inr u ->
  exists s' raw, serve (RegisterView_post req) s = (s', HttpResponseRedirect login_url) /\
    rows (users (db s')) = app (rows (users (db s))) [(next_id (users (db s)), u)] /\
    clean_text true (query_get "password" (POST req)) = inr raw /\
    CustomUser.password u <> raw /\ check_password raw (CustomUser.password u) = true /\
    outbox s' = app (outbox s) (if bool_decide (CustomUser.email u = "") then [] else [welcome_email u]).
Proof.
  intros Hd Hf. destruct (clean_register_form_inr _ _ _ Hf) as (raw & Hraw & _ & Hpw & _ & _).
  unfold serve. rewrite RegisterView_post_run, Hf, save_user_run, save_instance_None. cbv beta iota zeta.
  destruct (decide (CustomUser.email u = "")) as [He|He].
  - rewrite sen_welcome_email_no_address by done. eexists _, raw.
    rewrite bool_decide_eq_true_2 by done. rewrite Hpw. split_and!; try done.
    + apply make_password_not_raw.
    + apply check_make_password.
    + simpl. by rewrite app_nil_r.
  - rewrite sen_welcome_email_sent by done. eexists _, raw.
    rewrite bool_decide_eq_false_2 by done. rewrite Hpw. split_and!; try done.
    + apply make_password_not_raw.
    + apply check_make_password.
Qed.

(** C20.  An invalid registration writes nothing and shows
    the form again with its errors; a missing username or password, an
    invalid address and a username already taken each give their
    message on their field. *)
Theorem register_rejects `{EmailBackend} `{PasswordHasher} req s :
  (forall errors, clean_register_form (POST req) (users (db s)) = inl errors ->
   serve (RegisterView_post req) s = (s, render "users/register.html" [] errors)) /\
  (query_get "username" (POST req) = None ->
   exists errors, clean_register_form (POST req) (users (db s)) = inl errors /\
     ("username", field_required_msg) ∈ errors) /\
  (query_get "password" (POST req) = None ->
   exists errors, clean_register_form (POST req) (users (db s)) = inl errors /\
     ("password", field_required_msg) ∈ errors) /\
  (forall e, query_get "email" (POST req) = Some e -> strip e = e -> e <> "" -> validate_email e = false ->
   exists errors, clean_register_form (POST req) (users (db s)) = inl errors /\
     ("email", invalid_email_msg) ∈ errors) /\
  (forall un, query_get "username" (POST req) = Some un -> strip un = un -> un <> "" ->
   username_taken un None (users (db s)) = true ->
   exists errors, clean_register_form (POST req) (users (db s)) = inl errors /\
     ("username", unique_username_msg) ∈ errors).
Proof.
  split_and!.
  - intros errors Hf. unfold serve. by rewrite RegisterView_post_run, Hf.
  - intros Hq. apply clean_register_form_error. rewrite Hq. simpl. set_solver.
  - intros Hq. apply clean_register_form_error. rewrite Hq. simpl. set_solver.
  - intros e Hq Hs Hne Hv. apply clean_register_form_error. rewrite Hq. unfold clean_email. simpl.
    rewrite Hs. destruct e; [done|]. rewrite Hv. simpl. set_solver.
  - intros un Hq Hs Hne Ht. apply clean_register_form_error. rewrite Hq, clean_text_str by done.
    simpl. rewrite Ht. set_solver.
Qed.

(** C21.  Correct credentials put the user in the session and
    redirect; a wrong username and a wrong password give the same
    answer, the form with the one message that names no field, and leave
    the session as it was. *)
Theorem login_outcomes `{PasswordHasher} L req s un p :
  query_get "username" (POST req) = Some un -> strip un = un -> un <> "" ->
  query_get "password" (POST req) = Some p -> p <> "" ->
  (forall k u, find_user un (rows (users (db s))) = Some (k, u) ->
   check_password p (CustomUser.password u) = true ->
   serve (LoginView_post L req) s = (set_session (Some k) s, HttpResponseRedirect (success_url L req))) /\
  (find_user un (rows (users (db s))) = None \/
   (exists k u, find_user un (rows (users (db s))) = Some (k, u) /\
      check_password p (CustomUser.password u) = false) ->
   serve (LoginView_post L req) s = (s, render "users/login.html" [] [("__all__", invalid_login_msg)])).
Proof.
  intros Hu Hs Hne Hp Hpne.
  assert (clean_password (query_get "password" (POST req)) = inr p) as Hcp.
  { rewrite Hp. unfold clean_password. simpl. by destruct p. }
  unfold serve. rewrite LoginView_post_run, Hu, clean_text_str, Hcp by done. unfold authenticate. split.
  - intros k u -> ->. done.
  - intros [->|(k & u & -> & ->)]; done.
Qed.

(** C22.  The profile requires a login: an anonymous request for
    [/users/profile/] is redirected to [/users/login/?next=/users/profile/];
    for a logged-in user it answers 200 with the username, the names and
    the address. *)
Theorem profile_view req s :
  (user req = None -> path req = profile_path -> query req = "" ->
   serve (ProfileView_get req) s = (s, redirect_to_login profile_path) /\
   response_url (serve (ProfileView_get req) s).2 = Some "/users/login/?next=/users/profile/") /\
  (forall k u, user req = Some k -> find_row k (rows (users (db s))) = Some u ->
   serve (ProfileView_get req) s =
     (s, render "users/profile.html"
           [CustomUser.username u; CustomUser.first_name u; CustomUser.last_name u; CustomUser.email u] [])).
Proof.
  unfold serve, ProfileView_get, bind, get_state. split.
  - intros -> Hp Hq. unfold full_path. rewrite Hq, Hp. done.
  - intros k u -> ->. done.
Qed.

(** C23.  A valid edit by the logged-in user stores the new
    username, names and address in that user's row, keeps the password,
    sends no e-mail (it is an UPDATE), and redirects to the profile. *)
Theorem profile_edit_updates `{EmailBackend} req s k u0 un fn ln em :
  user req = Some k -> find_row k (rows (users (db s))) = Some u0 ->
  clean_profile_form (POST req) k (users (db s)) = inr (un, fn, ln, em) ->
  exists s', serve (ProfileEditView_post req) s = (s', HttpResponseRedirect profile_path) /\
    find_row k (rows (users (db s'))) = Some (CustomUser.mk un fn ln em (CustomUser.password u0)) /\
    objects_count (users (db s')) = objects_count (users (db s)) /\
    outbox s' = outbox s /\ session s' = session s.
Proof.
  intros Hu Hk Hf. unfold serve. rewrite ProfileEditView_post_run, Hu, Hk, Hf, save_user_run.
  simpl. rewrite Hk. simpl. eexists. split_and!; try done.
  - apply find_row_update. by rewrite Hk.
  - unfold objects_count. simpl. by rewrite length_map.
Qed.

(** ** Usernames are unique *)

Definition users_unique (t : Table CustomUser.t) : Prop :=
  NoDup (map (fun r => CustomUser.username r.2) (rows t)).

Lemma username_taken_false name self t :
  username_taken name self t = false <->
  forall r, r ∈ rows t -> CustomUser.username r.2 = name -> self = Some r.1.
Proof.
  unfold username_taken. rewrite <- not_true_iff_false, existsb_exists. split.
  - intros Hn r Hr Hu. destruct (decide (self = Some r.1)) as [|Hs]; [done|].
    exfalso. apply Hn. exists r. rewrite <- list_elem_of_In. split; [done|].
    rewrite andb_true_iff, bool_decide_eq_true, negb_true_iff, bool_decide_eq_false. done.
  - intros Hall (r & Hr & Hb). rewrite <- list_elem_of_In in Hr.
    apply andb_true_iff in Hb as [Hu Hs]. apply bool_decide_eq_true in Hu.
    apply negb_true_iff, bool_decide_eq_false in Hs. by apply Hs, Hall.
Qed.

Lemma map_update_username_elem k u' (rs : list (Z * CustomUser.t)) x :
  x ∈ map (fun r => CustomUser.username r.2) (map (fun r => if Z.eqb r.1 k then (k, u') else r) rs) ->
  x ∈ map (fun r => CustomUser.username r.2) rs \/ (x = CustomUser.username u' /\ k ∈ map fst rs).
Proof.
  induction rs as [|[k1 v1] rs IH]; simpl; [set_solver|].
  rewrite !elem_of_cons. destruct (Z.eqb_spec k1 k) as [->|]; simpl.
  - intros [->|Hx]; [by right; split; [|left]|]. destruct (IH Hx) as [|[? ?]]; [by left; right|].
    right. split; [done|by right].
  - intros [->|Hx]; [by left; left|]. destruct (IH Hx) as [|[? ?]]; [by left; right|].
    right. split; [done|by right].
Qed.

Lemma update_users_unique k u' (rs : list (Z * CustomUser.t)) :
  NoDup (map fst rs) -> NoDup (map (fun r => CustomUser.username r.2) rs) ->
  (forall r, r ∈ rs -> CustomUser.username r.2 = CustomUser.username u' -> r.1 = k) ->
  NoDup (map (fun r => CustomUser.username r.2) (map (fun r => if Z.eqb r.1 k then (k, u') else r) rs)).
Proof.
  induction rs as [|[k1 v1] rs IH]; intros Hk Hu Hr; simpl; [constructor|].
  simpl in Hk, Hu. invc Hk. invc Hu.
  destruct (Z.eqb_spec k1 k) as [->|Hne]; simpl; constructor.
  - intros [Hx|[_ Hx]]%map_update_username_elem; [|done].
    apply list_elem_of_fmap in Hx as ([k2 v2] & Heq & Hin). simpl in Heq.
    assert (k2 = k) as -> by (apply (Hr (k2, v2)); [by right|done]).
    apply H1. apply list_elem_of_fmap. by exists (k, v2).
  - apply IH; [done|done|]. intros r Hin. apply Hr. by right.
  - intros [Hx|[Hx _]]%map_update_username_elem; [done|].
    apply Hne, (Hr (k1, v1)); [by left|done].
  - apply IH; [done|done|]. intros r Hin. apply Hr. by right.
Qed.

(** The user table a save leaves, whatever the receiver did. *)
Lemma save_user_users `{EmailBackend} pk u s :
  users (db (save_user pk u s).1) = (save_instance pk u (users (db s))).2.
Proof. by rewrite save_user_db. Qed.

(** With unique usernames, [authenticate] names the one user with that
    username, when the password verifies. *)
Lemma find_user_spec un rs k u :
  find_user un rs = Some (k, u) -> (k, u) ∈ rs /\ CustomUser.username u = un.
Proof.
  induction rs as [|[k1 v1] rs IH]; simpl; [done|].
  case_bool_decide; [intros [= -> ->]; split; [left|]; done|].
  intros H'. destruct (IH H'). split; [by right|done].
Qed.

(** A user appended after rows of other names is the one [find_user]
    finds under its name. *)
Lemma find_user_snoc un rs k u :
  (forall r, r ∈ rs -> CustomUser.username r.2 <> un) -> CustomUser.username u = un ->
  find_user un (app rs [(k, u)]) = Some (k, u).
Proof.
  induction rs as [|[k1 v1] rs IH]; intros Hrs Hu; simpl; [by rewrite bool_decide_eq_true_2|].
  rewrite bool_decide_eq_false_2 by (apply (Hrs (k1, v1)); left).
  apply IH; [|done]. intros r Hr. apply Hrs. by right.
Qed.

Lemma clean_profile_form_inr data k t un fn ln em :
  clean_profile_form data k t = inr (un, fn, ln, em) -> username_taken un (Some k) t = false.
Proof.
  unfold clean_profile_form. destruct_fields; try discriminate. intros [= <- _ _ _].
  by eapply unique_errors_ok.
Qed.

(** Registration keeps usernames unique, whatever the outcome (an
    e-mail failure included). *)
Lemma register_keeps_unique `{EmailBackend} `{PasswordHasher} req s :
  table_wf (users (db s)) -> users_unique (users (db s)) ->
  users_unique (users (db (RegisterView_post req s).1)).
Proof.
  intros Hwf Hu. destruct (RegisterView_post req s) as [s' r] eqn:Hrun. simpl.
  rewrite RegisterView_post_run in Hrun.
  destruct (clean_register_form (POST req) (users (db s))) as [errors|u] eqn:Hf; [by invc Hrun|].
  pose proof (save_user_users None u s) as Hs.
  destruct (save_user None u s) as [s1 [e|k]]; invc Hrun; simpl in Hs; rewrite Hs;
    unfold users_unique; simpl; rewrite map_app; simpl;
    apply NoDup_app; (split; [done|split; [|apply NoDup_singleton]]);
    intros x Hx ->%list_elem_of_singleton; apply list_elem_of_fmap in Hx as (r0 & Hr0 & Hin);
    destruct (clean_register_form_inr _ _ _ Hf) as (_ & _ & _ & _ & _ & Ht);
    by pose proof (proj1 (username_taken_false _ _ _) Ht r0 Hin (eq_sym Hr0)).
Qed.

(** So do profile edits. *)
Lemma profile_edit_keeps_unique `{EmailBackend} req s :
  table_wf (users (db s)) -> users_unique (users (db s)) ->
  users_unique (users (db (ProfileEditView_post req s).1)).
Proof.
  intros Hwf Hu. destruct (ProfileEditView_post req s) as [s' r] eqn:Hrun. simpl.
  rewrite ProfileEditView_post_run in Hrun.
  destruct (user req) as [k|]; [|by invc Hrun].
  destruct (find_row k (rows (users (db s)))) as [u0|] eqn:Hk; [|by invc Hrun].
  destruct (clean_profile_form (POST req) k (users (db s))) as [errors|[[[un fn] ln] em]] eqn:Hf;
    [by invc Hrun|].
  pose proof (save_user_users (Some k) (CustomUser.mk un fn ln em (CustomUser.password u0)) s) as Hs.
  simpl in Hs. rewrite Hk in Hs. simpl in Hs.
  destruct (save_user _ _ s) as [s1 [e|k']]; invc Hrun; simpl in Hs; rewrite Hs;
    unfold users_unique; simpl; (apply update_users_unique; [by apply table_keys_nodup|done|]);
    intros r0 Hin Hr0; simpl in Hr0;
    pose proof (proj1 (username_taken_false _ _ _) (clean_profile_form_inr _ _ _ _ _ _ _ Hf) r0 Hin Hr0);
    congruence.
Qed.

(** Usernames stay unique: from a well-formed user table without
    two users of the same name, neither a registration nor a profile
    edit, whatever its outcome (an e-mail failure included), leaves two
    users with the same name. *)
Theorem identity_keeps_unique `{EmailBackend} `{PasswordHasher} req s s' r :
  table_wf (users (db s)) -> users_unique (users (db s)) ->
  RegisterView_post req s = (s', r) \/ ProfileEditView_post req s = (s', r) ->
  users_unique (users (db s')).
Proof.
  intros Hwf Hu [Hrun|Hrun].
  - pose proof (register_keeps_unique req s Hwf Hu) as Hk. by rewrite Hrun in Hk.
  - pose proof (profile_edit_keeps_unique req s Hwf Hu) as Hk. by rewrite Hrun in Hk.
Qed.

(** ** A hasher for the scenarios *)

(** A deterministic stand-in for PBKDF2: a fixed algorithm prefix before
    the password. *)
Definition toy_make (raw : string) : string := "toy$" ++ raw.

Lemma string_app_inj_l p x y : p ++ x = p ++ y -> x = y.
Proof. induction p as [|c p IH]; [done|]. intros [= H']. by apply IH. Qed.

Lemma string_length_app a b : String.length (a ++ b) = (String.length a + String.length b)%nat.
Proof. induction a as [|c a IH]; [done|]. simpl. by rewrite IH. Qed.

#[export] Program Instance toy_hasher : PasswordHasher := {|
  make_password := toy_make;
  check_password raw enc := bool_decide (enc = toy_make raw)
|}.
Next Obligation. intros raw. by apply bool_decide_eq_true_2. Qed.
Next Obligation.
  intros raw raw' H%bool_decide_eq_true. symmetry. by eapply string_app_inj_l.
Qed.
Next Obligation.
  intros raw H. apply (f_equal String.length) in H. unfold toy_make in H.
  rewrite string_length_app in H. simpl in H. lia.
Qed.
Next Obligation. intros raw. by apply bool_decide_eq_false_2. Qed.

(** ** Witnesses: the requests of [src/users/tests.py] *)

Definition register_data : list (string * string) :=
  [("username", "shahzod"); ("first_name", "Shahzod"); ("last_name", "Nematov");
   ("email", "shahzod@gmail.com"); ("password", "somepassword")].

Definition post_request (p : string) (data : list (string * string)) (u : option Z) : Request :=
  mkRequest POST_ p "" data u.

Definition shahzod_user : CustomUser.t :=
  CustomUser.mk "shahzod" "Shahzod" "Nematov" "shahzod@gmail.com" (toy_make "somepass").

Definition login_state : AppState :=
  set_db (set_users (mkTable [(1, shahzod_user)] 2) empty_db) initial_state.

Lemma register_creates_witness :
  exists s' raw,
    serve (RegisterView_post (post_request "/users/register/" register_data None)) initial_state =
      (s', HttpResponseRedirect login_url) /\
    rows (users (db s')) = app (rows (users (db initial_state)))
      [(next_id (users (db initial_state)),
        CustomUser.mk "shahzod" "Shahzod" "Nematov" "shahzod@gmail.com" (toy_make "somepassword"))] /\
    clean_text true (query_get "password" register_data) = inr raw /\
    toy_make "somepassword" <> raw /\ check_password raw (toy_make "somepassword") = true /\
    outbox s' = app (outbox initial_state)
      (if bool_decide ("shahzod@gmail.com" = "") then []
       else [welcome_email (CustomUser.mk "shahzod" "Shahzod" "Nematov" "shahzod@gmail.com"
                              (toy_make "somepassword"))]).
Proof. apply register_creates; reflexivity. Defined.

Lemma register_rejects_witness :
  serve (RegisterView_post (post_request "/users/register/"
           [("first_name", "Shahzod"); ("email", "shahzod@gmail.com")] None)) initial_state =
    (initial_state, render "users/register.html" []
                      [("username", field_required_msg); ("password", field_required_msg)]) /\
  (exists errors, clean_register_form [("first_name", "Shahzod"); ("email", "shahzod@gmail.com")]
                    (users (db initial_state)) = inl errors /\ ("username", field_required_msg) ∈ errors) /\
  (exists errors, clean_register_form [("first_name", "Shahzod"); ("email", "shahzod@gmail.com")]
                    (users (db initial_state)) = inl errors /\ ("password", field_required_msg) ∈ errors) /\
  (exists errors, clean_register_form (app (take 3 register_data) [("email", "indvalid-email"); ("password", "somepassword")])
                    (users (db initial_state)) = inl errors /\ ("email", invalid_email_msg) ∈ errors) /\
  (exists errors, clean_register_form register_data (users (db login_state)) = inl errors /\
                    ("username", unique_username_msg) ∈ errors).
Proof.
  split_and!.
  - apply (register_rejects (post_request "/users/register/"
             [("first_name", "Shahzod"); ("email", "shahzod@gmail.com")] None) initial_state).
    reflexivity.
  - apply (register_rejects (post_request "/users/register/"
             [("first_name", "Shahzod"); ("email", "shahzod@gmail.com")] None) initial_state).
    reflexivity.
  - apply (register_rejects (post_request "/users/register/"
             [("first_name", "Shahzod"); ("email", "shahzod@gmail.com")] None) initial_state).
    reflexivity.
  - apply (register_rejects (post_request "/users/register/"
             (app (take 3 register_data) [("email", "indvalid-email"); ("password", "somepassword")]) None)
             initial_state) with "indvalid-email"; reflexivity || discriminate.
  - apply (register_rejects (post_request "/users/register/" register_data None) login_state) with "shahzod";
      reflexivity || discriminate.
Defined.

Lemma login_outcomes_witness :
  serve (LoginView_post "/" (post_request "/users/login/" [("username", "shahzod"); ("password", "somepass")] None))
    login_state =
    (set_session (Some 1) login_state,
     HttpResponseRedirect (success_url "/" (post_request "/users/login/"
                                              [("username", "shahzod"); ("password", "somepass")] None))) /\
  serve (LoginView_post "/" (post_request "/users/login/"
                               [("username", "shahzod"); ("password", "wrong-password")] None)) login_state =
    (login_state, render "users/login.html" [] [("__all__", invalid_login_msg)]).
Proof.
  split.
  - refine (proj1 (login_outcomes "/" (post_request "/users/login/"
              [("username", "shahzod"); ("password", "somepass")] None) login_state "shahzod" "somepass"
              _ _ _ _ _) 1 shahzod_user _ _); reflexivity || discriminate.
  - refine (proj2 (login_outcomes "/" (post_request "/users/login/"
              [("username", "shahzod"); ("password", "wrong-password")] None) login_state "shahzod"
              "wrong-password" _ _ _ _ _) _); try (reflexivity || discriminate).
    right. by exists 1, shahzod_user.
Defined.

Lemma profile_view_witness :
  (serve (ProfileView_get (mkRequest GET_ "/users/profile/" "" [] None)) login_state =
     (login_state, redirect_to_login profile_path) /\
   response_url (serve (ProfileView_get (mkRequest GET_ "/users/profile/" "" [] None)) login_state).2 =
     Some "/users/login/?next=/users/profile/") /\
  serve (ProfileView_get (mkRequest GET_ "/users/profile/" "" [] (Some 1))) login_state =
    (login_state, render "users/profile.html" ["shahzod"; "Shahzod"; "Nematov"; "shahzod@gmail.com"] []).
Proof.
  split.
  - refine (proj1 (profile_view (mkRequest GET_ "/users/profile/" "" [] None) login_state) _ _ _);
      reflexivity.
  - refine (proj2 (profile_view (mkRequest GET_ "/users/profile/" "" [] (Some 1)) login_state) 1 shahzod_user _ _);
      reflexivity.
Defined.

Lemma profile_edit_updates_witness :
  exists s', serve (ProfileEditView_post (post_request "/users/profile/edit/" (take 4 register_data) (Some 1)))
               login_state = (s', HttpResponseRedirect profile_path) /\
    find_row 1 (rows (users (db s'))) =
      Some (CustomUser.mk "shahzod" "Shahzod" "Nematov" "shahzod@gmail.com" (CustomUser.password shahzod_user)) /\
    objects_count (users (db s')) = objects_count (users (db login_state)) /\
    outbox s' = outbox login_state /\ session s' = session login_state.
Proof. apply (profile_edit_updates _ login_state 1 shahzod_user); reflexivity. Defined.

Lemma identity_keeps_unique_witness :
  users_unique (users (db (RegisterView_post (post_request "/users/register/" register_data None) login_state).1)).
Proof.
  apply (identity_keeps_unique (post_request "/users/register/" register_data None) login_state _
           (RegisterView_post (post_request "/users/register/" register_data None) login_state).2).
  - unfold table_wf. simpl. split_and!; repeat constructor; lia.
  - repeat constructor. set_solver.
  - left. by destruct (RegisterView_post _ _).
Defined.
