(* ===== verification/Site.v ===== *)
(** * Site: the project's URLs, the request cycle, and the site as a state machine

    How the parts meet.  The root URL configuration of the project (not in
    the repository; its routes are those of the specification, section 6)
    maps [/] to the home page, [/books/...] to the catalogue and the
    review submission, [/users/...] to the identity views, and includes
    the [api] application of [src/api/urls.py] under [/api/] ([api_patterns]
    prefixes the app's own [urlpatterns]).  [client] plays one request of
    the test client: split the URL at [?], resolve the path (an unknown
    path is a 404), let the authentication middleware set [request.user]
    from the session ([session_user]: a session whose user is gone is
    anonymous), run the view, and turn an escaping exception into the
    handler's error response ([serve]).  The settings the specification
    leaves open (the default page size, the rating scale, where login and
    logout redirect) are a [Settings] record.

    The admin site ([admin_add]) offers the add view of each model that
    [src/books/admin.py] registers: a model that is not registered is a
    404, a foreign key naming no row fails the form and writes nothing,
    and so do a rating outside the stars validators (the settings' scale)
    and a blank comment; a review is stamped with the clock.  Staff sessions and the admin's
    change and delete views are not modelled.

    The site is a state machine: [site_step] is one request of the client,
    or an add through the admin site with the registry [admin.py] builds.
    Theorems: every state reachable from the empty site satisfies
    [site_inv] (the database invariant, unique usernames, reviews in time
    order, a session that names a stored user); the registrations are what
    opens the admin's add views; the [api] route reversed through the
    include resolves back to the API view, which answers 405 to a POST;
    the login redirect of the profile carries the profile's path through
    [?next=] and back; a registered user can log in, whatever the mail
    backend; logging out ends the session; every stored review of a
    reachable state has a rating on the scale and a comment
    ([reviews_valid]); a review posted through the client is shown last
    on its book's page and served by the API under its new key. *)

From S2P Require Import Prelude Text Django Orm Models Signals Api Urls Admin Http Paginator Catalog Reviews Identity.
From stdpp Require Import relations.
From Stdlib Require Import Ascii String.

Local Open Scope string_scope.
Local Open Scope Z_scope.

(** ** Settings *)

Record Settings : Type := mkSettings {
  DEFAULT_PAGE_SIZE : positive;
  MIN_STARS : Z;
  MAX_STARS : Z;
  LOGIN_REDIRECT_URL : string;
  LOGOUT_REDIRECT_URL : string
}.

(** ** The URL configuration *)

Inductive SiteView : Type :=
  | HomeV | BookListV | BookDetailV | AddReviewV
  | RegisterV | LoginV | LogoutV | ProfileV | ProfileEditV
  | ApiV (v : ApiView).

Record SitePattern : Type := mkSitePattern {
  sp_name : string;
  sp_route : list RoutePart;
  sp_view : SiteView
}.

(** [path("api/", include("api.urls"))]: the app's patterns under the
    prefix, their names in the namespace [api]. *)
Definition api_patterns : list SitePattern :=
  map (fun p => mkSitePattern ("api:" ++ pattern_name p) (Lit "/api/" :: pattern_route p)
                  (ApiV (pattern_view p))) urlpatterns.

Definition site_patterns : list SitePattern :=
  app [mkSitePattern "home_page" [Lit "/"] HomeV;
       mkSitePattern "books:list" [Lit "/books/"] BookListV;
       mkSitePattern "books:detail" [Lit "/books/"; IntConv "id"; Lit "/"] BookDetailV;
       mkSitePattern "books:reviews" [Lit "/books/"; IntConv "id"; Lit "/reviews/"] AddReviewV;
       mkSitePattern "users:register" [Lit "/users/register/"] RegisterV;
       mkSitePattern "users:login" [Lit "/users/login/"] LoginV;
       mkSitePattern "users:logout" [Lit "/users/logout/"] LogoutV;
       mkSitePattern "users:profile" [Lit "/users/profile/"] ProfileV;
       mkSitePattern "users:profile-edit" [Lit "/users/profile/edit/"] ProfileEditV]
    api_patterns.

Fixpoint site_resolve_in (ps : list SitePattern) (p : string) : option (SiteView * list (string * Z)) :=
  match ps with
  | [] => None
  | sp :: ps' => match match_route (sp_route sp) p with
                 | Some kw => Some (sp_view sp, kw)
                 | None => site_resolve_in ps' p
                 end
  end.

Definition site_resolve (p : string) : option (SiteView * list (string * Z)) :=
  site_resolve_in site_patterns p.

Fixpoint site_reverse_in (ps : list SitePattern) (name : string) (kwargs : list (string * Z))
    : Exn + string :=
  match ps with
  | [] => inl (NoReverseMatch name)
  | sp :: ps' => if bool_decide (sp_name sp = name) then reverse_route name (sp_route sp) kwargs
                 else site_reverse_in ps' name kwargs
  end.

(** [reverse(name, kwargs=...)]. *)
Definition site_reverse (name : string) (kwargs : list (string * Z)) : Exn + string :=
  site_reverse_in site_patterns name kwargs.

(** ** The request cycle *)


Definition lookup_id (kw : list (string * Z)) : Z := default 0 (lookup_kwarg "id" kw).

(** [request.user]: the session's user if it is still stored. *)
Definition session_user (s : AppState) : option Z :=
  match session s with
  | Some k => if bool_decide (is_Some (find_row k (rows (users (db s))))) then Some k else None
  | None => None
  end.

(** ** The admin site *)

(** What the add view of a registered model posts: a book, an author, a
    book-author link (two foreign keys) or a review (two foreign keys,
    the comment and the stars). *)
Inductive AdminAdd : Type :=
  | AddBook (b : Book.t)
  | AddAuthor (a : Author.t)
  | AddBookAuthor (book author : Z)
  | AddBookReview (user book : Z) (comment : string) (stars : Z).

Definition admin_model (op : AdminAdd) : string :=
  match op with
  | AddBook _ => "Book"
  | AddAuthor _ => "Author"
  | AddBookAuthor _ _ => "BookAuthor"
  | AddBookReview _ _ _ _ => "BookReview"
  end.

Definition row_exists {A} (t : Table A) (k : Z) : bool := bool_decide (is_Some (find_row k (rows t))).

(** The add view of the admin site ([ModelAdmin.add_view]) for the models
    of the registry [reg]: the URL of a model that is not registered is a
    404; a foreign key that names no row fails the form's
    [ModelChoiceField] validation, and so do a rating outside the
    validators [lo..hi] of [stars_given] and a comment that is blank once
    stripped (the model form's [CharField] for a [TextField]); an invalid
    form writes nothing; otherwise the row is created, a review with the
    stripped comment and stamped with [created_at = now()]. *)
Definition admin_add (lo hi : Z) (reg : AdminRegistry) (op : AdminAdd) : PyM AppState Exn unit :=
  s <- get_state ;;
  if bool_decide (admin_model op ∈ map fst reg) then
    match op with
    | AddBook b => put_state (set_db (set_books (save_instance None b (books (db s))).2 (db s)) s)
    | AddAuthor a => put_state (set_db (set_authors (save_instance None a (authors (db s))).2 (db s)) s)
    | AddBookAuthor bk au =>
        if row_exists (books (db s)) bk && row_exists (authors (db s)) au
        then put_state (set_db (set_book_authors (save_instance None (BookAuthor.mk bk au)
                                                   (book_authors (db s))).2 (db s)) s)
        else ret tt
    | AddBookReview u bk c st =>
        match clean_char (Some c) with
        | inr c' =>
            if row_exists (books (db s)) bk && row_exists (users (db s)) u && (lo <=? st) && (st <=? hi)
            then create_review u bk st c' ;;; ret tt
            else ret tt
        | inl _ => ret tt
        end
    end
  else raise Http404.

Section Cycle.
Context `{EmailBackend} `{PasswordHasher} (cfg : Settings).

Definition run_view (v : SiteView) (kw : list (string * Z)) (req : Request) : PyM AppState Exn Response :=
  match v, method req with
  | HomeV, GET_ => home_page (DEFAULT_PAGE_SIZE cfg) req
  | BookListV, GET_ => BookListView_get (DEFAULT_PAGE_SIZE cfg) req
  | BookDetailV, GET_ => BookDetailView_get (lookup_id kw)
  | AddReviewV, POST_ => AddReviewView_post (MIN_STARS cfg) (MAX_STARS cfg) (lookup_id kw) req
  | RegisterV, GET_ => ret (render "users/register.html" [] [])
  | RegisterV, POST_ => RegisterView_post req
  | LoginV, GET_ => ret (render "users/login.html" [] [])
  | LoginV, POST_ => LoginView_post (LOGIN_REDIRECT_URL cfg) req
  | LogoutV, GET_ => LogoutView_get (LOGOUT_REDIRECT_URL cfg) req
  | ProfileV, GET_ => ProfileView_get req
  | ProfileEditV, GET_ => ProfileEditView_get req
  | ProfileEditV, POST_ => ProfileEditView_post req
  | ApiV BookReviewDetailAPIView, m => BookReviewDetailAPIView_as_view m (lookup_id kw)
  | _, _ => ret method_not_allowed
  end.

(** One request of the test client: [self.client.get(url)] or
    [self.client.post(url, data)]. *)
Definition client (m : Method) (url : string) (data : list (string * string)) (s : AppState)
    : AppState * Response :=
  let '(p, q) := split_once "?" url in
  let req := mkRequest m p (default EmptyString q) data (session_user s) in
  match site_resolve p with
  | None => (s, response_for_exception Http404)
  | Some (v, kw) => serve (run_view v kw req) s
  end.

(** ** The site as a state machine *)

Inductive site_step : relation AppState :=
  | step_client m url data s : site_step s (client m url data s).1
  | step_admin op s : site_step s (admin_add (MIN_STARS cfg) (MAX_STARS cfg) (admin_py []).1 op s).1.

Definition reachable (s : AppState) : Prop := rtc site_step initial_state s.
End Cycle.

(** The invariant of the site. *)
Definition site_inv (s : AppState) : Prop :=
  db_wf (db s) /\ users_unique (users (db s)) /\ reviews_chrono s /\
  (forall k, session s = Some k -> exists_row (users (db s)) k).

(** ** Lemmas: what each view writes *)

Lemma serve_fst {S} (view : PyM S Exn Response) s : (serve view s).1 = (view s).1.
Proof. unfold serve. by destruct (view s) as [? []]. Qed.

Definition read_only (m : PyM AppState Exn Response) : Prop := forall s, (m s).1 = s.

Lemma read_only_ret r : read_only (ret r).
Proof. done. Qed.

Lemma read_only_home dps req : read_only (home_page dps req).
Proof. intros s. unfold home_page, bind, get_state. by destruct (get_page _ _). Qed.

Lemma read_only_list dps req : read_only (BookListView_get dps req).
Proof. intros s. unfold BookListView_get, bind, get_state. by destruct (get_page _ _). Qed.

Lemma read_only_detail id : read_only (BookDetailView_get id).
Proof. intros s. unfold BookDetailView_get, bind, get_state. by destruct (objects_get _ _ _). Qed.

Lemma read_only_profile req : read_only (ProfileView_get req).
Proof.
  intros s. unfold ProfileView_get, bind, get_state. destruct (user req); [|done].
  by destruct (find_row _ _).
Qed.

Lemma read_only_profile_edit_get req : read_only (ProfileEditView_get req).
Proof.
  intros s. unfold ProfileEditView_get, bind, get_state. destruct (user req); [|done].
  by destruct (find_row _ _).
Qed.

Lemma read_only_api id : read_only (BookReviewDetailAPIView_get id).
Proof. intros s. apply BookReviewDetailAPIView_get_state. Qed.

Lemma sen_welcome_email_frame `{EmailBackend} u created s :
  clock (sen_welcome_email u created s).1 = clock s /\ session (sen_welcome_email u created s).1 = session s.
Proof.
  destruct created; [|done].
  destruct (decide (CustomUser.email u = "")) as [He|Hne].
  - by rewrite sen_welcome_email_no_address.
  - destruct (deliver (welcome_email u)) as [err|] eqn:Hd.
    + by rewrite (sen_welcome_email_failed u s err).
    + by rewrite sen_welcome_email_sent.
Qed.

Lemma save_user_frame `{EmailBackend} pk u s :
  clock (save_user pk u s).1 = clock s /\ session (save_user pk u s).1 = session s.
Proof.
  rewrite save_user_run. destruct (save_instance pk u (users (db s))) as [[created k] t'].
  pose proof (sen_welcome_email_frame u created (set_db (set_users t' (db s)) s)) as [Hc Hs].
  destruct (sen_welcome_email u created _) as [s1 [e|[]]]; simpl in *; by rewrite Hc, Hs.
Qed.

Lemma authenticate_exists `{PasswordHasher} un p t k :
  authenticate un p t = Some k -> exists_row t k.
Proof.
  unfold authenticate. destruct (find_user un (rows t)) as [[k' u]|] eqn:E; [|done].
  destruct (check_password _ _); intros [= <-]. apply find_user_spec in E as [Hin _].
  unfold exists_row. apply find_row_is_Some. apply list_elem_of_fmap. by exists (k', u).
Qed.

Lemma session_user_exists s k : session_user s = Some k -> exists_row (users (db s)) k.
Proof.
  unfold session_user. destruct (session s); [|done]. case_bool_decide; [|done]. by intros [= <-].
Qed.

(** ** Lemmas: each kind of write keeps the invariant *)

Lemma site_inv_session s sess :
  site_inv s -> (forall k, sess = Some k -> exists_row (users (db s)) k) -> site_inv (set_session sess s).
Proof. intros (Hwf & Hu & Hc & _) Hs. done. Qed.

(** A save of a user with a positive key keeps the invariant, when it
    keeps usernames unique. *)
Lemma site_inv_save_user `{EmailBackend} pk u s :
  site_inv s -> (forall k, pk = Some k -> 0 < k) -> users_unique (users (db (save_user pk u s).1)) ->
  site_inv (save_user pk u s).1.
Proof.
  intros (Hwf & Hu & [Hcs Hcc] & Hs) Hpk Hu'. pose proof (save_user_db pk u s) as Hdb.
  destruct (save_user_frame pk u s) as [Hclock Hsess]. unfold site_inv, reviews_chrono.
  rewrite Hclock, Hsess. rewrite Hdb in Hu' |- *. split_and!; simpl; try done.
  - by apply set_users_save_wf.
  - intros k Hk. apply save_instance_is_Some, Hs, Hk.
Qed.

Lemma row_exists_true {A} (t : Table A) k : row_exists t k = true -> exists_row t k.
Proof. unfold row_exists. by rewrite bool_decide_eq_true. Qed.

(** The admin site keeps the invariant, whatever the registry. *)
Lemma site_inv_admin lo hi reg op s : site_inv s -> site_inv (admin_add lo hi reg op s).1.
Proof.
  intros Hinv. pose proof Hinv as (Hwf & Hu & Hc & Hs).
  unfold admin_add, bind, get_state. case_bool_decide; [|done].
  destruct op as [b|a|bk au|u bk c st]; simpl.
  - split_and!; try done. by apply (set_books_save_wf (db s) None b Hwf).
  - split_and!; try done. by apply set_authors_save_wf.
  - destruct (row_exists _ bk) eqn:E1, (row_exists _ au) eqn:E2; simpl; try done.
    split_and!; try done. apply set_book_authors_save_wf; [done|].
    split; simpl; by apply row_exists_true.
  - destruct (clean_char _) as [|c']; [done|].
    destruct (_ && _) eqn:E; [|done]. repeat apply andb_true_iff in E as [E ?].
    pose proof (create_review_chrono u bk st c' s Hc) as Hc'. rewrite create_review_state in Hc'.
    split_and!; [|done|exact Hc'|done].
    apply set_reviews_create_wf; [done|]. split; simpl; apply row_exists_true; assumption.
Qed.

Lemma find_row_pos {A} (t : Table A) k a : table_wf t -> find_row k (rows t) = Some a -> 0 < k.
Proof.
  intros (_ & Hb & _) Hk. assert (k ∈ map fst (rows t)) as Hin by (apply find_row_is_Some; by eexists).
  eapply Forall_forall in Hb; [|exact Hin]. simpl in Hb. lia.
Qed.

Lemma site_inv_users_wf s : site_inv s -> table_wf (users (db s)).
Proof. intros [(_ & _ & _ & _ & Hu & _) _]. done. Qed.

Section ViewInv.
Context `{EmailBackend} `{PasswordHasher}.

Lemma register_inv req s : site_inv s -> site_inv (RegisterView_post req s).1.
Proof.
  intros Hinv.
  pose proof (register_keeps_unique req s (site_inv_users_wf s Hinv) (proj1 (proj2 Hinv))) as Hu'.
  revert Hu'. rewrite RegisterView_post_run.
  destruct (clean_register_form (POST req) (users (db s))) as [errors|u]; [done|].
  destruct (save_user None u s) as [s1 [e|k]] eqn:E; simpl; intros Hu';
    replace s1 with (save_user None u s).1 by (by rewrite E);
    (apply site_inv_save_user; [done|discriminate|by rewrite E]).
Qed.

Lemma profile_edit_inv req s : site_inv s -> site_inv (ProfileEditView_post req s).1.
Proof.
  intros Hinv.
  pose proof (profile_edit_keeps_unique req s (site_inv_users_wf s Hinv) (proj1 (proj2 Hinv))) as Hu'.
  revert Hu'. rewrite ProfileEditView_post_run.
  destruct (user req) as [k|]; [|done].
  destruct (find_row k (rows (users (db s)))) as [u0|] eqn:Hk; [|done].
  destruct (clean_profile_form (POST req) k (users (db s))) as [errors|[[[un fn] ln] em]]; [done|].
  pose proof (find_row_pos _ _ _ (site_inv_users_wf s Hinv) Hk) as Hpos.
  destruct (save_user (Some k) _ s) as [s1 [e|k']] eqn:E; simpl; intros Hu';
    replace s1 with (save_user (Some k) (CustomUser.mk un fn ln em (CustomUser.password u0)) s).1
      by (by rewrite E);
    (apply site_inv_save_user; [done|by intros ? [= <-]|by rewrite E]).
Qed.

Lemma login_inv L req s : site_inv s -> site_inv (LoginView_post L req s).1.
Proof.
  intros Hinv. rewrite LoginView_post_run.
  destruct (clean_text true _), (clean_password _); try done.
  destruct (authenticate _ _ _) as [k|] eqn:Ha; [|done]. simpl.
  apply site_inv_session; [done|]. intros ? [= <-]. by eapply authenticate_exists.
Qed.

Lemma add_review_frame lo hi id req s :
  users (db (AddReviewView_post lo hi id req s).1) = users (db s) /\
  session (AddReviewView_post lo hi id req s).1 = session s.
Proof.
  rewrite AddReviewView_post_run. destruct (user req); [|done]. destruct (find_row _ _); [|done].
  by destruct (clean_review_form _ _ _) as [|[]].
Qed.

Lemma add_review_inv lo hi id req s :
  site_inv s -> (forall uid, user req = Some uid -> exists_row (users (db s)) uid) ->
  site_inv (AddReviewView_post lo hi id req s).1.
Proof.
  intros (Hwf & Hu & Hc & Hs) Hreq. destruct (add_review_frame lo hi id req s) as [Hus Hss].
  split_and!.
  - by eapply (add_review_wf lo hi id req s _ (AddReviewView_post lo hi id req s).2), surjective_pairing.
  - by rewrite Hus.
  - by eapply (add_review_chrono lo hi id req s _ (AddReviewView_post lo hi id req s).2), surjective_pairing.
  - rewrite Hus, Hss. done.
Qed.

Lemma client_inv cfg m url data s : site_inv s -> site_inv (client cfg m url data s).1.
Proof.
  intros Hinv. unfold client. destruct (split_once "?" url) as [p q].
  destruct (site_resolve p) as [[v kw]|]; [|done]. rewrite serve_fst.
  assert (forall uid, session_user s = Some uid -> exists_row (users (db s)) uid) as Hsu
    by apply session_user_exists.
  destruct v as [| | | | | | | | |[]], m; simpl;
    rewrite ?read_only_home, ?read_only_list, ?read_only_detail, ?read_only_profile,
      ?read_only_profile_edit_get, ?read_only_api; try done.
  - by apply add_review_inv.
  - by apply register_inv.
  - by apply login_inv.
  - by apply site_inv_session.
  - by apply profile_edit_inv.
Qed.

Lemma site_step_inv cfg s s' : site_inv s -> site_step cfg s s' -> site_inv s'.
Proof.
  intros Hinv Hstep. destruct Hstep as [m url data s|b s].
  - by apply client_inv.
  - by apply site_inv_admin.
Qed.

Lemma initial_inv : site_inv initial_state.
Proof. split_and!; [apply empty_db_wf|constructor|split; constructor|done]. Qed.
End ViewInv.

(** ** Lemmas: only the two forms write reviews, and both validate them *)

(** Every stored review has a rating on the scale [lo..hi] and a comment
    that is not empty. *)
Definition reviews_valid (lo hi : Z) (s : AppState) : Prop :=
  Forall (fun r => lo <= BookReview.stars_given r.2 <= hi /\ BookReview.comment r.2 <> EmptyString)
    (rows (reviews (db s))).

Lemma reviews_valid_same lo hi s s' :
  reviews (db s') = reviews (db s) -> reviews_valid lo hi s -> reviews_valid lo hi s'.
Proof. unfold reviews_valid. by intros ->. Qed.

Lemma reviews_valid_create lo hi u bk st c s :
  reviews_valid lo hi s -> lo <= st <= hi -> c <> EmptyString ->
  reviews_valid lo hi (create_review u bk st c s).1.
Proof.
  intros Hv Hst Hc. rewrite create_review_state. unfold reviews_valid. simpl.
  apply Forall_app. split; [done|]. constructor; [split; simpl; [lia|done]|constructor].
Qed.

Lemma add_review_valid lo hi id req s :
  reviews_valid lo hi s -> reviews_valid lo hi (AddReviewView_post lo hi id req s).1.
Proof.
  intros Hv. rewrite AddReviewView_post_run. destruct (user req); [|done]. destruct (find_row _ _); [|done].
  destruct (clean_review_form _ _ _) as [|[n c]] eqn:E; [done|].
  apply clean_review_form_inr in E as [Hn Hc]. rewrite <- create_review_state. by apply reviews_valid_create.
Qed.

(** The admin's add view writes a review only through its validators. *)
Lemma admin_valid lo hi reg op s : reviews_valid lo hi s -> reviews_valid lo hi (admin_add lo hi reg op s).1.
Proof.
  intros Hv. unfold admin_add, bind, get_state. case_bool_decide; [|done].
  destruct op as [b|a|bk au|u bk c st]; simpl; try done.
  - by destruct (_ && _).
  - destruct (clean_char _) as [|c'] eqn:Ec; [done|]. apply clean_char_nonempty in Ec.
    destruct (row_exists _ bk && row_exists _ u && (lo <=? st) && (st <=? hi)) eqn:E; [|done].
    apply andb_true_iff in E as [E Hhi%Z.leb_le]. apply andb_true_iff in E as [_ Hlo%Z.leb_le].
    pose proof (reviews_valid_create lo hi u bk st c' s Hv ltac:(lia) Ec) as H'.
    by rewrite create_review_state in H'.
Qed.

Section Ratings.
Context `{EmailBackend} `{PasswordHasher}.

Lemma save_user_reviews pk u s : reviews (db (save_user pk u s).1) = reviews (db s).
Proof. by rewrite save_user_db. Qed.

Lemma register_reviews req s : reviews (db (RegisterView_post req s).1) = reviews (db s).
Proof.
  rewrite RegisterView_post_run. destruct (clean_register_form _ _) as [|u]; [done|].
  pose proof (save_user_reviews None u s). by destruct (save_user None u s) as [s1 []].
Qed.

Lemma profile_edit_reviews req s : reviews (db (ProfileEditView_post req s).1) = reviews (db s).
Proof.
  rewrite ProfileEditView_post_run. destruct (user req) as [k|]; [|done].
  destruct (find_row _ _) as [u0|]; [|done].
  destruct (clean_profile_form _ _ _) as [|[[[un fn] ln] em]]; [done|].
  pose proof (save_user_reviews (Some k) (CustomUser.mk un fn ln em (CustomUser.password u0)) s).
  by destruct (save_user _ _ s) as [s1 []].
Qed.

Lemma login_reviews L req s : reviews (db (LoginView_post L req s).1) = reviews (db s).
Proof.
  rewrite LoginView_post_run. destruct (clean_text true _), (clean_password _); try done.
  by destruct (authenticate _ _ _).
Qed.

Lemma client_valid cfg m url data s :
  reviews_valid (MIN_STARS cfg) (MAX_STARS cfg) s ->
  reviews_valid (MIN_STARS cfg) (MAX_STARS cfg) (client cfg m url data s).1.
Proof.
  intros Hv. unfold client. destruct (split_once "?" url) as [p q].
  destruct (site_resolve p) as [[v kw]|]; [|done]. rewrite serve_fst.
  destruct v as [| | | | | | | | |[]], m; simpl;
    rewrite ?read_only_home, ?read_only_list, ?read_only_detail, ?read_only_profile,
      ?read_only_profile_edit_get, ?read_only_api; try done.
  - by apply add_review_valid.
  - by apply (reviews_valid_same _ _ s); [apply register_reviews|].
  - by apply (reviews_valid_same _ _ s); [apply login_reviews|].
  - by apply (reviews_valid_same _ _ s); [apply profile_edit_reviews|].
Qed.
End Ratings.

(** ** Properties of the site *)

(** C16.  Every state the site can reach from the empty database,
    by any sequence of client requests and books added by the
    administrators, whatever the settings, the mail backend and the
    hasher, satisfies the invariant: tables well formed, every review and
    book-author link pointing at stored rows, usernames unique, reviews in
    time order, and a session naming a stored user. *)
Theorem reachable_site_inv `{EmailBackend} `{PasswordHasher} cfg s :
  reachable cfg s -> site_inv s.
Proof.
  unfold reachable. intros Hr.
  apply (rtc_ind_r (R := site_step cfg) (fun s => site_inv s) initial_state); [apply initial_inv| |exact Hr].
  intros y z _ Hstep IH. by eapply site_step_inv.
Qed.

(** C10.  In every state the site can reach, every stored review has a
    rating within the scale [MIN_STARS..MAX_STARS] of the settings and a
    comment that is not empty (section 4.2): the review form and the
    admin's model form are the only writers of reviews, and both run the
    validators; the admin's registration of [BookReview] does not open a
    way around them. *)
Theorem reachable_reviews_valid `{EmailBackend} `{PasswordHasher} cfg s :
  reachable cfg s ->
  Forall (fun r => MIN_STARS cfg <= BookReview.stars_given r.2 <= MAX_STARS cfg /\
                   BookReview.comment r.2 <> EmptyString) (rows (reviews (db s))).
Proof.
  unfold reachable. intros Hr. change (reviews_valid (MIN_STARS cfg) (MAX_STARS cfg) s).
  apply (rtc_ind_r (R := site_step cfg) (reviews_valid (MIN_STARS cfg) (MAX_STARS cfg)) initial_state);
    [constructor| |exact Hr].
  intros y z _ Hstep IH. destruct Hstep; [by apply client_valid|by apply admin_valid].
Qed.

(** ** Lemmas for the end-to-end properties *)

Lemma split_once_none sep s :
  Forall (fun c => c <> sep) (list_ascii_of_string s) -> split_once sep s = (s, None).
Proof.
  induction s as [|c s IH]; intros Hs; [done|]. simpl in *. invc Hs.
  rewrite bool_decide_eq_false_2 by done. by rewrite IH.
Qed.

Lemma api_path_chars id :
  0 <= id -> Forall (fun c => c <> "?"%char) (list_ascii_of_string ("/api/" ++ review_path id)).
Proof.
  intros Hid. unfold review_path. rewrite !list_ascii_of_string_app. rewrite str_Z_nonneg by done.
  repeat (apply Forall_app; split); try (repeat constructor; discriminate).
  eapply Forall_impl; [apply str_N_digits|]. intros c Hc ->. discriminate.
Qed.

Lemma site_resolve_api x : site_resolve ("/api/" ++ x) = site_resolve_in api_patterns ("/api/" ++ x).
Proof. reflexivity. Qed.

Lemma api_patterns_eq :
  api_patterns = [mkSitePattern "api:review-detail" (Lit "/api/" :: review_detail_route)
                    (ApiV BookReviewDetailAPIView)].
Proof. reflexivity. Qed.

Lemma find_row_elem {A} (rs : list (Z * A)) k a :
  NoDup (map fst rs) -> (k, a) ∈ rs -> find_row k rs = Some a.
Proof.
  induction rs as [|[k' b] rs IH]; intros Hnd Hin; [by apply elem_of_nil in Hin|]. simpl in *. invc Hnd.
  apply elem_of_cons in Hin as [[= -> ->]|Hin]; [by rewrite Z.eqb_refl|].
  destruct (Z.eqb_spec k' k) as [->|]; [|by apply IH].
  exfalso. apply H1. apply list_elem_of_fmap. by exists (k, a).
Qed.

Lemma site_resolve_api_review id :
  0 <= id -> site_resolve ("/api/" ++ review_path id) = Some (ApiV BookReviewDetailAPIView, [("id", id)]).
Proof.
  intros Hid. rewrite site_resolve_api, api_patterns_eq. cbn [site_resolve_in sp_route sp_view].
  by rewrite match_route_lit, match_review_detail.
Qed.

(** The path the review form posts to. *)
Definition review_post_path (id : Z) : string := "/books/" ++ str_Z id ++ "/reviews/".

Lemma books_path_chars id x :
  0 <= id -> Forall (fun c => c <> "?"%char) (list_ascii_of_string x) ->
  Forall (fun c => c <> "?"%char) (list_ascii_of_string ("/books/" ++ str_Z id ++ x)).
Proof.
  intros Hid Hx. rewrite !list_ascii_of_string_app, str_Z_nonneg by done.
  repeat (apply Forall_app; split); try (repeat constructor; discriminate); [|done].
  eapply Forall_impl; [apply str_N_digits|]. intros c Hc ->. discriminate.
Qed.

Lemma match_route_nil_str z x : match_route [] (str_Z z ++ x) = None.
Proof. pose proof (str_Z_nonempty z). by destruct (str_Z z). Qed.

(** The first patterns of the site do not match a path under a book. *)
Lemma site_resolve_books id x :
  0 <= id -> starts_nondigit x ->
  site_resolve ("/books/" ++ str_Z id ++ x) =
  match match_route [Lit "/"] x with
  | Some kw => Some (BookDetailV, ("id", id) :: kw)
  | None => match match_route [Lit "/reviews/"] x with
            | Some kw => Some (AddReviewV, ("id", id) :: kw)
            | None => site_resolve_in (drop 4 site_patterns) ("/books/" ++ str_Z id ++ x)
            end
  end.
Proof.
  intros Hid Hx. unfold site_resolve, site_patterns.
  assert (E : "/books/" ++ str_Z id ++ x = "/" ++ ("books/" ++ str_Z id ++ x)) by reflexivity.
  cbn [app site_resolve_in sp_route sp_view drop]. rewrite E at 1.
  rewrite !match_route_lit, !match_route_int by done. rewrite match_route_nil_str.
  assert (match_route [] ("books/" ++ str_Z id ++ x) = None) as -> by reflexivity.
  by destruct (match_route [Lit "/"] x), (match_route [Lit "/reviews/"] x).
Qed.

Lemma site_resolve_review_post id :
  0 <= id -> site_resolve (review_post_path id) = Some (AddReviewV, [("id", id)]).
Proof. intros Hid. unfold review_post_path. by rewrite site_resolve_books. Qed.


Lemma find_row_create {A} (a : A) t :
  table_wf t -> find_row (next_id t) (app (rows t) [(next_id t, a)]) = Some a.
Proof.
  intros Hwf. pose proof (objects_get_create "" a t Hwf) as H. unfold objects_get in H. simpl in H.
  by destruct (find_row _ _); [injection H as ->|].
Qed.

(** A valid review posted through the client by a logged-in user is
    created, and the client is redirected to the book's page. *)
Lemma client_add_review `{EmailBackend} `{PasswordHasher} cfg s id uid b data stars comment :
  0 <= id -> session_user s = Some uid -> find_row id (rows (books (db s))) = Some b ->
  clean_review_form (MIN_STARS cfg) (MAX_STARS cfg) data = inr (stars, comment) ->
  client cfg POST_ (review_post_path id) data s =
    ((create_review uid id stars comment s).1, HttpResponseRedirect (book_detail_path id)).
Proof.
  intros Hid Hu Hb Hf. unfold client.
  rewrite split_once_none by (apply books_path_chars; [done|repeat constructor; discriminate]).
  rewrite site_resolve_review_post by done. apply serve_ok. simpl.
  rewrite AddReviewView_post_run. simpl. rewrite Hu. unfold lookup_id. simpl. rewrite Hb, Hf.
  done.
Qed.

(** ** End-to-end properties *)

(** C37.  Through the project's [include], the API route reverses
    to [/api/reviews/<id>/], that path resolves to the API view with the
    id, and a client GET of it answers with the review's JSON object,
    writing nothing; a POST to it answers 405, the class defining [get]
    only, and writes nothing either. *)
Theorem api_through_site `{EmailBackend} `{PasswordHasher} cfg id s r data :
  0 <= id -> find_row id (rows (reviews (db s))) = Some r ->
  site_reverse "api:review-detail" [("id", id)] = inr ("/api/" ++ review_path id) /\
  site_resolve ("/api/" ++ review_path id) = Some (ApiV BookReviewDetailAPIView, [("id", id)]) /\
  client cfg GET_ ("/api/" ++ review_path id) [] s = (s, JsonResponse (review_json id r)) /\
  client cfg POST_ ("/api/" ++ review_path id) data s = (s, method_not_allowed).
Proof.
  intros Hid Hr. pose proof (site_resolve_api_review id Hid) as Hres.
  split_and!; [|done| |].
  - change (site_reverse "api:review-detail" [("id", id)]) with
      (reverse_route "api:review-detail" (Lit "/api/" :: review_detail_route) [("id", id)]).
    unfold reverse_route. rewrite bool_decide_eq_true_2 by (simpl; set_solver).
    assert (build_route (Lit "/api/" :: review_detail_route) [("id", id)] = Some ("/api/" ++ review_path id))
      as -> by reflexivity.
    by rewrite match_route_lit, match_review_detail.
  - unfold client. rewrite split_once_none by by apply api_path_chars. rewrite Hres.
    unfold serve. simpl. unfold lookup_id. simpl.
    unfold BookReviewDetailAPIView_get, bind, get_state, objects_get. by rewrite Hr.
  - unfold client. rewrite split_once_none by by apply api_path_chars. by rewrite Hres.
Qed.


(** C36.  After a logged-in user posts a valid review through the
    client, the API answers [GET /api/reviews/<n>/], [n] being the key the
    table gave the new row, with the JSON object of exactly the submitted
    rating and comment under that id: the review service and
    [api/views.py] agree on the row. *)
Theorem review_then_api `{EmailBackend} `{PasswordHasher} cfg s id uid b data stars comment :
  table_wf (reviews (db s)) -> 0 <= id -> session_user s = Some uid ->
  find_row id (rows (books (db s))) = Some b ->
  clean_review_form (MIN_STARS cfg) (MAX_STARS cfg) data = inr (stars, comment) ->
  client cfg GET_ ("/api/" ++ review_path (next_id (reviews (db s)))) []
    (client cfg POST_ (review_post_path id) data s).1 =
  ((client cfg POST_ (review_post_path id) data s).1,
   JsonResponse (JObject [("id", JInt (next_id (reviews (db s)))); ("stars_given", JInt stars);
                          ("comment", JString comment)])).
Proof.
  intros Hwf Hid Hu Hb Hf. rewrite (client_add_review cfg s id uid b data stars comment) by done. cbn [fst].
  assert (Hn : 0 <= next_id (reviews (db s))) by (destruct Hwf as (_ & _ & ?); lia).
  unfold client. rewrite split_once_none by by apply api_path_chars.
  rewrite site_resolve_api_review by done. apply serve_ok. simpl. unfold lookup_id. simpl.
  unfold BookReviewDetailAPIView_get, bind, get_state, objects_get. simpl.
  by rewrite find_row_create.
Qed.

(** C38.  An anonymous client asking for its profile is sent to
    [/users/login/?next=/users/profile/]; posting the right credentials to
    that very URL logs it in and sends it back to [/users/profile/], which
    now answers 200 with the user's fields. *)
Theorem login_redirect_roundtrip `{EmailBackend} `{PasswordHasher} cfg s k u p :
  table_wf (users (db s)) -> session s = None ->
  find_user (CustomUser.username u) (rows (users (db s))) = Some (k, u) ->
  check_password p (CustomUser.password u) = true ->
  strip (CustomUser.username u) = CustomUser.username u -> CustomUser.username u <> "" -> p <> "" ->
  client cfg GET_ "/users/profile/" [] s = (s, HttpResponseRedirect "/users/login/?next=/users/profile/") /\
  client cfg POST_ "/users/login/?next=/users/profile/"
    [("username", CustomUser.username u); ("password", p)] s =
    (set_session (Some k) s, HttpResponseRedirect "/users/profile/") /\
  client cfg GET_ "/users/profile/" [] (set_session (Some k) s) =
    (set_session (Some k) s,
     render "users/profile.html"
       [CustomUser.username u; CustomUser.first_name u; CustomUser.last_name u; CustomUser.email u] []).
Proof.
  intros Hwf Hs Hf Hc Hstrip Hne Hpne.
  assert (Hk : find_row k (rows (users (db s))) = Some u).
  { apply find_row_elem; [by apply table_keys_nodup|]. by apply find_user_spec in Hf as []. }
  split_and!.
  - unfold client, session_user. rewrite Hs. reflexivity.
  - unfold client, session_user. rewrite Hs.
    assert (split_once "?" "/users/login/?next=/users/profile/" = ("/users/login/", Some "next=/users/profile/"))
      as -> by reflexivity.
    assert (site_resolve "/users/login/" = Some (LoginV, [])) as -> by reflexivity.
    cbn [run_view method default]. unfold serve. rewrite LoginView_post_run. cbn [POST].
    assert (query_get "username" [("username", CustomUser.username u); ("password", p)] =
              Some (CustomUser.username u)) as -> by reflexivity.
    assert (query_get "password" [("username", CustomUser.username u); ("password", p)] = Some p)
      as -> by reflexivity.
    rewrite clean_text_str by done.
    assert (clean_password (Some p) = inr p) as -> by (unfold clean_password; simpl; by destruct p).
    unfold authenticate. rewrite Hf, Hc. reflexivity.
  - unfold client, session_user. simpl. rewrite Hk. simpl. unfold serve, ProfileView_get, bind, get_state.
    simpl. by rewrite Hk.
Qed.

(** C33.  Logging out ends the session, whoever was logged in: the
    client is redirected to [LOGOUT_REDIRECT_URL], nothing but the
    session changes, and the profile then redirects to the login page
    with [?next=/users/profile/] again. *)
Theorem logout_ends_session `{EmailBackend} `{PasswordHasher} cfg s :
  client cfg GET_ "/users/logout/" [] s =
    (set_session None s, HttpResponseRedirect (LOGOUT_REDIRECT_URL cfg)) /\
  session_user (set_session None s) = None /\
  client cfg GET_ "/users/profile/" [] (set_session None s) =
    (set_session None s, HttpResponseRedirect "/users/login/?next=/users/profile/").
Proof. split_and!; reflexivity. Qed.

(** C13.  A registered user can log in: after a valid registration,
    posting the username as typed and the password to the login page
    logs the new user in and redirects to [LOGIN_REDIRECT_URL].  This
    holds whatever the mail backend does, a failed welcome e-mail (whose
    exception makes the registration answer 500) included, since the row
    is written before the signal fires. *)
Theorem register_then_login `{EmailBackend} `{PasswordHasher} cfg s data u un raw :
  clean_register_form data (users (db s)) = inr u ->
  query_get "username" data = Some un -> query_get "password" data = Some raw -> strip raw = raw ->
  client cfg POST_ "/users/login/" [("username", un); ("password", raw)]
    (client cfg POST_ "/users/register/" data s).1 =
  (set_session (Some (next_id (users (db s)))) (client cfg POST_ "/users/register/" data s).1,
   HttpResponseRedirect (LOGIN_REDIRECT_URL cfg)).
Proof.
  intros Hf Hun Hraw Hstrip.
  destruct (clean_register_form_inr _ _ _ Hf) as (raw' & Hraw' & Hne & Hpw & _ & Ht).
  pose proof (clean_register_form_username _ _ _ Hf) as Hname. rewrite Hun in Hname.
  rewrite Hraw in Hraw'. destruct raw as [|c r]; [discriminate|].
  rewrite clean_text_str in Hraw' by done. injection Hraw' as <-.
  set (s1 := (client cfg POST_ "/users/register/" data s).1).
  assert (Hs1 : users (db s1) = (objects_create u (users (db s))).2).
  { unfold s1, client.
    assert (split_once "?" "/users/register/" = ("/users/register/", None)) as -> by reflexivity.
    assert (site_resolve "/users/register/" = Some (RegisterV, [])) as -> by reflexivity.
    cbn [run_view method].
    rewrite serve_fst, RegisterView_post_run. cbn [POST]. rewrite Hf.
    pose proof (save_user_users None u s) as Hu. rewrite save_instance_None in Hu.
    destruct (save_user None u s) as [s' [e|k]]; exact Hu. }
  unfold client at 1.
  assert (split_once "?" "/users/login/" = ("/users/login/", None)) as -> by reflexivity.
  assert (site_resolve "/users/login/" = Some (LoginV, [])) as -> by reflexivity.
  cbn [run_view method default].
  apply serve_ok. rewrite LoginView_post_run. cbn [POST].
  assert (query_get "username" [("username", un); ("password", String c r)] = Some un) as -> by reflexivity.
  assert (query_get "password" [("username", un); ("password", String c r)] = Some (String c r)) as -> by reflexivity.
  rewrite Hname. assert (clean_password (Some (String c r)) = inr (String c r)) as -> by reflexivity.
  unfold authenticate. rewrite Hs1. simpl (rows _).
  rewrite find_user_snoc; [|intros r0 Hr0 Heq; by pose proof (proj1 (username_taken_false _ _ _) Ht r0 Hr0 Heq)|done].
  rewrite Hpw, check_make_password. reflexivity.
Qed.

(** C14.  The registrations of [admin.py] are what opens the admin
    site: with the registry they build, the add view of each of the four
    models always answers (never 404), while without them every add is a
    404 that writes nothing; and a book-author link naming a missing book
    or author is refused by the form and writes nothing. *)
Theorem admin_registered_adds lo hi op s :
  (admin_add lo hi (admin_py []).1 op s).2 = inr tt /\
  admin_add lo hi [] op s = (s, inl Http404) /\
  (forall bk au, row_exists (books (db s)) bk = false \/ row_exists (authors (db s)) au = false ->
   admin_add lo hi (admin_py []).1 (AddBookAuthor bk au) s = (s, inr tt)).
Proof.
  split_and!.
  - unfold admin_add, bind, get_state.
    rewrite bool_decide_eq_true_2 by (destruct op; simpl; set_solver).
    destruct op as [b|a|bk au|u bk c st]; [done|done| |].
    + by destruct (_ && _).
    + destruct (clean_char _); [done|]. by destruct (_ && _).
  - unfold admin_add, bind, get_state. by rewrite bool_decide_eq_false_2 by set_solver.
  - intros bk au Hmiss. unfold admin_add, bind, get_state.
    rewrite bool_decide_eq_true_2 by (simpl; set_solver).
    by destruct Hmiss as [->| ->]; [|rewrite andb_false_r].
Qed.

(** ** Witnesses *)

(** The settings of the witnesses and scenarios: ten books per page, a
    rating scale of one to five stars, both redirects to the home page. *)
Definition test_settings : Settings := mkSettings 10 1 5 "/" "/".

Lemma reachable_site_inv_witness :
  site_inv (client test_settings POST_ "/users/register/" register_data initial_state).1.
Proof.
  apply (reachable_site_inv test_settings).
  apply rtc_once. apply step_client.
Defined.

Lemma api_through_site_witness :
  site_reverse "api:review-detail" [("id", 1)] = inr ("/api/" ++ review_path 1) /\
  site_resolve ("/api/" ++ review_path 1) = Some (ApiV BookReviewDetailAPIView, [("id", 1)]) /\
  client test_settings GET_ ("/api/" ++ review_path 1) [] state_with_review =
    (state_with_review, JsonResponse (review_json 1 review1)) /\
  client test_settings POST_ ("/api/" ++ review_path 1) [("comment", "Nice book")] state_with_review =
    (state_with_review, method_not_allowed).
Proof. apply api_through_site; [lia|reflexivity]. Defined.

Lemma login_redirect_roundtrip_witness :
  client test_settings GET_ "/users/profile/" [] login_state =
    (login_state, HttpResponseRedirect "/users/login/?next=/users/profile/") /\
  client test_settings POST_ "/users/login/?next=/users/profile/"
    [("username", "shahzod"); ("password", "somepass")] login_state =
    (set_session (Some 1) login_state, HttpResponseRedirect "/users/profile/") /\
  client test_settings GET_ "/users/profile/" [] (set_session (Some 1) login_state) =
    (set_session (Some 1) login_state,
     render "users/profile.html" ["shahzod"; "Shahzod"; "Nematov"; "shahzod@gmail.com"] []).
Proof.
  apply (login_redirect_roundtrip test_settings login_state 1 shahzod_user "somepass");
    try reflexivity; try discriminate.
  unfold table_wf. simpl. split_and!; repeat constructor; lia.
Defined.

Lemma register_then_login_witness :
  client test_settings POST_ "/users/login/" [("username", "shahzod"); ("password", "somepassword")]
    (client test_settings POST_ "/users/register/" register_data initial_state).1 =
  (set_session (Some 1) (client test_settings POST_ "/users/register/" register_data initial_state).1,
   HttpResponseRedirect "/").
Proof.
  apply (register_then_login test_settings initial_state register_data
           (CustomUser.mk "shahzod" "Shahzod" "Nematov" "shahzod@gmail.com" (make_password "somepassword"))
           "shahzod" "somepassword"); reflexivity.
Defined.

Lemma admin_registered_adds_witness :
  (admin_add 1 5 (admin_py []).1 (AddBook sport) initial_state).2 = inr tt /\
  admin_add 1 5 [] (AddBook sport) initial_state = (initial_state, inl Http404) /\
  admin_add 1 5 (admin_py []).1 (AddBookAuthor 1 1) initial_state = (initial_state, inr tt).
Proof.
  pose proof (admin_registered_adds 1 5 (AddBook sport) initial_state) as (H1 & H2 & _).
  split; [exact H1|]. split; [exact H2|].
  apply (admin_registered_adds 1 5 (AddBook sport) initial_state). left. reflexivity.
Defined.

(** A book added by the admin, a user registered through the client, and
    a review of that book added by the admin. *)
Definition admin_book_state : AppState := (admin_add 1 5 (admin_py []).1 (AddBook sport) initial_state).1.

Definition registered_state : AppState :=
  (client test_settings POST_ "/users/register/" register_data admin_book_state).1.

Definition rated_state : AppState :=
  (admin_add 1 5 (admin_py []).1 (AddBookReview 1 1 " Great read " 4) registered_state).1.

Lemma reachable_reviews_valid_witness :
  Forall (fun r => MIN_STARS test_settings <= BookReview.stars_given r.2 <= MAX_STARS test_settings /\
                   BookReview.comment r.2 <> EmptyString) (rows (reviews (db rated_state))).
Proof.
  apply (reachable_reviews_valid test_settings). unfold rated_state, registered_state, admin_book_state.
  eapply rtc_r; [eapply rtc_r; [apply rtc_once, (step_admin test_settings)|apply step_client]|].
  apply (step_admin test_settings).
Defined.

(** The admin's review is stored with its comment stripped; a rating of 9
    or a blank comment is refused by the form and writes nothing. *)
Example admin_review_validated :
  map (fun r => (BookReview.stars_given r.2, BookReview.comment r.2)) (rows (reviews (db rated_state))) =
    [(4, "Great read")] /\
  admin_add 1 5 (admin_py []).1 (AddBookReview 1 1 "Great read" 9) registered_state =
    (registered_state, inr tt) /\
  admin_add 1 5 (admin_py []).1 (AddBookReview 1 1 "   " 4) registered_state =
    (registered_state, inr tt).
Proof. vm_compute. split_and!; reflexivity. Qed.

(** The registered user, logged in, reviews the book through the
    client. *)
Definition logged_state : AppState := set_session (Some 1) registered_state.

Definition review_data : list (string * string) := [("stars_given", "4"); ("comment", "Nice")].


Lemma review_then_api_witness :
  client test_settings GET_ ("/api/" ++ review_path (next_id (reviews (db logged_state)))) []
    (client test_settings POST_ (review_post_path 1) review_data logged_state).1 =
  ((client test_settings POST_ (review_post_path 1) review_data logged_state).1,
   JsonResponse (JObject [("id", JInt (next_id (reviews (db logged_state)))); ("stars_given", JInt 4);
                          ("comment", JString "Nice")])).
Proof.
  apply (review_then_api test_settings logged_state 1 1 sport review_data 4 "Nice");
    [split_and!; vm_compute; [constructor|constructor|reflexivity]|lia|vm_compute; reflexivity
    |vm_compute; reflexivity|reflexivity].
Defined.
