(* ===== verification/Tests.v ===== *)
(** * Tests: the test suites of the repository as executable scenarios

    Each test method of [src/books/tests.py], [src/goodreads/tests.py] and
    [src/users/tests.py] is a definition that plays its steps on the model
    from an empty database (Django's [TestCase] gives every test a fresh
    one) and returns whether all its assertions hold.  The steps are
    those of the source:
    - [Model.objects.create(...)]: [objects_create] for books,
      [save_user None] for users (so the welcome e-mail receiver runs),
      [create_review] for reviews;
    - [user.set_password(raw); user.save()]: a save of the row with the
      hash of [raw];
    - [self.client.get/post(url, data)]: [client], through the site's URL
      configuration, with the client's session;
    - [self.client.login(...)]: [authenticate], then the session;
      [get_user(self.client)]: [session_user];
    - [reverse(name, kwargs)]: [site_reverse] ([rev] gives a path no
      pattern matches when reversing fails, so the test then fails, as
      the [NoReverseMatch] would make it);
    - [assertContains], [assertNotContains] (status 200 and the text in,
      or not in, a text the page shows), [assertFormError], [assertEqual].
    The scenarios run with the in-memory mail backend of the test runner,
    the hasher [toy_hasher] and the settings [test_settings]. *)

From S2P Require Import Prelude Text Django Orm Models Signals Http Paginator Catalog Reviews Identity Site.
From Stdlib Require Import Ascii String.

Local Open Scope string_scope.
Local Open Scope Z_scope.

(** ** The test client and assertions *)

Module TestClient.

Definition rev (name : string) (kwargs : list (string * Z)) : string :=
  match site_reverse name kwargs with inr u => u | inl _ => "<NoReverseMatch>" end.

Definition get (url : string) (s : AppState) : AppState * Response :=
  client test_settings GET_ url [] s.

Definition post (url : string) (data : list (string * string)) (s : AppState) : AppState * Response :=
  client test_settings POST_ url data s.

(** [self.client.login(username=..., password=...)]. *)
Definition login (username password : string) (s : AppState) : AppState * bool :=
  match authenticate username password (users (db s)) with
  | Some k => (set_session (Some k) s, true)
  | None => (s, false)
  end.

(** [get_user(self.client).is_authenticated]. *)
Definition is_authenticated (s : AppState) : bool := bool_decide (is_Some (session_user s)).

Definition assertContains (r : Response) (text : string) : bool :=
  bool_decide (status_code r = 200) && existsb (containsb text) (page_shown r).

Definition assertNotContains (r : Response) (text : string) : bool :=
  bool_decide (status_code r = 200) && negb (existsb (containsb text) (page_shown r)).

Definition assertFormError (r : Response) (field message : string) : bool :=
  match body r with
  | PageBody _ _ errors => bool_decide ((field, message) ∈ errors)
  | _ => false
  end.

(** [Book.objects.create(...)]. *)
Definition create_book (b : Book.t) (s : AppState) : AppState * Z :=
  let '(k, t) := objects_create b (books (db s)) in (set_db (set_books t (db s)) s, k).

(** [CustomUser.objects.create(...)], a save without a key. *)
Definition create_user (u : CustomUser.t) (s : AppState) : AppState * Z :=
  match save_user None u s with
  | (s', inr k) => (s', k)
  | (s', inl _) => (s', 0)
  end.

(** [user.set_password(raw); user.save()]. *)
Definition set_password_save (k : Z) (u : CustomUser.t) (raw : string) (s : AppState) : AppState :=
  (save_user (Some k) (CustomUser.mk (CustomUser.username u) (CustomUser.first_name u)
                         (CustomUser.last_name u) (CustomUser.email u) (make_password raw)) s).1.

(** [Model.objects.get(username=...)] of a user. *)
Definition get_user_by_name (username : string) (s : AppState) : option CustomUser.t :=
  option_map snd (find_user username (rows (users (db s)))).

(** The fields of the user the tests create: username shahzod, first
    name Shahzod, last name Nematov, address shahzod@gmail.com. *)
Definition shahzod_fields : CustomUser.t :=
  CustomUser.mk "shahzod" "Shahzod" "Nematov" "shahzod@gmail.com" "".

End TestClient.
Import TestClient.

(** ** [src/books/tests.py] *)

Module BooksTestCase.

Definition test_no_books : bool :=
  let '(_, response) := get (rev "books:list" []) initial_state in
  assertContains response "No books found.".

Definition test_books_list : bool :=
  let '(s1, _) := create_book (Book.mk "book1" "Description1" "111111111") initial_state in
  let '(s2, _) := create_book (Book.mk "book2" "Description2" "222222222") s1 in
  let '(s3, _) := create_book (Book.mk "book3" "Description3" "333333333") s2 in
  let '(s4, response) := get (rev "books:list" [] ++ "?page_size=2") s3 in
  let r1 := forallb (assertContains response) ["book1"; "book2"] && assertNotContains response "book3" in
  let '(_, response) := get (rev "books:list" [] ++ "?page=2&page_size=2") s4 in
  r1 && assertContains response "book3".

Definition test_detail_page : bool :=
  let '(s1, id) := create_book (Book.mk "book1" "Description1" "111111111") initial_state in
  let '(_, response) := get (rev "books:detail" [("id", id)]) s1 in
  assertContains response "book1" && assertContains response "Description1".

Definition test_search_books : bool :=
  let '(s1, _) := create_book (Book.mk "Sport" "Description1" "111111111") initial_state in
  let '(s2, _) := create_book (Book.mk "Guide" "Description2" "222222222") s1 in
  let '(s3, _) := create_book (Book.mk "Shoe Dog" "Description3" "333333333") s2 in
  let '(s4, response) := get (rev "books:list" [] ++ "?q=sport") s3 in
  let r1 := assertContains response "Sport" && assertNotContains response "Guide" &&
            assertNotContains response "Shoe Dog" in
  let '(s5, response) := get (rev "books:list" [] ++ "?q=guide") s4 in
  let r2 := assertContains response "Guide" && assertNotContains response "Sport" &&
            assertNotContains response "Shoe Dog" in
  let '(_, response) := get (rev "books:list" [] ++ "?q=shoe") s5 in
  r1 && r2 && assertContains response "Shoe Dog" && assertNotContains response "Guide" &&
  assertNotContains response "Sport".
End BooksTestCase.

Module BookReviewTestCase.

Definition test_add_review : bool :=
  let '(s1, book) := create_book (Book.mk "book1" "Description1" "111111111") initial_state in
  let '(s2, user) := create_user shahzod_fields s1 in
  let s3 := set_password_save user shahzod_fields "somepass" s2 in
  let '(s4, _) := login "shahzod" "somepass" s3 in
  let '(s5, _) := post (rev "books:reviews" [("id", book)]) [("stars_given", "3"); ("comment", "Nice book")] s4 in
  let book_reviews := book_reviews book s5 in
  bool_decide (Datatypes.length book_reviews = 1%nat) &&
  match book_reviews with
  | (_, r) :: _ => bool_decide (BookReview.stars_given r = 3) && bool_decide (BookReview.comment r = "Nice book") &&
                   bool_decide (BookReview.book r = book) && bool_decide (BookReview.user r = user)
  | [] => false
  end.
End BookReviewTestCase.

(** ** [src/goodreads/tests.py] *)

Module HomePageTestCase.

Definition test_paginated_list : bool :=
  let '(s1, book) := create_book (Book.mk "book1" "Description1" "111111111") initial_state in
  let '(s2, user) := create_user shahzod_fields s1 in
  let s3 := set_password_save user shahzod_fields "somepass" s2 in
  let s4 := (create_review user book 3 "Very good book" s3).1 in
  let s5 := (create_review user book 4 "Useful book" s4).1 in
  let s6 := (create_review user book 5 "Nice book" s5).1 in
  let '(_, response) := get (rev "home_page" [] ++ "?page_size=2") s6 in
  assertContains response "Nice book" && assertContains response "Useful book" &&
  assertNotContains response "Very good book".
End HomePageTestCase.

(** ** [src/users/tests.py] *)

Module RegistrationTestCase.

Definition test_user_account_is_created : bool :=
  let '(s1, _) := post (rev "users:register" [])
                    [("username", "shahzod"); ("first_name", "Shahzod"); ("last_name", "Nematov");
                     ("email", "shahzod@gmail.com"); ("password", "somepassword")] initial_state in
  match get_user_by_name "shahzod" s1 with
  | Some user =>
      bool_decide (CustomUser.first_name user = "Shahzod") &&
      bool_decide (CustomUser.last_name user = "Nematov") &&
      bool_decide (CustomUser.email user = "shahzod@gmail.com") &&
      bool_decide (CustomUser.password user <> "somepassword") &&
      check_password "somepassword" (CustomUser.password user)
  | None => false
  end.

Definition test_required_fields : bool :=
  let '(s1, response) := post (rev "users:register" [])
                           [("first_name", "Shahzod"); ("email", "shahzod@gmail.com")] initial_state in
  bool_decide (objects_count (users (db s1)) = 0%nat) &&
  assertFormError response "username" "This field is required." &&
  assertFormError response "password" "This field is required.".

Definition test_invalid_email : bool :=
  let '(s1, response) := post (rev "users:register" [])
                           [("username", "shahzod"); ("first_name", "Shahzod"); ("last_name", "Nematov");
                            ("email", "indvalid-email"); ("password", "somepassword")] initial_state in
  bool_decide (objects_count (users (db s1)) = 0%nat) &&
  assertFormError response "email" "Enter a valid email address.".

Definition test_unique_username : bool :=
  let u := CustomUser.mk "shahzod" "Shahzod" "" "" "" in
  let '(s1, user) := create_user u initial_state in
  let s2 := set_password_save user u "somepass" s1 in
  let '(s3, response) := post (rev "users:register" [])
                           [("username", "shahzod"); ("first_name", "Shahzod"); ("last_name", "Nematov");
                            ("email", "indvalid-email"); ("password", "somepassword")] s2 in
  bool_decide (objects_count (users (db s3)) = 1%nat) &&
  assertFormError response "username" "A user with that username already exists.".
End RegistrationTestCase.

Module LoginTestCase.

Definition setUp : AppState :=
  let u := CustomUser.mk "shahzod" "Shahzod" "" "" "" in
  let '(s1, db_user) := create_user u initial_state in
  set_password_save db_user u "somepass" s1.

Definition test_successful_login : bool :=
  let '(s1, _) := post (rev "users:login" []) [("username", "shahzod"); ("password", "somepass")] setUp in
  is_authenticated s1.

Definition test_wrong_credentials : bool :=
  let '(s1, _) := post (rev "users:login" []) [("username", "wrong-username"); ("password", "somepass")] setUp in
  let r1 := negb (is_authenticated s1) in
  let '(s2, _) := post (rev "users:login" []) [("username", "shahzod"); ("password", "wrong-password")] s1 in
  r1 && negb (is_authenticated s2).

Definition test_logout : bool :=
  let '(s1, _) := login "shahzod" "somepass" setUp in
  let '(s2, _) := get (rev "users:logout" []) s1 in
  negb (is_authenticated s2).
End LoginTestCase.

Module ProfileTestCase.

Definition test_login_required : bool :=
  let '(_, response) := get (rev "users:profile" []) initial_state in
  bool_decide (status_code response = 302) &&
  bool_decide (response_url response = Some (rev "users:login" [] ++ "?next=/users/profile/")).

Definition test_profile_detail : bool :=
  let '(s1, user) := create_user shahzod_fields initial_state in
  let s2 := set_password_save user shahzod_fields "somepass" s1 in
  let '(s3, _) := login "shahzod" "somepass" s2 in
  let '(_, response) := get (rev "users:profile" []) s3 in
  bool_decide (status_code response = 200) &&
  assertContains response "shahzod" && assertContains response "Shahzod" &&
  assertContains response "Nematov" && assertContains response "shahzod@gmail.com".

Definition test_update_profile : bool :=
  let '(s1, user) := create_user shahzod_fields initial_state in
  let s2 := set_password_save user shahzod_fields "somepass" s1 in
  let '(s3, _) := login "shahzod" "somepass" s2 in
  let '(s4, response) := post (rev "users:profile-edit" [])
                           [("username", "shahzod"); ("first_name", "Shahzod"); ("last_name", "Nematov");
                            ("email", "shahzod@gmail.com")] s3 in
  match find_row user (rows (users (db s4))) with
  | Some refreshed =>
      bool_decide (CustomUser.last_name refreshed = "Nematov") &&
      bool_decide (CustomUser.email refreshed = "shahzod@gmail.com") &&
      bool_decide (response_url response = Some (rev "users:profile" []))
  | None => false
  end.
End ProfileTestCase.

(** ** The suites pass *)

(** Every test method of the repository's three test modules
    passes when played on the model. *)
Theorem test_suites_pass :
  BooksTestCase.test_no_books = true /\ BooksTestCase.test_books_list = true /\
  BooksTestCase.test_detail_page = true /\ BooksTestCase.test_search_books = true /\
  BookReviewTestCase.test_add_review = true /\ HomePageTestCase.test_paginated_list = true /\
  RegistrationTestCase.test_user_account_is_created = true /\
  RegistrationTestCase.test_required_fields = true /\ RegistrationTestCase.test_invalid_email = true /\
  RegistrationTestCase.test_unique_username = true /\ LoginTestCase.test_successful_login = true /\
  LoginTestCase.test_wrong_credentials = true /\ LoginTestCase.test_logout = true /\
  ProfileTestCase.test_login_required = true /\ ProfileTestCase.test_profile_detail = true /\
  ProfileTestCase.test_update_profile = true.
Proof. vm_compute. repeat split. Qed.
